(** * APIIntegration: weather and cryptocurrency clients

    A shallow embedding of [APIIntegration.py]: the two fetch methods of
    class [APIIntegration], the Python values they handle, and the effects
    they perform (one HTTP GET, at most one JSON decoding, lines printed to
    standard output, exceptions raised and caught).

    Conventions of the embedding.
    - A Python value decoded from JSON is a [pyval]; a [dict] is a list of
      key/value pairs in insertion order, consulted from the front.
    - Python [str] is [string]; the case functions act on the ASCII letters.
    - Exceptions are a class and the text [str(e)]; message texts of the
      interpreter are those of CPython 3.12.
    - The effects are threaded by the monad [M]: a trace of events is
      extended by every call, and survives a raised exception. *)

From Stdlib Require Import ZArith String Ascii List Bool PrimFloat FloatOps
  SpecFloat Lia
  DecimalString Permutation.
From ExtLib Require Import Structures.Monad Structures.MonadExc
  Data.Monads.EitherMonad.
Import ListNotations.
Import MonadNotation.

Local Open Scope string_scope.
Local Open Scope Z_scope.
Local Open Scope monad_scope.

(** ** Python values *)

#[warnings="-register-all"]
Inductive pyval : Type :=
| PNone
| PBool (b : bool)
| PInt (n : Z)
| PFloat (f : float)
| PStr (s : string)
| PList (l : list pyval)
| PDict (d : list (string * pyval)).

(** [type(v).__name__] *)
Definition type_name (v : pyval) : string :=
  match v with
  | PNone => "NoneType"
  | PBool _ => "bool"
  | PInt _ => "int"
  | PFloat _ => "float"
  | PStr _ => "str"
  | PList _ => "list"
  | PDict _ => "dict"
  end.

(** ** Exceptions *)

Inductive exn_class : Type :=
| KeyboardInterrupt | SystemExit
| ReadTimeout | ConnectTimeout | RequestsConnectionError | RequestException
| JSONDecodeError
| KeyError | IndexError | TypeError | AttributeError | ValueError
| OverflowError | OSError.

Record exn : Type := Exn { exn_cls : exn_class; exn_str : string }.

(** [isinstance(e, requests.exceptions.Timeout)] *)
Definition is_Timeout (e : exn) : bool :=
  match exn_cls e with
  | ReadTimeout | ConnectTimeout => true
  | _ => false
  end.

(** [isinstance(e, requests.exceptions.ConnectionError)];
    [ConnectTimeout] derives from both [ConnectionError] and [Timeout]. *)
Definition is_ConnectionError (e : exn) : bool :=
  match exn_cls e with
  | ConnectTimeout | RequestsConnectionError => true
  | _ => false
  end.

(** [isinstance(e, Exception)]: everything but the classes that derive from
    [BaseException] only. *)
Definition is_Exception (e : exn) : bool :=
  match exn_cls e with
  | KeyboardInterrupt | SystemExit => false
  | _ => true
  end.

(** ** Effects *)

Inductive event : Type :=
| EvGet (url : string) (params : list (string * string)) (timeout : Z)
| EvJson
| EvPrint (line : string).

Definition trace := list event.

Definition M (A : Type) : Type := trace -> (exn + A) * trace.

Definition M_ret {A} (a : A) : M A := fun t => (inr a, t).

Definition M_bind {A B} (c : M A) (k : A -> M B) : M B :=
  fun t =>
    match c t with
    | (inl e, t') => (inl e, t')
    | (inr a, t') => k a t'
    end.

#[export] Instance Monad_M : Monad M :=
  {| ret := @M_ret; bind := @M_bind |}.

Definition M_raise {A} (e : exn) : M A := fun t => (inl e, t).

(** [try: c  except ...: h e] *)
Definition M_catch {A} (c : M A) (h : exn -> M A) : M A :=
  fun t =>
    match c t with
    | (inl e, t') => h e t'
    | (inr a, t') => (inr a, t')
    end.

#[export] Instance MonadExc_M : MonadExc exn M :=
  {| raise := @M_raise; catch := @M_catch |}.

Definition emit (ev : event) : M unit := fun t => (inr tt, (t ++ [ev])%list).

(** [print(line)] *)
Definition print (line : string) : M unit := emit (EvPrint line).

Definition lift {A} (r : exn + A) : M A :=
  match r with
  | inl e => raise e
  | inr a => ret a
  end.

(** The lines printed along a trace. *)
Fixpoint printed (t : trace) : list string :=
  match t with
  | [] => []
  | EvPrint s :: t' => s :: printed t'
  | _ :: t' => printed t'
  end.

(** Whether the body of a response was decoded along a trace. *)
Fixpoint parsed (t : trace) : bool :=
  match t with
  | [] => false
  | EvJson :: _ => true
  | _ :: t' => parsed t'
  end.

(** A call started on the empty trace: its result and the events it left. *)
Definition run {A} (c : M A) : (exn + A) * trace := c [].

(** ** Operations of the interpreter on values *)

Definition dict := list (string * pyval).

(** [d.get(k)] on the pairs of a dict *)
Fixpoint dict_get (k : string) (d : dict) : option pyval :=
  match d with
  | [] => None
  | (k', v) :: d' => if String.eqb k k' then Some v else dict_get k d'
  end.

(** [k in d] *)
Definition dict_mem (k : string) (d : dict) : bool :=
  match dict_get k d with Some _ => true | None => false end.

(** [d[k] = v]: an existing key keeps its place, a new key goes last. *)
Fixpoint dict_set (k : string) (v : pyval) (d : dict) : dict :=
  match d with
  | [] => [(k, v)]
  | (k', v') :: d' =>
      if String.eqb k k' then (k', v) :: d' else (k', v') :: dict_set k v d'
  end.

Definition keys (d : dict) : list string := map fst d.

(** [repr(k)] for the keys the program subscripts with, which are literals of
    letters, digits and underscores. *)
Definition repr_key (k : string) : string := "'" ++ k ++ "'".

(** [v[k]] for a [str] key *)
Definition subscript (v : pyval) (k : string) : exn + pyval :=
  match v with
  | PDict d =>
      match dict_get k d with
      | Some x => inr x
      | None => inl (Exn KeyError (repr_key k))
      end
  | PList _ =>
      inl (Exn TypeError "list indices must be integers or slices, not str")
  | PStr _ => inl (Exn TypeError "string indices must be integers, not 'str'")
  | _ => inl (Exn TypeError ("'" ++ type_name v ++ "' object is not subscriptable"))
  end.

(** [str(n)] for an [int] *)
Definition str_of_int (n : Z) : string := NilZero.string_of_int (Z.to_int n).

(** [v[i]] for a literal index [i >= 0]; the keys of a decoded JSON object
    are strings, so an integer is never among them. *)
Definition subscript_int (v : pyval) (i : nat) : exn + pyval :=
  match v with
  | PList l =>
      match nth_error l i with
      | Some x => inr x
      | None => inl (Exn IndexError "list index out of range")
      end
  | PStr s =>
      match String.get i s with
      | Some c => inr (PStr (String c ""))
      | None => inl (Exn IndexError "string index out of range")
      end
  | PDict _ => inl (Exn KeyError (str_of_int (Z.of_nat i)))
  | _ => inl (Exn TypeError ("'" ++ type_name v ++ "' object is not subscriptable"))
  end.

(** [v.get(k, default)] *)
Definition method_get (v : pyval) (k : string) (default : pyval) : exn + pyval :=
  match v with
  | PDict d =>
      match dict_get k d with
      | Some x => inr x
      | None => inr default
      end
  | _ => inl (Exn AttributeError
                ("'" ++ type_name v ++ "' object has no attribute 'get'"))
  end.

(** [a in b] for two [str]: [a] occurs in [b] as a substring. *)
Fixpoint substring_of (a b : string) : bool :=
  String.prefix a b ||
  match b with
  | EmptyString => false
  | String _ b' => substring_of a b'
  end.

(** [x == PStr k] as decided by [list.__contains__] *)
Definition eq_str (k : string) (x : pyval) : bool :=
  match x with
  | PStr s => String.eqb k s
  | _ => false
  end.

(** [k in v] for a [str] [k] *)
Definition contains (k : string) (v : pyval) : exn + bool :=
  match v with
  | PDict d => inr (dict_mem k d)
  | PList l => inr (existsb (eq_str k) l)
  | PStr s => inr (substring_of k s)
  | _ => inl (Exn TypeError
                ("argument of type '" ++ type_name v ++ "' is not iterable"))
  end.

(** *** [str.title] *)

Definition is_upper (c : ascii) : bool :=
  ((65 <=? N_of_ascii c) && (N_of_ascii c <=? 90))%N.

Definition is_lower (c : ascii) : bool :=
  ((97 <=? N_of_ascii c) && (N_of_ascii c <=? 122))%N.

(** a cased character: a letter *)
Definition is_cased (c : ascii) : bool := is_upper c || is_lower c.

Definition to_upper (c : ascii) : ascii :=
  if is_lower c then ascii_of_N (N_of_ascii c - 32) else c.

Definition to_lower (c : ascii) : ascii :=
  if is_upper c then ascii_of_N (N_of_ascii c + 32) else c.

(** The loop of [str.title]: a character that follows a cased character is
    lowered, any other is raised to its title (upper) case. *)
Fixpoint title_from (previous_is_cased : bool) (s : string) : string :=
  match s with
  | EmptyString => EmptyString
  | String c s' =>
      String (if previous_is_cased then to_lower c else to_upper c)
             (title_from (is_cased c) s')
  end.

Definition title (s : string) : string := title_from false s.

(** [v.title()] *)
Definition method_title (v : pyval) : exn + pyval :=
  match v with
  | PStr s => inr (PStr (title s))
  | _ => inl (Exn AttributeError
                ("'" ++ type_name v ++ "' object has no attribute 'title'"))
  end.

(** ** The host: local time *)

(** The argument of [datetime.fromtimestamp] once accepted as a number. *)
Inductive timestamp : Type :=
| TInt (n : Z)
| TFloat (f : float).

(** What the conversion to local time can raise. *)
Inductive time_error : Type :=
| TimeOverflowError (msg : string)
| TimeOSError (msg : string)
| TimeValueError (msg : string).

Definition exn_of_time_error (e : time_error) : exn :=
  match e with
  | TimeOverflowError m => Exn OverflowError m
  | TimeOSError m => Exn OSError m
  | TimeValueError m => Exn ValueError m
  end.

(** ** The transport *)

(** A completed exchange: the status code, and what [response.json()] gives,
    the decoded body or the exception of the decoder. *)
Record response : Type := Response { status_code : Z; json : exn + pyval }.

(** ** The class *)

Record APIIntegration : Type := {
  weather_api_key : string;
  weather_base_url : string;
  crypto_base_url : string
}.

(** [__init__] *)
Definition init : APIIntegration := {|
  weather_api_key := "demo_key";
  weather_base_url := "http://api.openweathermap.org/data/2.5/weather";
  crypto_base_url := "https://api.coingecko.com/api/v3"
|}.

(** [','.join(l)] *)
Fixpoint join (sep : string) (l : list string) : string :=
  match l with
  | [] => ""
  | [x] => x
  | x :: l' => x ++ sep ++ join sep l'
  end.

Section Client.

(** [requests.get(url, params=params, timeout=timeout)]: the exchange, or
    the exception raised instead. *)
Variable http_get : string -> list (string * string) -> Z -> exn + response.

(** [datetime.fromtimestamp(t).strftime('%Y-%m-%d %H:%M:%S')] for a number
    [t]; it depends on the time zone of the host. *)
Variable local_strftime : timestamp -> time_error + string.

Definition requests_get (url : string) (params : list (string * string))
    (timeout : Z) : M response :=
  emit (EvGet url params timeout) ;;
  lift (http_get url params timeout).

Definition response_json (r : response) : M pyval :=
  emit EvJson ;;
  lift (json r).

(** [datetime.fromtimestamp(v).strftime('%Y-%m-%d %H:%M:%S')] *)
Definition fromtimestamp_strftime (v : pyval) : exn + pyval :=
  let convert t :=
    match local_strftime t with
    | inl e => inl (exn_of_time_error e)
    | inr s => inr (PStr s)
    end in
  match v with
  | PInt n => convert (TInt n)
  | PBool b => convert (TInt (if b then 1 else 0))
  | PFloat f => convert (TFloat f)
  | _ => inl (Exn TypeError
                ("'" ++ type_name v ++ "' object cannot be interpreted as an integer"))
  end.

(** The three [except] clauses shared by both methods, in their order;
    an exception that matches none of them propagates. *)
Definition handlers (api_name : string) (e : exn) : M pyval :=
  if is_Timeout e then
    print "Error: Request timed out. Please check your internet connection." ;;
    ret PNone
  else if is_ConnectionError e then
    print ("Error: Failed to connect to " ++ api_name
           ++ " API. Please check your internet connection.") ;;
    ret PNone
  else if is_Exception e then
    print ("Error: " ++ exn_str e) ;;
    ret PNone
  else raise e.

(** The dict literal assigned to [weather_info]: its values are
    evaluated in the order they are written, and the first exception
    ends the evaluation. *)
Definition weather_info_of (data : pyval) : exn + pyval :=
  city <- subscript data "name" ;;
  sys <- subscript data "sys" ;;
  country <- subscript sys "country" ;;
  main1 <- subscript data "main" ;;
  temperature <- subscript main1 "temp" ;;
  main2 <- subscript data "main" ;;
  feels_like <- subscript main2 "feels_like" ;;
  main3 <- subscript data "main" ;;
  humidity <- subscript main3 "humidity" ;;
  main4 <- subscript data "main" ;;
  pressure <- subscript main4 "pressure" ;;
  weather <- subscript data "weather" ;;
  weather0 <- subscript_int weather 0 ;;
  description <- subscript weather0 "description" ;;
  weather_description <- method_title description ;;
  wind <- subscript data "wind" ;;
  wind_speed <- subscript wind "speed" ;;
  visibility <- method_get data "visibility" (PStr "N/A") ;;
  dt <- subscript data "dt" ;;
  timestamp <- fromtimestamp_strftime dt ;;
  ret (PDict [("city", city);
              ("country", country);
              ("temperature", temperature);
              ("feels_like", feels_like);
              ("humidity", humidity);
              ("pressure", pressure);
              ("weather_description", weather_description);
              ("wind_speed", wind_speed);
              ("visibility", visibility);
              ("timestamp", timestamp)]).

(** [fetch_weather_data(self, city_name)] *)
Definition fetch_weather_data (self : APIIntegration) (city_name : string)
    : M pyval :=
  catch
    (let params := [("q", city_name);
                    ("appid", weather_api_key self);
                    ("units", "metric")] in
     response <- requests_get (weather_base_url self) params 10 ;;
     if status_code response =? 200 then
       data <- response_json response ;;
       weather_info <- lift (weather_info_of data) ;;
       ret weather_info
     else
       print ("Error: Unable to fetch weather data (Status code: "
              ++ str_of_int (status_code response) ++ ")") ;;
       ret PNone)
    (handlers "weather").

(** The [for symbol in crypto_symbols] loop, from the symbols still to
    visit and the [crypto_info] built so far. *)
Fixpoint crypto_loop (data : pyval) (crypto_symbols : list string)
    (crypto_info : dict) : exn + dict :=
  match crypto_symbols with
  | [] => ret crypto_info
  | symbol :: rest =>
      present <- contains symbol data ;;
      if (present : bool) then
        entry1 <- subscript data symbol ;;
        price <- subscript entry1 "usd" ;;
        entry2 <- subscript data symbol ;;
        change_24h <- method_get entry2 "usd_24h_change" (PInt 0) ;;
        entry3 <- subscript data symbol ;;
        market_cap <- method_get entry3 "usd_market_cap" (PStr "N/A") ;;
        entry4 <- subscript data symbol ;;
        volume_24h <- method_get entry4 "usd_24h_vol" (PStr "N/A") ;;
        crypto_loop data rest
          (dict_set symbol
             (PDict [("price", price);
                     ("change_24h", change_24h);
                     ("market_cap", market_cap);
                     ("volume_24h", volume_24h)])
             crypto_info)
      else crypto_loop data rest crypto_info
  end.

(** [fetch_crypto_prices(self, crypto_symbols)] *)
Definition fetch_crypto_prices (self : APIIntegration)
    (crypto_symbols : list string) : M pyval :=
  catch
    (let ids := join "," crypto_symbols in
     let url := crypto_base_url self ++ "/simple/price" in
     let params := [("ids", ids);
                    ("vs_currencies", "usd");
                    ("include_24hr_change", "true");
                    ("include_market_cap", "true");
                    ("include_24hr_vol", "true")] in
     response <- requests_get url params 10 ;;
     if status_code response =? 200 then
       data <- response_json response ;;
       crypto_info <- lift (crypto_loop data crypto_symbols []) ;;
       ret (PDict crypto_info)
     else
       print ("Error: Unable to fetch crypto data (Status code: "
              ++ str_of_int (status_code response) ++ ")") ;;
       ret PNone)
    (handlers "crypto").

End Client.

(** ** Test doubles

    The theorems below hold for every transport and every host. The examples
    run the methods against a transport that answers every request with one
    fixed outcome, and against a host whose zone is UTC. *)

Definition mock_get (outcome : exn + response)
    : string -> list (string * string) -> Z -> exn + response :=
  fun _ _ _ => outcome.

(** A 200 (or other) answer whose body decodes to [data]. *)
Definition answer (code : Z) (data : pyval) : exn + response :=
  inr (Response code (inr data)).

(** [n] in decimal, padded with zeros to [width] digits. *)
Fixpoint zero_pad (width : nat) (s : string) : string :=
  match width with
  | O => s
  | S w => if (String.length s <=? w)%nat then zero_pad w ("0" ++ s) else s
  end.

Definition digits (width : nat) (n : Z) : string :=
  zero_pad width (str_of_int n).

(** The proleptic Gregorian date of the day [days] after 1970-01-01. *)
Definition civil_from_days (days : Z) : Z * Z * Z :=
  let z := days + 719468 in
  let era := z / 146097 in
  let doe := z mod 146097 in
  let yoe := (doe - doe / 1460 + doe / 36524 - doe / 146096) / 365 in
  let doy := doe - (365 * yoe + yoe / 4 - yoe / 100) in
  let mp := (5 * doy + 2) / 153 in
  let d := doy - (153 * mp + 2) / 5 + 1 in
  let m := if mp <? 10 then mp + 3 else mp - 9 in
  let y := yoe + era * 400 + (if m <=? 2 then 1 else 0) in
  (y, m, d).

(** A host in the UTC zone, for whole seconds from 1970-01-01 00:00:00 to
    9999-12-31 23:59:59; this double refuses every other timestamp. *)
Definition utc_strftime (t : timestamp) : time_error + string :=
  match t with
  | TInt n =>
      if (0 <=? n) && (n <=? 253402300799) then
        let '(y, m, d) := civil_from_days (n / 86400) in
        let s := n mod 86400 in
        inr (digits 4 y ++ "-" ++ digits 2 m ++ "-" ++ digits 2 d ++ " "
             ++ digits 2 (s / 3600) ++ ":" ++ digits 2 (s mod 3600 / 60)
             ++ ":" ++ digits 2 (s mod 60))
      else inl (TimeValueError "timestamp outside the range of the test host")
  | TFloat _ => inl (TimeValueError "timestamp outside the range of the test host")
  end.

(** A complete answer of the weather service. *)
Definition london : pyval :=
  PDict [("coord", PDict [("lon", PFloat (-0.125)%float); ("lat", PFloat 51.5%float)]);
         ("weather", PList [PDict [("id", PInt 500); ("main", PStr "Rain");
                                   ("description", PStr "light rain")]]);
         ("main", PDict [("temp", PFloat 11.5%float); ("feels_like", PFloat 10.25%float);
                         ("pressure", PInt 1012); ("humidity", PInt 81)]);
         ("visibility", PInt 10000);
         ("wind", PDict [("speed", PFloat 4.5%float)]);
         ("dt", PInt 1609459200);
         ("sys", PDict [("country", PStr "GB")]);
         ("name", PStr "London")].

(** The same answer without [main.humidity]. *)
Definition london_without_humidity : pyval :=
  PDict [("weather", PList [PDict [("description", PStr "light rain")]]);
         ("main", PDict [("temp", PFloat 11.5%float); ("feels_like", PFloat 10.25%float);
                         ("pressure", PInt 1012)]);
         ("visibility", PInt 10000);
         ("wind", PDict [("speed", PFloat 4.5%float)]);
         ("dt", PInt 1609459200);
         ("sys", PDict [("country", PStr "GB")]);
         ("name", PStr "London")].

(** The same answer without [wind.speed]. *)
Definition london_without_wind_speed : pyval :=
  PDict [("weather", PList [PDict [("description", PStr "light rain")]]);
         ("main", PDict [("temp", PFloat 11.5%float); ("feels_like", PFloat 10.25%float);
                         ("pressure", PInt 1012); ("humidity", PInt 81)]);
         ("visibility", PInt 10000);
         ("wind", PDict []);
         ("dt", PInt 1609459200);
         ("sys", PDict [("country", PStr "GB")]);
         ("name", PStr "London")].

(** The same answer without [visibility]. *)
Definition london_without_visibility : pyval :=
  PDict [("weather", PList [PDict [("description", PStr "light rain")]]);
         ("main", PDict [("temp", PFloat 11.5%float); ("feels_like", PFloat 10.25%float);
                         ("pressure", PInt 1012); ("humidity", PInt 81)]);
         ("wind", PDict [("speed", PFloat 4.5%float)]);
         ("dt", PInt 1609459200);
         ("sys", PDict [("country", PStr "GB")]);
         ("name", PStr "London")].

(** The methods against a transport with one fixed outcome, on a fresh
    object and the UTC host. *)
Definition weather_against (outcome : exn + response) (city_name : string)
    : (exn + pyval) * trace :=
  run (fetch_weather_data (mock_get outcome) utc_strftime init city_name).

Definition prices_against (outcome : exn + response) (crypto_symbols : list string)
    : (exn + pyval) * trace :=
  run (fetch_crypto_prices (mock_get outcome) init crypto_symbols).

(** ** Vocabulary of the properties *)

(** The request each method sends. *)
Definition weather_params (self : APIIntegration) (city_name : string)
    : list (string * string) :=
  [("q", city_name); ("appid", weather_api_key self); ("units", "metric")].

Definition crypto_url (self : APIIntegration) : string :=
  crypto_base_url self ++ "/simple/price".

Definition crypto_params (crypto_symbols : list string) : list (string * string) :=
  [("ids", join "," crypto_symbols);
   ("vs_currencies", "usd");
   ("include_24hr_change", "true");
   ("include_market_cap", "true");
   ("include_24hr_vol", "true")].

Definition weather_request (self : APIIntegration) (city_name : string) : event :=
  EvGet (weather_base_url self) (weather_params self city_name) 10.

Definition crypto_request (self : APIIntegration) (crypto_symbols : list string)
    : event :=
  EvGet (crypto_url self) (crypto_params crypto_symbols) 10.

(** What a call returned, and the lines it printed. *)
Definition returned {A} (x : (exn + A) * trace) : exn + A := fst x.
Definition output {A} (x : (exn + A) * trace) : list string := printed (snd x).

(** The error taxonomy of the specification. *)
Inductive ClassifiedError : Type :=
| Timeout
| ConnectionFailure
| UpstreamStatus (code : Z)
| Unknown (message : string).

(** A path into a decoded body, such as [weather[0].description]. *)
Inductive step : Type :=
| Key (k : string)
| Index (i : nat).

Fixpoint resolve (v : pyval) (path : list step) : exn + pyval :=
  match path with
  | [] => inr v
  | Key k :: path' =>
      match subscript v k with
      | inl e => inl e
      | inr x => resolve x path'
      end
  | Index i :: path' =>
      match subscript_int v i with
      | inl e => inl e
      | inr x => resolve x path'
      end
  end.

Definition description_path : list step :=
  [Key "weather"; Index 0; Key "description"].

(** The required fields of a weather response. *)
Definition required_fields : list (list step) :=
  [[Key "name"];
   [Key "sys"; Key "country"];
   [Key "main"; Key "temp"];
   [Key "main"; Key "feels_like"];
   [Key "main"; Key "humidity"];
   [Key "main"; Key "pressure"];
   description_path;
   [Key "wind"; Key "speed"];
   [Key "dt"]].

(** The keys of the dict a successful [fetch_weather_data] returns. *)
Definition weather_keys : list string :=
  ["city"; "country"; "temperature"; "feels_like"; "humidity"; "pressure";
   "weather_description"; "wind_speed"; "visibility"; "timestamp"].

(** The keys of each quote a successful [fetch_crypto_prices] returns. *)
Definition quote_keys : list string :=
  ["price"; "change_24h"; "market_cap"; "volume_24h"].

(** The quote built from the object [o] of one asset and its price. *)
Definition quote_of (o : dict) (price : pyval) : pyval :=
  PDict [("price", price);
         ("change_24h",
          match dict_get "usd_24h_change" o with Some x => x | None => PInt 0 end);
         ("market_cap",
          match dict_get "usd_market_cap" o with Some x => x | None => PStr "N/A" end);
         ("volume_24h",
          match dict_get "usd_24h_vol" o with Some x => x | None => PStr "N/A" end)].


(** The text is ASCII. On such text the case functions and [strip] are
    those of Python, whose tables for the other characters are not
    modelled. *)
Definition ascii_text (s : string) : bool :=
  forallb (fun c => (N_of_ascii c <? 128)%N) (list_ascii_of_string s).


(** The elements of a list at their first occurrence. *)
Fixpoint first_occurrences (l : list string) : list string :=
  match l with
  | [] => []
  | x :: l' => x :: filter (fun y => negb (String.eqb x y)) (first_occurrences l')
  end.

(** The transport and the decoder raise nothing outside [Exception]. *)
Definition raises_only_Exception
    (http_get : string -> list (string * string) -> Z -> exn + response) : Prop :=
  forall url params timeout,
    match http_get url params timeout with
    | inl e => is_Exception e = true
    | inr r =>
        match json r with
        | inl e => is_Exception e = true
        | inr _ => True
        end
    end.

(** An exception of the interpreter or of the host, caught by the last
    [except] clause only. *)
Definition plain (e : exn) : bool :=
  negb (is_Timeout e) && negb (is_ConnectionError e) && is_Exception e.

(** [symbol in data] when the test raises nothing. *)
Definition present (data : pyval) (symbol : string) : bool :=
  match contains symbol data with
  | inr b => b
  | inl _ => false
  end.

(** The lines of the three [except] clauses. *)
Definition timeout_line : string :=
  "Error: Request timed out. Please check your internet connection.".

Definition connection_line (api_name : string) : string :=
  "Error: Failed to connect to " ++ api_name
  ++ " API. Please check your internet connection.".

Definition exception_line (e : exn) : string := "Error: " ++ exn_str e.

(** The line of the [else] branch, for a status code other than 200. *)
Definition status_line (what : string) (code : Z) : string :=
  "Error: Unable to fetch " ++ what ++ " data (Status code: "
  ++ str_of_int code ++ ")".

(** [a] is [b] with some elements left out: the elements of [a] stand in
    [b] in the same relative order. *)
Inductive subsequence : list string -> list string -> Prop :=
| subsequence_nil : subsequence [] []
| subsequence_skip x a b : subsequence a b -> subsequence a (x :: b)
| subsequence_keep x a b : subsequence a b -> subsequence (x :: a) (x :: b).

(** ** Vocabulary of the further properties *)

(** The requests sent along a trace. *)
Fixpoint requests (t : trace) : list event :=
  match t with
  | [] => []
  | EvGet url params timeout :: t' => EvGet url params timeout :: requests t'
  | _ :: t' => requests t'
  end.

(** How many times a body was decoded along a trace. *)
Fixpoint decodings (t : trace) : nat :=
  match t with
  | [] => O
  | EvJson :: t' => S (decodings t')
  | _ :: t' => decodings t'
  end.

(** The entries of the weather dict that are copied from the body as they
    are, with the place they are read at. *)
Definition copied_fields : list (string * list step) :=
  [("city", [Key "name"]);
   ("country", [Key "sys"; Key "country"]);
   ("temperature", [Key "main"; Key "temp"]);
   ("feels_like", [Key "main"; Key "feels_like"]);
   ("humidity", [Key "main"; Key "humidity"]);
   ("pressure", [Key "main"; Key "pressure"]);
   ("wind_speed", [Key "wind"; Key "speed"])].

(** One turn of the loop of [fetch_crypto_prices]: the symbol is skipped
    ([None]), or its quote is stored. *)
Definition crypto_step (data : pyval) (symbol : string) : exn + option pyval :=
  present <- contains symbol data ;;
  if (present : bool) then
    entry1 <- subscript data symbol ;;
    price <- subscript entry1 "usd" ;;
    entry2 <- subscript data symbol ;;
    change_24h <- method_get entry2 "usd_24h_change" (PInt 0) ;;
    entry3 <- subscript data symbol ;;
    market_cap <- method_get entry3 "usd_market_cap" (PStr "N/A") ;;
    entry4 <- subscript data symbol ;;
    volume_24h <- method_get entry4 "usd_24h_vol" (PStr "N/A") ;;
    ret (Some (PDict [("price", price);
                      ("change_24h", change_24h);
                      ("market_cap", market_cap);
                      ("volume_24h", volume_24h)]))
  else ret None.

(** ** Presentation: text of values *)

(** The line feed of ["\n"], the double quote, the tab and the carriage
    return. *)
Definition LF : ascii := ascii_of_nat 10.
Definition DQUOTE : ascii := ascii_of_nat 34.
Definition TAB : ascii := ascii_of_nat 9.
Definition CR : ascii := ascii_of_nat 13.

Definition nl : string := String LF "".

(** [s * n] *)
Fixpoint str_mul (s : string) (n : nat) : string :=
  match n with
  | O => ""
  | S n' => s ++ str_mul s n'
  end.

(** [s.upper()] and [s.lower()], on the ASCII letters *)
Fixpoint upper (s : string) : string :=
  match s with
  | EmptyString => EmptyString
  | String c s' => String (to_upper c) (upper s')
  end.

Fixpoint lower (s : string) : string :=
  match s with
  | EmptyString => EmptyString
  | String c s' => String (to_lower c) (lower s')
  end.

Fixpoint has_char (c : ascii) (s : string) : bool :=
  match s with
  | EmptyString => false
  | String c' s' => Ascii.eqb c c' || has_char c s'
  end.

Definition hex_digit (n : N) : ascii :=
  match String.get (N.to_nat n) "0123456789abcdef" with
  | Some c => c
  | None => "0"%char
  end.

(** One character inside [repr(s)], for the quote chosen. *)
Definition escaped (quote c : ascii) : string :=
  let n := N_of_ascii c in
  if Ascii.eqb c quote || Ascii.eqb c "\"%char then String "\"%char (String c "")
  else if Ascii.eqb c TAB then "\t"
  else if Ascii.eqb c LF then "\n"
  else if Ascii.eqb c CR then "\r"
  else if ((n <? 32) || (n =? 127))%N
  then String "\"%char (String "x"%char
         (String (hex_digit (n / 16)) (String (hex_digit (n mod 16)) "")))
  else String c "".

Fixpoint escaped_all (quote : ascii) (s : string) : string :=
  match s with
  | EmptyString => EmptyString
  | String c s' => escaped quote c ++ escaped_all quote s'
  end.

(** [repr(s)] for a [str] of ASCII text: single quotes, unless the text
    has a single quote and no double quote. The escapes of characters
    outside ASCII that are not printable are not modelled. *)
Definition repr_str (s : string) : string :=
  let quote :=
    if has_char "'"%char s && negb (has_char DQUOTE s) then DQUOTE else "'"%char in
  String quote (escaped_all quote s ++ String quote "").

(** [a / b] rounded to the nearest integer, a tie to the even one, for
    [0 <= a] and [0 < b]. *)
Definition div_half_even (a b : Z) : Z :=
  let q := a / b in
  let r := a mod b in
  if 2 * r <? b then q
  else if b <? 2 * r then q + 1
  else if Z.even q then q else q + 1.

(** The decimals [d * 10^k] that read back as the float [m * 2^e]: the
    least and the greatest [d], and the [d] nearest to the float. The
    float is [4 * m] quarters of its last place; the numbers that round
    to it lie two quarters on either side, one quarter only below a
    power of two, the ends included when [m] is even. *)
Definition candidates (m e k : Z) : Z * Z * Z :=
  let boundary := (m =? 2 ^ 52) && (-1074 <? e) in
  let lo := if boundary then 4 * m - 1 else 4 * m - 2 in
  let hi := 4 * m + 2 in
  let a := 10 ^ Z.max k 0 * 2 ^ Z.max (2 - e) 0 in
  let b := 2 ^ Z.max (e - 2) 0 * 10 ^ Z.max (- k) 0 in
  let closed := Z.even m in
  let d_min :=
    if (lo * b) mod a =? 0
    then (if closed then lo * b / a else lo * b / a + 1)
    else lo * b / a + 1 in
  let d_max :=
    if (hi * b) mod a =? 0
    then (if closed then hi * b / a else hi * b / a - 1)
    else hi * b / a in
  (d_min, d_max, div_half_even (4 * m * b) a).

(** The greatest [k], from a [k] with [10^k] above the float downwards,
    for which a decimal [d * 10^k] reads back as the float, with the [d]
    chosen: the shortest digits. *)
Fixpoint shortest (fuel : nat) (m e k : Z) : Z * Z :=
  let '(d_min, d_max, d) := candidates m e k in
  if d_min <=? d_max then (Z.max d_min (Z.min d d_max), k)
  else
    match fuel with
    | O => (d, k)
    | S fuel' => shortest fuel' m e (k - 1)
    end.

(** [repr] of the positive finite float [m * 2^e]. *)
Definition repr_finite (m e : Z) : string :=
  let k0 := Z.max ((e + 53) * 30103 / 100000) ((e + 53) * 30102 / 100000) + 2 in
  let '(d, k) := shortest 40 m e k0 in
  let digits := str_of_int d in
  let n := Z.of_nat (String.length digits) in
  let decpt := n + k in
  if (-4 <? decpt) && (decpt <=? 16) then
    if decpt <=? 0 then "0." ++ str_mul "0" (Z.to_nat (- decpt)) ++ digits
    else if n <=? decpt then digits ++ str_mul "0" (Z.to_nat (decpt - n)) ++ ".0"
    else String.substring 0 (Z.to_nat decpt) digits ++ "."
         ++ String.substring (Z.to_nat decpt) (Z.to_nat (n - decpt)) digits
  else
    let x := decpt - 1 in
    String.substring 0 1 digits
    ++ (if 1 <? n then "." ++ String.substring 1 (Z.to_nat (n - 1)) digits else "")
    ++ "e" ++ (if x <? 0 then "-" else "+")
    ++ (if Z.abs x <? 10 then "0" else "") ++ str_of_int (Z.abs x).

(** [repr(f)] for a [float], which is also [str(f)] *)
Definition float_repr (f : float) : string :=
  match Prim2SF f with
  | S754_nan => "nan"
  | S754_infinity s => if s then "-inf" else "inf"
  | S754_zero s => if s then "-0.0" else "0.0"
  | S754_finite s m e => (if s then "-" else "") ++ repr_finite (Zpos m) e
  end.

(** [repr(v)] *)
Fixpoint py_repr (v : pyval) : string :=
  match v with
  | PNone => "None"
  | PBool b => if b then "True" else "False"
  | PInt n => str_of_int n
  | PFloat f => float_repr f
  | PStr s => repr_str s
  | PList l => "[" ++ join ", " (map py_repr l) ++ "]"
  | PDict d =>
      "{" ++ join ", "
               (map (fun kv => match kv with
                               | (k, x) => repr_str k ++ ": " ++ py_repr x
                               end) d)
      ++ "}"
  end.

(** [str(v)], the text an f-string puts for [{v}] *)
Definition py_str (v : pyval) : string :=
  match v with
  | PStr s => s
  | _ => py_repr v
  end.

(** [bool(v)] *)
Definition truthy (v : pyval) : bool :=
  match v with
  | PNone => false
  | PBool b => b
  | PInt n => negb (n =? 0)
  | PFloat f => negb (PrimFloat.eqb f 0%float)
  | PStr s => negb (String.eqb s "")
  | PList l => match l with [] => false | _ => true end
  | PDict d => match d with [] => false | _ => true end
  end.

(** *** Format specs of the form [[+][,].<prec>f] *)

(** A comma before every group of three digits, counting from the right. *)
Fixpoint commas (digits : string) : string :=
  match digits with
  | EmptyString => EmptyString
  | String c rest =>
      String c
        (if negb (String.length rest =? 0)%nat
            && (String.length rest mod 3 =? 0)%nat
         then "," ++ commas rest
         else commas rest)
  end.

(** The digits for code [f]: [r] is the magnitude in units of [10^-prec]. *)
Definition fixed_digits (comma : bool) (prec : nat) (r : Z) : string :=
  let unit := 10 ^ Z.of_nat prec in
  let whole := str_of_int (r / unit) in
  (if comma then commas whole else whole)
  ++ match prec with
     | O => ""
     | _ => "." ++ zero_pad prec (str_of_int (r mod unit))
     end.

Definition sign_of (plus negative : bool) : string :=
  if negative then "-" else if plus then "+" else "".

(** [float(n)] for an [int]: the magnitude of the nearest float, a tie to
    the even mantissa; [None] when it is out of range. *)
Definition float_of_int (n : Z) : option Z :=
  let a := Z.abs n in
  let bits := if a =? 0 then 0 else Z.log2 a + 1 in
  if bits <=? 53 then Some a
  else
    let shift := bits - 53 in
    let v := div_half_even a (2 ^ shift) * 2 ^ shift in
    if 2 ^ 1024 <=? v then None else Some v.

(** [format(f, spec)] for a [float]: the exact value rounded to [prec]
    decimals, a tie to the even digit. *)
Definition format_float (plus comma : bool) (prec : nat) (f : float) : string :=
  match Prim2SF f with
  | S754_nan => sign_of plus false ++ "nan"
  | S754_infinity s => sign_of plus s ++ "inf"
  | S754_zero s => sign_of plus s ++ fixed_digits comma prec 0
  | S754_finite s m e =>
      let scaled := Zpos m * 10 ^ Z.of_nat prec in
      let r := if 0 <=? e then scaled * 2 ^ e
               else div_half_even scaled (2 ^ (- e)) in
      sign_of plus s ++ fixed_digits comma prec r
  end.

(** [format(n, spec)] for an [int], which is converted to a float first. *)
Definition format_int (plus comma : bool) (prec : nat) (n : Z) : exn + string :=
  match float_of_int n with
  | None => inl (Exn OverflowError "int too large to convert to float")
  | Some v =>
      inr (sign_of plus (n <? 0)
           ++ fixed_digits comma prec (v * 10 ^ Z.of_nat prec))
  end.

(** [format(v, spec)], as in [f"{v:,.2f}"] *)
Definition format_value (plus comma : bool) (prec : nat) (v : pyval)
    : exn + string :=
  match v with
  | PInt n => format_int plus comma prec n
  | PBool b => format_int plus comma prec (if b then 1 else 0)
  | PFloat f => inr (format_float plus comma prec f)
  | PStr _ =>
      inl (Exn ValueError "Unknown format code 'f' for object of type 'str'")
  | _ =>
      inl (Exn TypeError
             ("unsupported format string passed to " ++ type_name v
              ++ ".__format__"))
  end.

(** [v.items()] *)
Definition method_items (v : pyval) : exn + list (string * pyval) :=
  match v with
  | PDict d => inr d
  | _ => inl (Exn AttributeError
                ("'" ++ type_name v ++ "' object has no attribute 'items'"))
  end.

(** ** Presentation: the two display methods *)

(** [display_weather(self, weather_data)] *)
Definition display_weather (self : APIIntegration) (weather_data : pyval)
    : M unit :=
  if negb (truthy weather_data) then ret tt
  else
    print (nl ++ str_mul "=" 50) ;;
    print "🌤️  WEATHER INFORMATION" ;;
    print (str_mul "=" 50) ;;
    city <- lift (subscript weather_data "city") ;;
    country <- lift (subscript weather_data "country") ;;
    print ("Location: " ++ py_str city ++ ", " ++ py_str country) ;;
    temperature <- lift (subscript weather_data "temperature") ;;
    print ("Temperature: " ++ py_str temperature ++ "°C") ;;
    feels_like <- lift (subscript weather_data "feels_like") ;;
    print ("Feels Like: " ++ py_str feels_like ++ "°C") ;;
    weather_description <- lift (subscript weather_data "weather_description") ;;
    print ("Description: " ++ py_str weather_description) ;;
    humidity <- lift (subscript weather_data "humidity") ;;
    print ("Humidity: " ++ py_str humidity ++ "%") ;;
    pressure <- lift (subscript weather_data "pressure") ;;
    print ("Pressure: " ++ py_str pressure ++ " hPa") ;;
    wind_speed <- lift (subscript weather_data "wind_speed") ;;
    print ("Wind Speed: " ++ py_str wind_speed ++ " m/s") ;;
    visibility <- lift (subscript weather_data "visibility") ;;
    print ("Visibility: " ++ py_str visibility ++ " meters") ;;
    timestamp <- lift (subscript weather_data "timestamp") ;;
    print ("Last Updated: " ++ py_str timestamp).

(** The body of the loop of [display_crypto_prices], over the items of
    the dict. *)
Fixpoint display_quotes (items : list (string * pyval)) : M unit :=
  match items with
  | [] => ret tt
  | (symbol, data) :: rest =>
      print (nl ++ upper symbol ++ ":") ;;
      price <- lift (subscript data "price") ;;
      price_text <- lift (format_value false true 2 price) ;;
      print ("  Price: $" ++ price_text) ;;
      change_24h <- lift (subscript data "change_24h") ;;
      change_text <- lift (format_value true false 2 change_24h) ;;
      print ("  24h Change: " ++ change_text ++ "%") ;;
      market_cap <- lift (subscript data "market_cap") ;;
      (if negb (eq_str "N/A" market_cap) then
         market_cap' <- lift (subscript data "market_cap") ;;
         cap_text <- lift (format_value false true 0 market_cap') ;;
         print ("  Market Cap: $" ++ cap_text)
       else ret tt) ;;
      volume_24h <- lift (subscript data "volume_24h") ;;
      (if negb (eq_str "N/A" volume_24h) then
         volume_24h' <- lift (subscript data "volume_24h") ;;
         volume_text <- lift (format_value false true 0 volume_24h') ;;
         print ("  24h Volume: $" ++ volume_text)
       else ret tt) ;;
      display_quotes rest
  end.

(** [display_crypto_prices(self, crypto_data)] *)
Definition display_crypto_prices (self : APIIntegration) (crypto_data : pyval)
    : M unit :=
  if negb (truthy crypto_data) then ret tt
  else
    print (nl ++ str_mul "=" 50) ;;
    print "CRYPTOCURRENCY PRICES" ;;
    print (str_mul "=" 50) ;;
    items <- lift (method_items crypto_data) ;;
    display_quotes items.

(** ** Vocabulary of the presentation *)

(** The two-line sequences of [main]: fetch, then display what came back. *)
Definition show_weather
    (http_get : string -> list (string * string) -> Z -> exn + response)
    (local_strftime : timestamp -> time_error + string)
    (api : APIIntegration) (city : string) : M unit :=
  weather_data <- fetch_weather_data http_get local_strftime api city ;;
  display_weather api weather_data.

Definition show_prices
    (http_get : string -> list (string * string) -> Z -> exn + response)
    (api : APIIntegration) (crypto_symbols : list string) : M unit :=
  crypto_data <- fetch_crypto_prices http_get api crypto_symbols ;;
  display_crypto_prices api crypto_data.

(** Every text in the value, the keys of its dicts included, is ASCII:
    such text every console can print, and [repr] shows it as modelled. *)
Fixpoint ascii_value (v : pyval) : bool :=
  match v with
  | PStr s => ascii_text s
  | PList l => forallb ascii_value l
  | PDict d =>
      forallb (fun kv => match kv with
                         | (k, x) => ascii_text k && ascii_value x
                         end) d
  | _ => true
  end.

(** The same for what a call returned and printed. *)
Definition ascii_outcome (x : (exn + pyval) * trace) : bool :=
  match returned x with
  | inr v => ascii_value v
  | inl _ => true
  end
  && forallb ascii_text (output x).

(** The rule of fifty [=] signs. *)
Definition rule : string := str_mul "=" 50.

(** The text shown for an entry of a dict. *)
Definition shown (key : string) (d : dict) : string :=
  match dict_get key d with
  | Some v => py_str v
  | None => ""
  end.

(** The twelve lines [display_weather] prints for a complete dict. *)
Definition weather_report (info : dict) : list string :=
  [nl ++ rule;
   "🌤️  WEATHER INFORMATION";
   rule;
   "Location: " ++ shown "city" info ++ ", " ++ shown "country" info;
   "Temperature: " ++ shown "temperature" info ++ "°C";
   "Feels Like: " ++ shown "feels_like" info ++ "°C";
   "Description: " ++ shown "weather_description" info;
   "Humidity: " ++ shown "humidity" info ++ "%";
   "Pressure: " ++ shown "pressure" info ++ " hPa";
   "Wind Speed: " ++ shown "wind_speed" info ++ " m/s";
   "Visibility: " ++ shown "visibility" info ++ " meters";
   "Last Updated: " ++ shown "timestamp" info].

(** The keys in the order [display_weather] reads them. *)
Definition displayed_keys : list string :=
  ["city"; "country"; "temperature"; "feels_like"; "weather_description";
   "humidity"; "pressure"; "wind_speed"; "visibility"; "timestamp"].

(** A value code [f] can format: an [int] within the range of floats, a
    [bool] or a [float]. *)
Definition is_number (v : pyval) : bool :=
  match v with
  | PInt n => match float_of_int n with Some _ => true | None => false end
  | PBool _ => true
  | PFloat _ => true
  | _ => false
  end.

(** A quote [display_crypto_prices] can print: it has the four entries,
    price and change are numbers, market cap and volume are numbers or
    the string ["N/A"]. *)
Definition displayable (q : pyval) : bool :=
  match subscript q "price", subscript q "change_24h",
        subscript q "market_cap", subscript q "volume_24h" with
  | inr price, inr change, inr cap, inr volume =>
      is_number price && is_number change
      && (eq_str "N/A" cap || is_number cap)
      && (eq_str "N/A" volume || is_number volume)
  | _, _, _, _ => false
  end.

Definition entry (key : string) (q : pyval) : pyval :=
  match subscript q key with
  | inr v => v
  | inl _ => PNone
  end.

Definition number_text (plus comma : bool) (prec : nat) (v : pyval) : string :=
  match format_value plus comma prec v with
  | inr text => text
  | inl _ => ""
  end.

(** The lines printed for one displayable quote: three, and one more for
    each of market cap and volume that is not ["N/A"]. *)
Definition quote_report (item : string * pyval) : list string :=
  let '(symbol, q) := item in
  [nl ++ upper symbol ++ ":";
   "  Price: $" ++ number_text false true 2 (entry "price" q);
   "  24h Change: " ++ number_text true false 2 (entry "change_24h" q) ++ "%"]
  ++ (if eq_str "N/A" (entry "market_cap" q) then []
      else ["  Market Cap: $" ++ number_text false true 0 (entry "market_cap" q)])
  ++ (if eq_str "N/A" (entry "volume_24h" q) then []
      else ["  24h Volume: $" ++ number_text false true 0 (entry "volume_24h" q)]).

Definition prices_header : list string :=
  [nl ++ rule; "CRYPTOCURRENCY PRICES"; rule].

(** The events of printing some lines. *)
Definition prints (lines : list string) : trace := map EvPrint lines.

(** ** The program: [main] *)

(** [s.strip()]: the white space of ASCII is the tab, the line feed, the
    vertical tab, the form feed, the carriage return, the four separators
    from [0x1c] to [0x1f] and the space. *)
Definition is_space (c : ascii) : bool :=
  let n := N_of_ascii c in
  (((9 <=? n) && (n <=? 13)) || ((28 <=? n) && (n <=? 32)))%N.

Fixpoint lstrip (s : string) : string :=
  match s with
  | EmptyString => EmptyString
  | String c s' => if is_space c then lstrip s' else s
  end.

Fixpoint rstrip (s : string) : string :=
  match s with
  | EmptyString => EmptyString
  | String c s' =>
      match rstrip s' with
      | EmptyString => if is_space c then EmptyString else String c EmptyString
      | r => String c r
      end
  end.

Definition strip (s : string) : string := rstrip (lstrip s).

(** What the program does to the world, in order: an effect of the two
    clients or of a [print], and the prompt of an [input]. *)
Inductive effect : Type :=
| Core (ev : event)
| Prompt (text : string).

(** The world of a run: the lines still to be read on standard input, the
    effects so far, and the number of requests sent so far. *)
Record world : Type := World {
  stdin : list string;
  effects : list effect;
  requests_made : nat
}.

(** How a run stops short of returning: an exception of the clients or of
    the display, the [EOFError] of [input], or the end of the fuel of the
    model. *)
Inductive stop : Type :=
| Raised (e : exn)
| EOFError (msg : string)
| OutOfFuel.

Definition P (A : Type) : Type := world -> (stop + A) * world.

Definition P_ret {A} (a : A) : P A := fun w => (inr a, w).

Definition P_bind {A B} (c : P A) (k : A -> P B) : P B :=
  fun w =>
    match c w with
    | (inl s, w') => (inl s, w')
    | (inr a, w') => k a w'
    end.

#[export] Instance Monad_P : Monad P :=
  {| ret := @P_ret; bind := @P_bind |}.

Section Main.

(** The network: the outcome of the [n]-th request of the run, counted
    from zero. *)
Variable network : nat -> string -> list (string * string) -> Z -> exn + response.

Variable local_strftime : timestamp -> time_error + string.

(** A call into the clients or the display, against the network as it
    stands. *)
Definition core {A}
    (c : (string -> list (string * string) -> Z -> exn + response) -> M A)
    : P A :=
  fun w =>
    let '(r, t) := run (c (network (requests_made w))) in
    (match r with
     | inl e => inl (Raised e)
     | inr a => inr a
     end,
     {| stdin := stdin w;
        effects := (effects w ++ map Core t)%list;
        requests_made := (requests_made w + length (requests t))%nat |}).

(** [print(line)] in [main] *)
Definition say (line : string) : P unit := core (fun _ => print line).

(** [input(prompt)] *)
Definition input (prompt : string) : P string :=
  fun w =>
    match stdin w with
    | [] =>
        (inl (EOFError "EOF when reading a line"),
         {| stdin := [];
            effects := (effects w ++ [Prompt prompt])%list;
            requests_made := requests_made w |})
    | line :: rest =>
        (inr line,
         {| stdin := rest;
            effects := (effects w ++ [Prompt prompt])%list;
            requests_made := requests_made w |})
    end.

(** The [while True] loop of [main]; every turn reads a line, so that a
    fuel above the number of lines left never runs out. *)
Fixpoint interactive_mode (api : APIIntegration) (fuel : nat) : P unit :=
  match fuel with
  | O => fun w => (inl OutOfFuel, w)
  | S fuel' =>
      say (nl ++ str_mul "=" 50) ;;
      say "Choose an option:" ;;
      say "1. Check weather for another city" ;;
      say "2. Check specific cryptocurrency" ;;
      say "3. Exit" ;;
      line <- input "Enter your choice (1/2/3): " ;;
      let choice := strip line in
      if String.eqb choice "1" then
        line <- input "Enter city name: " ;;
        let city := strip line in
        (if negb (String.eqb city "") then
           weather_data <-
             core (fun http_get =>
                     fetch_weather_data http_get local_strftime api city) ;;
           core (fun _ => display_weather api weather_data)
         else ret tt) ;;
        interactive_mode api fuel'
      else if String.eqb choice "2" then
        line <- input "Enter cryptocurrency name (e.g., bitcoin, ethereum): " ;;
        let crypto := lower (strip line) in
        (if negb (String.eqb crypto "") then
           crypto_data <-
             core (fun http_get => fetch_crypto_prices http_get api [crypto]) ;;
           core (fun _ => display_crypto_prices api crypto_data)
         else ret tt) ;;
        interactive_mode api fuel'
      else if String.eqb choice "3" then
        say "Thank you for using API Integration Script!"
      else
        say "Invalid choice. Please try again." ;;
        interactive_mode api fuel'
  end.

(** [main()] *)
Definition main : P unit :=
  let api := init in
  say "🚀 API Integration Script" ;;
  say "Fetching data from external APIs..." ;;
  line <- input (nl ++ "Enter city name for weather data (e.g., London, New York): ") ;;
  let city := strip line in
  (if negb (String.eqb city "") then
     weather_data <-
       core (fun http_get => fetch_weather_data http_get local_strftime api city) ;;
     core (fun _ => display_weather api weather_data)
   else ret tt) ;;
  say (nl ++ "Fetching cryptocurrency prices...") ;;
  let crypto_symbols := ["bitcoin"; "ethereum"; "cardano"; "solana"] in
  crypto_data <-
    core (fun http_get => fetch_crypto_prices http_get api crypto_symbols) ;;
  core (fun _ => display_crypto_prices api crypto_data) ;;
  (fun w => interactive_mode api (S (length (stdin w))) w).

End Main.

(** A run of the program from the lines given on standard input. *)
Definition start (lines : list string) : world :=
  {| stdin := lines; effects := []; requests_made := 0 |}.

(** The lines a run printed, the requests it sent and the prompts it
    showed. *)
Fixpoint console (l : list effect) : list string :=
  match l with
  | [] => []
  | Core (EvPrint line) :: l' => line :: console l'
  | _ :: l' => console l'
  end.

Fixpoint sent (l : list effect) : list event :=
  match l with
  | [] => []
  | Core (EvGet url params timeout) :: l' => EvGet url params timeout :: sent l'
  | _ :: l' => sent l'
  end.

(** A computation that, from any trace, does nothing but print lines. *)
Definition quiet {A} (c : M A) : Prop :=
  forall t, exists lines, snd (c t) = (t ++ prints lines)%list.

(** ** Vocabulary of the program *)

Definition thanks : string := "Thank you for using API Integration Script!".

(** The symbols [main] asks for at start-up. *)
Definition startup_symbols : list string :=
  ["bitcoin"; "ethereum"; "cardano"; "solana"].

(** The requests the menu loop sends for the lines it reads, as long as
    nothing raises: one for the weather of each city named after a choice
    [1], one for the price of each symbol named after a choice [2], blank
    names apart, up to the first choice [3]. *)
Fixpoint plan_loop (api : APIIntegration) (lines : list string) : list event :=
  match lines with
  | [] => []
  | line :: rest =>
      let choice := strip line in
      if String.eqb choice "1" then
        match rest with
        | [] => []
        | name :: rest' =>
            (if negb (String.eqb (strip name) "")
             then [weather_request api (strip name)] else [])
            ++ plan_loop api rest'
        end
      else if String.eqb choice "2" then
        match rest with
        | [] => []
        | name :: rest' =>
            (if negb (String.eqb (lower (strip name)) "")
             then [crypto_request api [lower (strip name)]] else [])
            ++ plan_loop api rest'
        end
      else if String.eqb choice "3" then []
      else plan_loop api rest
  end.

(** Whether the lines lead the menu loop to a choice [3]. *)
Fixpoint exits_loop (lines : list string) : bool :=
  match lines with
  | [] => false
  | line :: rest =>
      let choice := strip line in
      if String.eqb choice "1" then
        match rest with
        | [] => false
        | _ :: rest' => exits_loop rest'
        end
      else if String.eqb choice "2" then
        match rest with
        | [] => false
        | _ :: rest' => exits_loop rest'
        end
      else if String.eqb choice "3" then true
      else exits_loop rest
  end.

(** The same for the whole program: the first line names the city of the
    start-up report, then come the prices of the four symbols, then the
    menu. *)
Definition plan_main (lines : list string) : list event :=
  match lines with
  | [] => []
  | line :: rest =>
      (if negb (String.eqb (strip line) "")
       then [weather_request init (strip line)] else [])
      ++ crypto_request init startup_symbols :: plan_loop init rest
  end.

Definition exits_main (lines : list string) : bool :=
  match lines with
  | [] => false
  | _ :: rest => exits_loop rest
  end.

(** What holds of the outcome [r] and the final world [w'] of a
    computation started in [w]. *)
Definition post {A} (c : P A) (w : world)
    (Q : stop + A -> world -> Prop) : Prop :=
  Q (fst (c w)) (snd (c w)).

(** From [w] to [w'] the requests [extra] were sent, and nothing else. *)
Definition extends (w w' : world) (extra : list event) : Prop :=
  sent (effects w') = (sent (effects w) ++ extra)%list /\
  requests_made w' = (requests_made w + length extra)%nat.

(** No request is answered with status 200: the transport raises an
    exception of class [Exception], or the answer has another status. *)
Definition unavailable
    (network : nat -> string -> list (string * string) -> Z -> exn + response)
    : Prop :=
  forall n url params timeout,
    match network n url params timeout with
    | inl e => is_Exception e = true
    | inr r => status_code r <> 200
    end.

(** The exceptions that can leave a fetch followed by its display: when
    the transport and the decoder raise only exceptions of class
    [Exception], those of formatting a value that is no number; when no
    request is answered with status 200, none. *)
Definition escapes
    (network : nat -> string -> list (string * string) -> Z -> exn + response)
    (e : exn) : Prop :=
  ((forall n, raises_only_Exception (network n)) ->
   In (exn_cls e) [TypeError; ValueError; OverflowError]) /\
  (unavailable network -> False).

(** The [n]-th request is answered by the [n]-th outcome of the list, and
    fails to connect when the list is exhausted. *)
Definition replies (outcomes : list (exn + response))
    : nat -> string -> list (string * string) -> Z -> exn + response :=
  fun n =>
    mock_get (nth n outcomes
                (inl (Exn RequestsConnectionError "Connection refused"))).

(** How a run started in [w] ends, when [plan] lists the requests that
    the lines to read imply and [exits] tells whether they lead to the
    choice [3]: the fuel suffices; the requests sent are the first ones of
    the plan, and all of them when the run returns or meets the end of the
    input; a return follows the line of thanks of a choice [3]; the end of
    the input is met when no choice [3] comes; an exception is one that
    satisfies [ok]. *)
Definition run_post (ok : exn -> Prop) (plan : list event) (exits : bool)
    (w : world) (r : stop + unit) (w' : world) : Prop :=
  r <> inl OutOfFuel /\
  (exists k, extends w w' (firstn k plan)) /\
  (r = inr tt ->
   exits = true /\ extends w w' plan /\
   last (console (effects w')) "" = thanks) /\
  (forall msg, r = inl (EOFError msg) ->
   exits = false /\ stdin w' = [] /\ extends w w' plan) /\
  (forall e, r = inl (Raised e) -> ok e).


(** A body with a quote of bitcoin, and one in which its change is
    [null]. *)
Definition bitcoin_body : pyval :=
  PDict [("bitcoin", PDict [("usd", PInt 50000);
                            ("usd_24h_change", PFloat 1.5%float)])].

Definition bitcoin_null_change : pyval :=
  PDict [("bitcoin", PDict [("usd", PInt 50000); ("usd_24h_change", PNone)])].

(** A session: a city, the price of a symbol, a blank city, a choice
    that is none, the exit, and a line that is never read. *)
Definition session : list string :=
  ["London "; "2"; " BitCoin "; "1"; " "; "7"; "3"; "never read"].

Definition session_network
    : nat -> string -> list (string * string) -> Z -> exn + response :=
  replies [answer 200 london; answer 200 bitcoin_body; answer 200 bitcoin_body].

(** * Properties *)

(** ** Running the methods *)

Example title_light_rain : title "light rain" = "Light Rain".
Proof. reflexivity. Qed.

Example title_mixed : title "bROKEN-clouds it's 3d" = "Broken-Clouds It'S 3D".
Proof. reflexivity. Qed.

Example str_of_int_samples :
  str_of_int 404 = "404" /\ str_of_int 0 = "0" /\ str_of_int (-7) = "-7".
Proof. repeat split; reflexivity. Qed.

Example utc_strftime_samples :
  utc_strftime (TInt 0) = inr "1970-01-01 00:00:00" /\
  utc_strftime (TInt 1609459200) = inr "2021-01-01 00:00:00" /\
  utc_strftime (TInt 1709210096) = inr "2024-02-29 12:34:56" /\
  utc_strftime (TInt 253402300799) = inr "9999-12-31 23:59:59".
Proof. repeat split; vm_compute; reflexivity. Qed.

(** What the [except] clauses do with an exception, at any trace. *)
Lemma handlers_run api_name e t :
  handlers api_name e t =
    if is_Timeout e then
      (inr PNone,
       (t ++ [EvPrint "Error: Request timed out. Please check your internet connection."])%list)
    else if is_ConnectionError e then
      (inr PNone,
       (t ++ [EvPrint ("Error: Failed to connect to " ++ api_name
                       ++ " API. Please check your internet connection.")])%list)
    else if is_Exception e then
      (inr PNone, (t ++ [EvPrint ("Error: " ++ exn_str e)])%list)
    else (inl e, t).
Proof.
  unfold handlers.
  destruct (is_Timeout e); [reflexivity|].
  destruct (is_ConnectionError e); [reflexivity|].
  destruct (is_Exception e); reflexivity.
Qed.

Section Runs.

Variable http_get : string -> list (string * string) -> Z -> exn + response.
Variable local_strftime : timestamp -> time_error + string.
Variable self : APIIntegration.

(** [fetch_weather_data] in one equation: the request, then the four
    ways the exchange can go. *)
Lemma fetch_weather_data_run city_name :
  run (fetch_weather_data http_get local_strftime self city_name) =
    let req := weather_request self city_name in
    match http_get (weather_base_url self) (weather_params self city_name) 10 with
    | inl e => handlers "weather" e [req]
    | inr r =>
        if status_code r =? 200 then
          match json r with
          | inl e => handlers "weather" e [req; EvJson]
          | inr data =>
              match weather_info_of local_strftime data with
              | inl e => handlers "weather" e [req; EvJson]
              | inr weather_info => (inr weather_info, [req; EvJson])
              end
          end
        else
          (inr PNone,
           [req; EvPrint ("Error: Unable to fetch weather data (Status code: "
                          ++ str_of_int (status_code r) ++ ")")])
    end.
Proof.
  unfold run, fetch_weather_data, weather_request, weather_params.
  set (project := weather_info_of local_strftime); clearbody project.
  cbn. unfold M_catch, M_bind, requests_get; cbn. unfold M_bind; cbn.
  destruct (http_get _ _ _) as [e|r]; cbn; [reflexivity|].
  destruct (status_code r =? 200); cbn; [|reflexivity].
  unfold M_bind, response_json; cbn. unfold M_bind; cbn.
  destruct (json r) as [e|data]; cbn; [reflexivity|].
  destruct (project data); reflexivity.
Qed.

Lemma fetch_crypto_prices_run crypto_symbols :
  run (fetch_crypto_prices http_get self crypto_symbols) =
    let req := crypto_request self crypto_symbols in
    match http_get (crypto_url self) (crypto_params crypto_symbols) 10 with
    | inl e => handlers "crypto" e [req]
    | inr r =>
        if status_code r =? 200 then
          match json r with
          | inl e => handlers "crypto" e [req; EvJson]
          | inr data =>
              match crypto_loop data crypto_symbols [] with
              | inl e => handlers "crypto" e [req; EvJson]
              | inr crypto_info => (inr (PDict crypto_info), [req; EvJson])
              end
          end
        else
          (inr PNone,
           [req; EvPrint ("Error: Unable to fetch crypto data (Status code: "
                          ++ str_of_int (status_code r) ++ ")")])
    end.
Proof.
  unfold run, fetch_crypto_prices, crypto_request, crypto_params, crypto_url.
  set (loop := crypto_loop); clearbody loop.
  cbn. unfold M_catch, M_bind, requests_get; cbn. unfold M_bind; cbn.
  destruct (http_get _ _ _) as [e|r]; cbn; [reflexivity|].
  destruct (status_code r =? 200); cbn; [|reflexivity].
  unfold M_bind, response_json; cbn. unfold M_bind; cbn.
  destruct (json r) as [e|data]; cbn; [reflexivity|].
  destruct (loop data crypto_symbols []); reflexivity.
Qed.

End Runs.

(** ** The operations raise plain exceptions *)

Lemma handlers_plain api_name e t :
  plain e = true ->
  handlers api_name e t = (inr PNone, (t ++ [EvPrint ("Error: " ++ exn_str e)])%list).
Proof.
  unfold plain; intros H. rewrite handlers_run.
  destruct (is_Timeout e); [discriminate|].
  destruct (is_ConnectionError e); [discriminate|].
  destruct (is_Exception e); [reflexivity|discriminate].
Qed.

Lemma subscript_plain v k e : subscript v k = inl e -> plain e = true.
Proof.
  destruct v; cbn; try (intros [= <-]; reflexivity).
  destruct (dict_get k d); [discriminate | intros [= <-]; reflexivity].
Qed.

Lemma subscript_int_plain v i e : subscript_int v i = inl e -> plain e = true.
Proof.
  destruct v; cbn; try (intros [= <-]; reflexivity).
  - destruct (String.get i s); [discriminate | intros [= <-]; reflexivity].
  - destruct (nth_error l i); [discriminate | intros [= <-]; reflexivity].
Qed.

Lemma method_get_plain v k default e :
  method_get v k default = inl e -> plain e = true.
Proof.
  destruct v; cbn; try (intros [= <-]; reflexivity).
  destruct (dict_get k d); discriminate.
Qed.

Lemma method_title_plain v e : method_title v = inl e -> plain e = true.
Proof. destruct v; cbn; try (intros [= <-]; reflexivity); discriminate. Qed.

Lemma contains_plain k v e : contains k v = inl e -> plain e = true.
Proof. destruct v; cbn; try (intros [= <-]; reflexivity); discriminate. Qed.

Lemma fromtimestamp_strftime_plain local_strftime v e :
  fromtimestamp_strftime local_strftime v = inl e -> plain e = true.
Proof.
  unfold fromtimestamp_strftime.
  destruct v; try (intros [= <-]; reflexivity);
    match goal with
    | |- context [local_strftime ?t] =>
        destruct (local_strftime t) as [[m|m|m]|s]
    end; cbn; try discriminate; intros [= <-]; reflexivity.
Qed.

Lemma resolve_plain path : forall v e, resolve v path = inl e -> plain e = true.
Proof.
  induction path as [|[k|i] path IH]; cbn; intros v e H; [discriminate| |].
  - destruct (subscript v k) eqn:E; [injection H as <-; eauto using subscript_plain | eauto].
  - destruct (subscript_int v i) eqn:E;
      [injection H as <-; eauto using subscript_int_plain | eauto].
Qed.

(** ** The weather projection *)

Ltac step_bind H :=
  match type of H with
  | context [match ?c with inl _ => _ | inr _ => _ end] =>
      let E := fresh "E" in
      destruct c eqn:E; [try discriminate H | cbn in H]
  end.

(** A successful projection read every field and built the ten entries. *)
Lemma weather_info_of_inv local_strftime data v :
  weather_info_of local_strftime data = inr v ->
  exists city country temperature feels_like humidity pressure raw
         wind_speed visibility dt timestamp,
    resolve data [Key "name"] = inr city /\
    resolve data [Key "sys"; Key "country"] = inr country /\
    resolve data [Key "main"; Key "temp"] = inr temperature /\
    resolve data [Key "main"; Key "feels_like"] = inr feels_like /\
    resolve data [Key "main"; Key "humidity"] = inr humidity /\
    resolve data [Key "main"; Key "pressure"] = inr pressure /\
    resolve data description_path = inr (PStr raw) /\
    resolve data [Key "wind"; Key "speed"] = inr wind_speed /\
    method_get data "visibility" (PStr "N/A") = inr visibility /\
    resolve data [Key "dt"] = inr dt /\
    fromtimestamp_strftime local_strftime dt = inr timestamp /\
    v = PDict [("city", city);
               ("country", country);
               ("temperature", temperature);
               ("feels_like", feels_like);
               ("humidity", humidity);
               ("pressure", pressure);
               ("weather_description", PStr (title raw));
               ("wind_speed", wind_speed);
               ("visibility", visibility);
               ("timestamp", timestamp)].
Proof.
  unfold weather_info_of; cbn. intros H.
  set (stamp := fromtimestamp_strftime local_strftime) in *.
  repeat step_bind H.
  injection H as <-.
  match goal with
  | E : method_title ?d = inr _ |- _ => destruct d; cbn in E; try discriminate E;
      injection E as <-
  end.
  do 11 eexists. unfold description_path; cbn.
  repeat match goal with E : _ = inr _ |- _ => rewrite E; clear E end.
  repeat split; reflexivity.
Qed.

Lemma weather_info_of_plain local_strftime data e :
  weather_info_of local_strftime data = inl e -> plain e = true.
Proof.
  unfold weather_info_of; cbn. intros H.
  set (stamp := fromtimestamp_strftime local_strftime) in *.
  repeat match type of H with
  | context [match ?c with inl _ => _ | inr _ => _ end] =>
      let E := fresh "E" in
      destruct c eqn:E;
      [ injection H as <-;
        eauto using subscript_plain, subscript_int_plain, method_get_plain,
          method_title_plain, fromtimestamp_strftime_plain
      | cbn in H ]
  end.
  discriminate H.
Qed.

(** A successful projection found every required field. *)
Lemma weather_info_of_required local_strftime data v path :
  weather_info_of local_strftime data = inr v ->
  In path required_fields ->
  exists x, resolve data path = inr x.
Proof.
  intros H Hin. apply weather_info_of_inv in H.
  destruct H as (city & country & temperature & feels_like & humidity & pressure
                 & raw & wind_speed & visibility & dt & timestamp & H).
  destruct H as (H1 & H2 & H3 & H4 & H5 & H6 & H7 & H8 & _ & H10 & _).
  unfold required_fields in Hin; cbn [In] in Hin.
  repeat (destruct Hin as [<-|Hin]; [eauto|]). contradiction.
Qed.

Ltac split_resolved H :=
  cbn in H;
  repeat match type of H with
  | context [match ?c with inl _ => _ | inr _ => _ end] =>
      let E := fresh "E" in
      destruct c eqn:E; [try discriminate H | cbn in H]
  end.

Ltac split_at before H :=
  destruct before as [|? before]; cbn in H;
  [ injection H as <- <- | injection H as <- H; try split_at before H ].

(** The projection stops at the first required field that does not
    resolve, with the exception of that lookup. *)
Lemma weather_info_of_first_failure local_strftime data before path after e :
  required_fields = (before ++ path :: after)%list ->
  (forall q, In q before -> exists x, resolve data q = inr x) ->
  (In description_path before ->
   exists raw, resolve data description_path = inr (PStr raw)) ->
  resolve data path = inl e ->
  weather_info_of local_strftime data = inl e.
Proof.
  intros Hsplit Hbefore Hdesc Hpath.
  unfold required_fields in Hsplit.
  split_at before Hsplit.
  10:{ destruct before; discriminate Hsplit. }
  all: cbn [In] in Hdesc.
  all: try (destruct Hdesc as [raw Hraw]; [tauto|]).
  all: repeat match goal with
       | H : forall q, In q (?q0 :: ?l) -> _ |- _ =>
           let Hq := fresh "Hq" in
           destruct (H q0 (or_introl eq_refl)) as [? Hq];
           assert (forall q, In q l -> exists x, resolve data q = inr x)
             by (intros; apply H; now right);
           clear H
       end.
  all: unfold description_path in *.
  all: repeat match goal with
       | H : resolve _ _ = _ |- _ => split_resolved H; revert H
       end; intros.
  all: repeat match goal with
       | H : inr _ = inr _ |- _ => injection H as H
       | H : inl _ = inl _ |- _ => injection H as H
       end; subst.
  all: repeat match goal with
       | E1 : ?lhs = inr _, E2 : ?lhs = inr _ |- _ =>
           rewrite E1 in E2; injection E2 as E2; subst
       end.
  all: unfold weather_info_of; cbn.
  all: repeat match goal with
       | E : ?lhs = _ |- context [?lhs] => rewrite E; cbn
       end.
  all: try congruence.
  destruct data; try discriminate.
  cbn. now destruct (dict_get "visibility" d).
Qed.


(** ** Dicts *)

Lemma dict_get_set s k v d :
  dict_get s (dict_set k v d) = if String.eqb s k then Some v else dict_get s d.
Proof.
  induction d as [|[k' v'] d IH]; cbn.
  - destruct (String.eqb s k); reflexivity.
  - destruct (String.eqb_spec k k') as [->|Hk]; cbn.
    + destruct (String.eqb s k'); reflexivity.
    + rewrite IH. destruct (String.eqb_spec s k') as [->|Hs]; [|reflexivity].
      destruct (String.eqb_spec k' k) as [->|]; [contradiction|reflexivity].
Qed.

Lemma dict_mem_In k d : dict_mem k d = true <-> In k (keys d).
Proof.
  unfold dict_mem. induction d as [|[k' v'] d IH]; cbn.
  - split; [discriminate|contradiction].
  - destruct (String.eqb_spec k k') as [->|Hk].
    + split; auto.
    + rewrite IH. split; [auto | intros [E|H]; [congruence | assumption]].
Qed.

Lemma dict_mem_set s k v d :
  dict_mem s (dict_set k v d) = String.eqb s k || dict_mem s d.
Proof.
  unfold dict_mem. rewrite dict_get_set. destruct (String.eqb s k); reflexivity.
Qed.

Lemma keys_dict_set k v d :
  keys (dict_set k v d) = if dict_mem k d then keys d else (keys d ++ [k])%list.
Proof.
  unfold dict_mem, keys. induction d as [|[k' v'] d IH]; cbn; [reflexivity|].
  destruct (String.eqb_spec k k') as [->|Hk]; cbn; [reflexivity|].
  rewrite IH. destruct (dict_get k d); reflexivity.
Qed.

(** ** First occurrences *)

Lemma filter_and {A} (P Q : A -> bool) l :
  filter (fun x => P x && Q x) l = filter Q (filter P l).
Proof.
  induction l as [|x l IH]; cbn; [reflexivity|].
  destruct (P x); cbn; [destruct (Q x)|]; rewrite IH; reflexivity.
Qed.

Lemma filter_swap {A} (P Q : A -> bool) l :
  filter P (filter Q l) = filter Q (filter P l).
Proof.
  rewrite <- !filter_and. apply filter_ext. intros x. apply andb_comm.
Qed.

Lemma first_occurrences_filter Q l :
  first_occurrences (filter Q l) = filter Q (first_occurrences l).
Proof.
  induction l as [|x l IH]; cbn; [reflexivity|].
  destruct (Q x) eqn:Qx; cbn.
  - rewrite IH. f_equal. apply filter_swap.
  - rewrite IH, <- filter_and. apply filter_ext. intros y.
    destruct (String.eqb_spec x y) as [<-|]; cbn; [congruence | reflexivity].
Qed.

Lemma first_occurrences_In x l : In x (first_occurrences l) <-> In x l.
Proof.
  induction l as [|y l IH]; cbn; [tauto|].
  rewrite filter_In, IH.
  destruct (String.eqb_spec y x) as [->|Hy]; cbn; [tauto|].
  split; [tauto | intros [E|H]; [tauto | auto]].
Qed.

Lemma subsequence_filter P l : subsequence (filter P l) l.
Proof.
  induction l as [|x l IH]; cbn; [constructor|].
  destruct (P x); [now apply subsequence_keep | now apply subsequence_skip].
Qed.

Lemma subsequence_trans a b c :
  subsequence a b -> subsequence b c -> subsequence a c.
Proof.
  intros Hab Hbc. revert a Hab.
  induction Hbc as [|x b c Hbc IH|x b c Hbc IH]; intros a Hab.
  - exact Hab.
  - constructor. now apply IH.
  - inversion Hab; subst; constructor; now apply IH.
Qed.

Lemma subsequence_first_occurrences l : subsequence (first_occurrences l) l.
Proof.
  induction l as [|x l IH]; cbn; [constructor|].
  apply subsequence_keep.
  eapply subsequence_trans; [apply subsequence_filter | exact IH].
Qed.

(** ** The loop over the requested symbols *)

(** One successful turn of the loop: the symbol is skipped, or the body is
    an object holding the symbol, whose entry has a price. *)
Lemma crypto_loop_cons data symbol rest acc m :
  crypto_loop data (symbol :: rest) acc = inr m ->
  (contains symbol data = inr false /\ crypto_loop data rest acc = inr m) \/
  (exists d o price,
     data = PDict d /\ dict_get symbol d = Some (PDict o) /\
     dict_get "usd" o = Some price /\
     crypto_loop data rest (dict_set symbol (quote_of o price) acc) = inr m).
Proof.
  cbn [crypto_loop]; cbn. intros H.
  destruct (contains symbol data) as [e|[|]] eqn:Hc; [discriminate H| |left; auto].
  right. destruct data; cbn in Hc; try discriminate Hc; cbn in H.
  - discriminate H.
  - discriminate H.
  - destruct (dict_get symbol d) as [entry|] eqn:He; [|discriminate H]. cbn in H.
    destruct entry; cbn in H; try discriminate H.
    destruct (dict_get "usd" d0) as [price|] eqn:Hp; [|discriminate H]. cbn in H.
    exists d, d0, price. repeat split; try assumption.
    unfold quote_of.
    destruct (dict_get "usd_24h_change" d0), (dict_get "usd_market_cap" d0),
      (dict_get "usd_24h_vol" d0); exact H.
Qed.

Lemma crypto_loop_plain data symbols : forall acc e,
  crypto_loop data symbols acc = inl e -> plain e = true.
Proof.
  induction symbols as [|symbol rest IH]; intros acc e; [discriminate|].
  cbn [crypto_loop]; cbn. intros H.
  destruct (contains symbol data) as [e'|[|]] eqn:Hc;
    [injection H as <-; eauto using contains_plain | | eauto].
  repeat match type of H with
  | context [match ?c with inl _ => _ | inr _ => _ end] =>
      let E := fresh "E" in
      destruct c eqn:E;
      [ injection H as <-; eauto using subscript_plain, method_get_plain
      | cbn in H ]
  end.
  eauto.
Qed.

(** The keys of the result: those of [crypto_info] as it was, then the
    present symbols that are new, each at its first occurrence. *)
Lemma crypto_loop_keys data symbols : forall acc m,
  crypto_loop data symbols acc = inr m ->
  keys m =
    (keys acc ++
     first_occurrences
       (filter (fun s => present data s && negb (dict_mem s acc)) symbols))%list.
Proof.
  induction symbols as [|symbol rest IH]; intros acc m H.
  - injection H as <-. cbn. now rewrite app_nil_r.
  - apply crypto_loop_cons in H.
    destruct H as [[Hc H] | (d & o & price & -> & Hs & Hp & H)].
    + cbn [filter]. unfold present at 1. rewrite Hc. cbn. eauto.
    + apply IH in H. rewrite H, keys_dict_set. cbn [filter].
      assert (Hpres : present (PDict d) symbol = true).
      { unfold present, dict_mem; cbn. unfold dict_mem. now rewrite Hs. }
      rewrite Hpres. cbn [andb].
      destruct (dict_mem symbol acc) eqn:Hm; cbn [negb].
      * f_equal. f_equal. apply filter_ext. intros s.
        rewrite dict_mem_set.
        destruct (String.eqb_spec s symbol) as [->|Hne]; [|reflexivity].
        now rewrite Hm.
      * cbn [first_occurrences]. rewrite <- app_assoc. cbn [app].
        f_equal. f_equal. rewrite <- first_occurrences_filter, <- filter_and.
        f_equal. apply filter_ext. intros s.
        rewrite dict_mem_set, String.eqb_sym, negb_orb.
        destruct (present (PDict d) s), (String.eqb symbol s), (dict_mem s acc);
          reflexivity.
Qed.

(** Every entry of the result was in [crypto_info] already, or is the quote
    of a requested symbol the body holds. *)
Lemma crypto_loop_entries data symbols : forall acc m,
  crypto_loop data symbols acc = inr m ->
  forall s q, dict_get s m = Some q ->
    dict_get s acc = Some q \/
    (In s symbols /\
     exists d o price,
       data = PDict d /\ dict_get s d = Some (PDict o) /\
       dict_get "usd" o = Some price /\ q = quote_of o price).
Proof.
  induction symbols as [|symbol rest IH]; intros acc m H s q Hq.
  - injection H as <-. auto.
  - apply crypto_loop_cons in H.
    destruct H as [[Hc H] | (d & o & price & -> & Hs & Hp & H)].
    + destruct (IH _ _ H _ _ Hq) as [Ha | (Hin & Hx)]; [auto|].
      right. split; [now right | exact Hx].
    + destruct (IH _ _ H _ _ Hq) as [Ha | (Hin & Hx)].
      * rewrite dict_get_set in Ha.
        destruct (String.eqb_spec s symbol) as [->|Hne]; [|auto].
        injection Ha as <-. right. split; [now left|].
        exists d, o, price. auto.
      * right. split; [now right | exact Hx].
Qed.

(** When every requested symbol the body holds has an object with a price,
    the loop completes. *)
Lemma crypto_loop_total d symbols :
  (forall s v, In s symbols -> dict_get s d = Some v ->
     exists o price, v = PDict o /\ dict_get "usd" o = Some price) ->
  forall acc, exists m, crypto_loop (PDict d) symbols acc = inr m.
Proof.
  induction symbols as [|symbol rest IH]; intros Hwf acc.
  - exists acc. reflexivity.
  - cbn [crypto_loop]; cbn. unfold dict_mem.
    destruct (dict_get symbol d) as [v|] eqn:Hs.
    + destruct (Hwf symbol v (or_introl eq_refl) Hs) as (o & price & -> & Hp).
      cbn. rewrite Hp. cbn.
      destruct (dict_get "usd_24h_change" o), (dict_get "usd_market_cap" o),
        (dict_get "usd_24h_vol" o); cbn; apply IH; intros; eapply Hwf; eauto;
        now right.
    + apply IH. intros; eapply Hwf; eauto. now right.
Qed.

(** A requested symbol whose object has no [usd] stops the loop. *)
Lemma crypto_loop_missing_usd d symbols symbol o :
  In symbol symbols ->
  dict_get symbol d = Some (PDict o) ->
  dict_get "usd" o = None ->
  forall acc, exists e, crypto_loop (PDict d) symbols acc = inl e.
Proof.
  intros Hin Hs Hp.
  induction symbols as [|x rest IH]; intros acc; [contradiction|].
  destruct (crypto_loop (PDict d) (x :: rest) acc) as [e|m] eqn:H; [eauto|].
  exfalso. apply crypto_loop_cons in H.
  destruct Hin as [->|Hin].
  - destruct H as [[Hc _] | (d' & o' & price & [= <-] & Hs' & Hp' & _)].
    + cbn in Hc. unfold dict_mem in Hc. rewrite Hs in Hc. discriminate.
    + congruence.
  - destruct H as [[_ H] | (d' & o' & price & _ & _ & _ & H)];
      match type of H with
      | crypto_loop _ _ ?a = _ => destruct (IH Hin a) as [e He]; congruence
      end.
Qed.

(** It stops with [KeyError: 'usd'] when the entries of the requested
    symbols are all objects. *)
Lemma crypto_loop_missing_usd_key d symbols :
  (forall s v, In s symbols -> dict_get s d = Some v -> exists o, v = PDict o) ->
  forall acc e, crypto_loop (PDict d) symbols acc = inl e ->
  e = Exn KeyError "'usd'".
Proof.
  induction symbols as [|x rest IH]; intros Hobj acc e; [discriminate|].
  cbn [crypto_loop]; cbn. unfold dict_mem.
  destruct (dict_get x d) as [v|] eqn:Hx.
  - destruct (Hobj x v (or_introl eq_refl) Hx) as [o ->]. cbn.
    destruct (dict_get "usd" o) as [price|]; cbn; [|intros [= <-]; reflexivity].
    destruct (dict_get "usd_24h_change" o), (dict_get "usd_market_cap" o),
      (dict_get "usd_24h_vol" o); cbn; apply IH; intros; eapply Hobj; eauto;
      now right.
  - apply IH. intros; eapply Hobj; eauto. now right.
Qed.

(** ** Title case *)









(** ** Concrete runs *)

Example weather_london :
  weather_against (answer 200 london) "London" =
    (inr (PDict [("city", PStr "London"); ("country", PStr "GB");
                 ("temperature", PFloat 11.5%float);
                 ("feels_like", PFloat 10.25%float);
                 ("humidity", PInt 81); ("pressure", PInt 1012);
                 ("weather_description", PStr "Light Rain");
                 ("wind_speed", PFloat 4.5%float);
                 ("visibility", PInt 10000);
                 ("timestamp", PStr "2021-01-01 00:00:00")]),
     [EvGet "http://api.openweathermap.org/data/2.5/weather"
        [("q", "London"); ("appid", "demo_key"); ("units", "metric")] 10;
      EvJson]).
Proof. vm_compute. reflexivity. Qed.

Example weather_without_humidity :
  weather_against (answer 200 london_without_humidity) "London" =
    (inr PNone, [weather_request init "London"; EvJson; EvPrint "Error: 'humidity'"]).
Proof. vm_compute. reflexivity. Qed.

Example weather_empty_list :
  weather_against
    (answer 200 (PDict [("name", PStr "X"); ("sys", PDict [("country", PStr "GB")]);
                        ("main", PDict [("temp", PInt 1); ("feels_like", PInt 1);
                                        ("humidity", PInt 1); ("pressure", PInt 1)]);
                        ("weather", PList [])])) "X" =
    (inr PNone,
     [weather_request init "X"; EvJson; EvPrint "Error: list index out of range"]).
Proof. vm_compute. reflexivity. Qed.

Example weather_404 :
  weather_against (answer 404 london) "London" =
    (inr PNone,
     [weather_request init "London";
      EvPrint "Error: Unable to fetch weather data (Status code: 404)"]).
Proof. vm_compute. reflexivity. Qed.

Example weather_connect_timeout :
  weather_against (inl (Exn ConnectTimeout "connect timed out")) "London" =
    (inr PNone, [weather_request init "London"; EvPrint timeout_line]).
Proof. vm_compute. reflexivity. Qed.

Example prices_bitcoin_only :
  prices_against (answer 200 (PDict [("bitcoin", PDict [("usd", PInt 50000)])]))
    ["bitcoin"; "ethereum"] =
    (inr (PDict [("bitcoin", PDict [("price", PInt 50000); ("change_24h", PInt 0);
                                    ("market_cap", PStr "N/A");
                                    ("volume_24h", PStr "N/A")])]),
     [EvGet "https://api.coingecko.com/api/v3/simple/price"
        [("ids", "bitcoin,ethereum"); ("vs_currencies", "usd");
         ("include_24hr_change", "true"); ("include_market_cap", "true");
         ("include_24hr_vol", "true")] 10;
      EvJson]).
Proof. vm_compute. reflexivity. Qed.

Example prices_body_is_a_list :
  prices_against (answer 200 (PList [PStr "bitcoin"])) ["ethereum"; "bitcoin"] =
    (inr PNone,
     [crypto_request init ["ethereum"; "bitcoin"]; EvJson;
      EvPrint "Error: list indices must be integers or slices, not str"]).
Proof. vm_compute. reflexivity. Qed.

Example prices_repeated_symbol :
  returned (prices_against
    (answer 200 (PDict [("b", PDict [("usd", PInt 2)]); ("a", PDict [("usd", PInt 1)])]))
    ["a"; "b"; "a"]) =
    inr (PDict [("a", quote_of [("usd", PInt 1)] (PInt 1));
                ("b", quote_of [("usd", PInt 2)] (PInt 2))]).
Proof. vm_compute. reflexivity. Qed.

(** ** What a call can do *)

Lemma prefix_Error s : String.prefix "Error: " ("Error: " ++ s) = true.
Proof. cbn. now destruct s. Qed.

(** The [except] clauses print one line and give [None], or let an
    exception outside [Exception] through. *)
Lemma handlers_cases api_name e t :
  (exists line,
     handlers api_name e t = (inr PNone, (t ++ [EvPrint line])%list) /\
     String.prefix "Error: " line = true /\ is_Exception e = true) \/
  (handlers api_name e t = (inl e, t) /\ is_Exception e = false).
Proof.
  rewrite handlers_run.
  destruct (is_Timeout e) eqn:Ht.
  { left; eexists; repeat split. destruct e as [[] ?]; try discriminate; reflexivity. }
  destruct (is_ConnectionError e) eqn:Hc.
  { left; eexists; repeat split. destruct e as [[] ?]; try discriminate; reflexivity. }
  destruct (is_Exception e) eqn:He.
  - left; eexists; repeat split; try apply prefix_Error.
  - right; auto.
Qed.

Section Outcomes.

Variable http_get : string -> list (string * string) -> Z -> exn + response.
Variable local_strftime : timestamp -> time_error + string.
Variable self : APIIntegration.

(** The three ways [fetch_weather_data] ends: the projected dict after
    a 200 answer, [None] after one printed line, or an exception outside
    [Exception] raised by the transport or the decoder. *)
Lemma fetch_weather_data_cases city_name :
  let x := run (fetch_weather_data http_get local_strftime self city_name) in
  let req := weather_request self city_name in
  (exists r data info,
     http_get (weather_base_url self) (weather_params self city_name) 10 = inr r /\
     status_code r = 200 /\ json r = inr data /\
     weather_info_of local_strftime data = inr (PDict info) /\
     x = (inr (PDict info), [req; EvJson])) \/
  (exists line t,
     x = (inr PNone, (t ++ [EvPrint line])%list) /\ printed t = [] /\
     String.prefix "Error: " line = true) \/
  (exists e t,
     x = (inl e, t) /\ printed t = [] /\ is_Exception e = false /\
     (http_get (weather_base_url self) (weather_params self city_name) 10 = inl e \/
      exists r, http_get (weather_base_url self) (weather_params self city_name) 10
                = inr r /\ json r = inl e)).
Proof.
  cbv zeta. rewrite fetch_weather_data_run. cbv zeta.
  destruct (http_get _ _ _) as [e|r] eqn:Hget.
  { destruct (handlers_cases "weather" e [weather_request self city_name])
      as [(line & -> & Hp & _) | (-> & He)].
    - right; left. exists line, [weather_request self city_name]. auto.
    - right; right. exists e, [weather_request self city_name]. auto. }
  destruct (Z.eqb_spec (status_code r) 200) as [Hcode|Hcode].
  2:{ right; left. eexists _, [weather_request self city_name].
      repeat split; try apply prefix_Error. }
  destruct (json r) as [e|data] eqn:Hjson.
  { destruct (handlers_cases "weather" e [weather_request self city_name; EvJson])
      as [(line & -> & Hp & _) | (-> & He)].
    - right; left. exists line, [weather_request self city_name; EvJson]. auto.
    - right; right. exists e, [weather_request self city_name; EvJson].
      repeat split; eauto. }
  destruct (weather_info_of local_strftime data) as [e|v] eqn:Hinfo.
  - right; left. apply weather_info_of_plain in Hinfo.
    rewrite (handlers_plain _ _ _ Hinfo).
    exists ("Error: " ++ exn_str e), [weather_request self city_name; EvJson].
    repeat split; try apply prefix_Error.
  - left. destruct (weather_info_of_inv _ _ _ Hinfo)
      as (? & ? & ? & ? & ? & ? & ? & ? & ? & ? & ? & H).
    decompose [and] H; subst v. eexists r, data, _. repeat split; eauto.
Qed.

Lemma fetch_crypto_prices_cases crypto_symbols :
  let x := run (fetch_crypto_prices http_get self crypto_symbols) in
  let req := crypto_request self crypto_symbols in
  (exists r data m,
     http_get (crypto_url self) (crypto_params crypto_symbols) 10 = inr r /\
     status_code r = 200 /\ json r = inr data /\
     crypto_loop data crypto_symbols [] = inr m /\
     x = (inr (PDict m), [req; EvJson])) \/
  (exists line t,
     x = (inr PNone, (t ++ [EvPrint line])%list) /\ printed t = [] /\
     String.prefix "Error: " line = true) \/
  (exists e t,
     x = (inl e, t) /\ printed t = [] /\ is_Exception e = false /\
     (http_get (crypto_url self) (crypto_params crypto_symbols) 10 = inl e \/
      exists r, http_get (crypto_url self) (crypto_params crypto_symbols) 10
                = inr r /\ json r = inl e)).
Proof.
  cbv zeta. rewrite fetch_crypto_prices_run. cbv zeta.
  destruct (http_get _ _ _) as [e|r] eqn:Hget.
  { destruct (handlers_cases "crypto" e [crypto_request self crypto_symbols])
      as [(line & -> & Hp & _) | (-> & He)].
    - right; left. exists line, [crypto_request self crypto_symbols]. auto.
    - right; right. exists e, [crypto_request self crypto_symbols]. auto. }
  destruct (Z.eqb_spec (status_code r) 200) as [Hcode|Hcode].
  2:{ right; left. eexists _, [crypto_request self crypto_symbols].
      repeat split; try apply prefix_Error. }
  destruct (json r) as [e|data] eqn:Hjson.
  { destruct (handlers_cases "crypto" e [crypto_request self crypto_symbols; EvJson])
      as [(line & -> & Hp & _) | (-> & He)].
    - right; left. exists line, [crypto_request self crypto_symbols; EvJson]. auto.
    - right; right. exists e, [crypto_request self crypto_symbols; EvJson].
      repeat split; eauto. }
  destruct (crypto_loop data crypto_symbols []) as [e|m] eqn:Hloop.
  - right; left. apply crypto_loop_plain in Hloop.
    rewrite (handlers_plain _ _ _ Hloop).
    exists ("Error: " ++ exn_str e), [crypto_request self crypto_symbols; EvJson].
    repeat split; try apply prefix_Error.
  - left. exists r, data, m. auto.
Qed.

End Outcomes.

Lemma printed_app (t1 t2 : trace) :
  printed (t1 ++ t2)%list = (printed t1 ++ printed t2)%list.
Proof.
  induction t1 as [|[| |line] t1 IH]; cbn; [reflexivity| | |]; now rewrite ?IH.
Qed.

(** * The claims *)

(** ** C1: failures of the transport *)

(** C1, as the code has it. When the HTTP call of [fetch_weather_data] or
    [fetch_crypto_prices] raises an exception [e] of class [Exception], the
    method returns [None] whatever the class, and prints exactly one line,
    which tells the class: the time-out line for a [Timeout] (a
    [ConnectTimeout] included), the failed-to-connect line of its service
    for a [ConnectionError] that is no [Timeout], and ["Error: "] followed
    by [str(e)] for anything else. *)
Theorem transport_failure_prints_its_class
    (http_get : string -> list (string * string) -> Z -> exn + response)
    (local_strftime : timestamp -> time_error + string)
    (self : APIIntegration) (e : exn)
    (He : is_Exception e = true) :
  exists weather_line crypto_line,
    (forall city_name,
       http_get (weather_base_url self) (weather_params self city_name) 10 = inl e ->
       run (fetch_weather_data http_get local_strftime self city_name) =
         (inr PNone, [weather_request self city_name; EvPrint weather_line])) /\
    (forall crypto_symbols,
       http_get (crypto_url self) (crypto_params crypto_symbols) 10 = inl e ->
       run (fetch_crypto_prices http_get self crypto_symbols) =
         (inr PNone, [crypto_request self crypto_symbols; EvPrint crypto_line])) /\
    (is_Timeout e = true ->
       weather_line = timeout_line /\ crypto_line = timeout_line) /\
    (is_Timeout e = false -> is_ConnectionError e = true ->
       weather_line = connection_line "weather" /\
       crypto_line = connection_line "crypto") /\
    (is_Timeout e = false -> is_ConnectionError e = false ->
       weather_line = exception_line e /\ crypto_line = exception_line e).
Proof.
  exists (if is_Timeout e then timeout_line
          else if is_ConnectionError e then connection_line "weather"
          else exception_line e),
         (if is_Timeout e then timeout_line
          else if is_ConnectionError e then connection_line "crypto"
          else exception_line e).
  split; [|split; [|split; [|split]]].
  - intros city_name H. rewrite fetch_weather_data_run, H. cbv zeta.
    rewrite handlers_run, He.
    destruct (is_Timeout e), (is_ConnectionError e); reflexivity.
  - intros crypto_symbols H. rewrite fetch_crypto_prices_run, H. cbv zeta.
    rewrite handlers_run, He.
    destruct (is_Timeout e), (is_ConnectionError e); reflexivity.
  - intros ->. auto.
  - intros -> ->. auto.
  - intros -> ->. auto.
Qed.

Lemma transport_failure_prints_its_class_witness :
  is_Exception (Exn ConnectTimeout "connect timed out") = true /\
  exists weather_line crypto_line,
    weather_against (inl (Exn ConnectTimeout "connect timed out")) "London" =
      (inr PNone, [weather_request init "London"; EvPrint weather_line]) /\
    prices_against (inl (Exn ConnectTimeout "connect timed out")) ["bitcoin"] =
      (inr PNone, [crypto_request init ["bitcoin"]; EvPrint crypto_line]) /\
    weather_line = timeout_line /\ crypto_line = timeout_line.
Proof.
  split; [reflexivity|].
  destruct (transport_failure_prints_its_class
              (mock_get (inl (Exn ConnectTimeout "connect timed out")))
              utc_strftime init (Exn ConnectTimeout "connect timed out") eq_refl)
    as (weather_line & crypto_line & Hw & Hc & Ht & _).
  exists weather_line, crypto_line.
  split; [apply Hw; reflexivity|].
  split; [apply Hc; reflexivity|].
  apply Ht; reflexivity.
Defined.

(** C1 as stated fails: a time-out and a refused connection give the caller
    the same value, [None], so no reading of the returned value tells
    [Timeout] from [ConnectionFailure]. *)
Lemma transport_failures_return_the_same_value :
  ~ exists decode : exn + pyval -> ClassifiedError,
      decode (returned (weather_against (inl (Exn ReadTimeout "read timed out"))
                          "London")) = Timeout /\
      decode (returned (weather_against
                          (inl (Exn RequestsConnectionError "connection refused"))
                          "London")) = ConnectionFailure.
Proof.
  intros (decode & H1 & H2).
  change (decode (inr PNone) = Timeout) in H1.
  change (decode (inr PNone) = ConnectionFailure) in H2.
  congruence.
Qed.

(** ** C2: a required field is absent *)

(** C2, as the code has it. For a 200 weather response in which a required
    field does not resolve, [fetch_weather_data] returns [None], never a
    dict, and prints one line, ["Error: "] followed by the text of the
    exception the dict literal raised. That exception is the one of the first
    required field, in the order of the literal, that does not resolve
    (provided the description read before it is a string); for an absent
    key its text is the key in quotes, as in [Error: 'humidity'], not a path
    and not the words "missing field". *)
Theorem missing_required_field_returns_none
    (http_get : string -> list (string * string) -> Z -> exn + response)
    (local_strftime : timestamp -> time_error + string)
    (self : APIIntegration) (city_name : string) (r : response) (data : pyval)
    (Hget : http_get (weather_base_url self) (weather_params self city_name) 10
            = inr r)
    (Hcode : status_code r = 200)
    (Hjson : json r = inr data) :
  (forall path,
     In path required_fields ->
     (forall x, resolve data path <> inr x) ->
     exists e,
       weather_info_of local_strftime data = inl e /\
       run (fetch_weather_data http_get local_strftime self city_name) =
         (inr PNone,
          [weather_request self city_name; EvJson; EvPrint (exception_line e)])) /\
  (forall before path after e,
     required_fields = (before ++ path :: after)%list ->
     (forall q, In q before -> exists x, resolve data q = inr x) ->
     (In description_path before ->
      exists raw, resolve data description_path = inr (PStr raw)) ->
     resolve data path = inl e ->
     run (fetch_weather_data http_get local_strftime self city_name) =
       (inr PNone,
        [weather_request self city_name; EvJson; EvPrint (exception_line e)])) /\
  (forall d k,
     dict_get k d = None ->
     subscript (PDict d) k = inl (Exn KeyError ("'" ++ k ++ "'"))).
Proof.
  assert (Hfail : forall e,
            weather_info_of local_strftime data = inl e ->
            run (fetch_weather_data http_get local_strftime self city_name) =
              (inr PNone,
               [weather_request self city_name; EvJson;
                EvPrint (exception_line e)])).
  { intros e He. rewrite fetch_weather_data_run, Hget, Hcode, Hjson, He. cbv zeta.
    cbn [Z.eqb Pos.eqb].
    apply handlers_plain. eapply weather_info_of_plain; eassumption. }
  split; [|split].
  - intros path Hin Habsent.
    destruct (weather_info_of local_strftime data) as [e|v] eqn:Hinfo; [eauto|].
    destruct (weather_info_of_required _ _ _ _ Hinfo Hin) as [x Hx].
    exfalso. exact (Habsent x Hx).
  - intros before path after e Hsplit Hbefore Hdesc Hpath.
    apply Hfail. eapply weather_info_of_first_failure; eassumption.
  - intros d k Hk. cbn. now rewrite Hk.
Qed.

Lemma missing_required_field_returns_none_witness :
  weather_against (answer 200 london_without_humidity) "London" =
    (inr PNone,
     [weather_request init "London"; EvJson; EvPrint "Error: 'humidity'"]).
Proof.
  refine (proj1 (proj2 (missing_required_field_returns_none
            (mock_get (answer 200 london_without_humidity)) utc_strftime init
            "London" (Response 200 (inr london_without_humidity))
            london_without_humidity eq_refl eq_refl eq_refl))
          [[Key "name"]; [Key "sys"; Key "country"]; [Key "main"; Key "temp"];
           [Key "main"; Key "feels_like"]]
          [Key "main"; Key "humidity"]
          [[Key "main"; Key "pressure"]; description_path;
           [Key "wind"; Key "speed"]; [Key "dt"]]
          (Exn KeyError "'humidity'") eq_refl _ _ eq_refl).
  - intros q [<-|[<-|[<-|[<-|[]]]]]; eexists; reflexivity.
  - intros [H|[H|[H|[H|[]]]]]; discriminate H.
Defined.

(** C2 as stated fails: a response without [main.humidity] and one without
    [wind.speed] both give the caller [None], so the returned value names
    no missing path; the printed line is [Error: 'humidity']. *)
Lemma missing_field_is_not_named_by_the_result :
  ~ exists decode : exn + pyval -> ClassifiedError,
      decode (returned (weather_against (answer 200 london_without_humidity)
                          "London"))
        = Unknown "missing field main.humidity" /\
      decode (returned (weather_against (answer 200 london_without_wind_speed)
                          "London"))
        = Unknown "missing field wind.speed".
Proof.
  intros (decode & H1 & H2).
  change (decode (inr PNone) = Unknown "missing field main.humidity") in H1.
  change (decode (inr PNone) = Unknown "missing field wind.speed") in H2.
  rewrite H1 in H2. discriminate H2.
Qed.

(** ** C3: a requested asset without a price *)

(** C3, as the code has it. For a 200 crypto response whose body is an
    object in which a requested id is a key and its object has no [usd],
    [fetch_crypto_prices] returns [None] for the whole batch, no quote of
    any id, and prints one line, ["Error: "] followed by the text of the
    exception that stopped the loop; that line is [Error: 'usd'] when the
    entries of all requested ids are objects. *)
Theorem missing_usd_fails_the_batch
    (http_get : string -> list (string * string) -> Z -> exn + response)
    (self : APIIntegration) (crypto_symbols : list string) (r : response)
    (d : dict) (symbol : string) (o : dict)
    (Hget : http_get (crypto_url self) (crypto_params crypto_symbols) 10 = inr r)
    (Hcode : status_code r = 200)
    (Hjson : json r = inr (PDict d))
    (Hin : In symbol crypto_symbols)
    (Hentry : dict_get symbol d = Some (PDict o))
    (Husd : dict_get "usd" o = None) :
  exists e,
    run (fetch_crypto_prices http_get self crypto_symbols) =
      (inr PNone,
       [crypto_request self crypto_symbols; EvJson; EvPrint (exception_line e)]) /\
    ((forall s v, In s crypto_symbols -> dict_get s d = Some v ->
        exists o', v = PDict o') ->
     exception_line e = "Error: 'usd'").
Proof.
  destruct (crypto_loop_missing_usd d crypto_symbols symbol o Hin Hentry Husd [])
    as [e He].
  exists e. split.
  - rewrite fetch_crypto_prices_run, Hget, Hcode, Hjson, He. cbv zeta.
    cbn [Z.eqb Pos.eqb].
    apply handlers_plain. eapply crypto_loop_plain; eassumption.
  - intros Hobj.
    now rewrite (crypto_loop_missing_usd_key d crypto_symbols Hobj [] e He).
Qed.

(** A body in which [bitcoin] has no price and [ethereum] has one. *)
Lemma missing_usd_fails_the_batch_witness :
  exists e,
    prices_against
      (answer 200 (PDict [("bitcoin", PDict [("usd_market_cap", PInt 7)]);
                          ("ethereum", PDict [("usd", PInt 3000)])]))
      ["bitcoin"; "ethereum"] =
      (inr PNone,
       [crypto_request init ["bitcoin"; "ethereum"]; EvJson;
        EvPrint (exception_line e)]) /\
    exception_line e = "Error: 'usd'".
Proof.
  destruct (missing_usd_fails_the_batch
              (mock_get (answer 200
                 (PDict [("bitcoin", PDict [("usd_market_cap", PInt 7)]);
                         ("ethereum", PDict [("usd", PInt 3000)])])))
              init ["bitcoin"; "ethereum"] _ _ "bitcoin" _
              eq_refl eq_refl eq_refl (or_introl eq_refl) eq_refl eq_refl)
    as (e & Hrun & Hline).
  exists e. split; [exact Hrun|].
  apply Hline. intros s v [<-|[<-|[]]] [= <-]; eexists; reflexivity.
Defined.

(** C3 as stated fails: with [bitcoin] lacking [usd], the quote of
    [ethereum] is not returned; the call gives [None]. *)
Lemma missing_usd_is_not_skipped :
  ~ exists m,
      returned (prices_against
        (answer 200 (PDict [("bitcoin", PDict [("usd_market_cap", PInt 7)]);
                            ("ethereum", PDict [("usd", PInt 3000)])]))
        ["bitcoin"; "ethereum"]) = inr (PDict m) /\
      dict_mem "ethereum" m = true.
Proof. intros (m & H & _). vm_compute in H. discriminate H. Qed.

(** ** What a returned dict tells about the exchange *)

Lemma fetch_weather_data_success http_get local_strftime self city_name info :
  returned (run (fetch_weather_data http_get local_strftime self city_name))
    = inr (PDict info) ->
  exists r data,
    http_get (weather_base_url self) (weather_params self city_name) 10 = inr r /\
    status_code r = 200 /\ json r = inr data /\
    weather_info_of local_strftime data = inr (PDict info).
Proof.
  intros H.
  destruct (fetch_weather_data_cases http_get local_strftime self city_name)
    as [(r & data & info' & Hget & Hcode & Hjson & Hinfo & Hx)
       | [(line & t & Hx & _) | (e & t & Hx & _)]];
    cbv zeta in Hx; rewrite Hx in H; cbn in H; try discriminate H.
  injection H as <-. eauto 6.
Qed.

Lemma fetch_crypto_prices_success http_get self crypto_symbols m :
  returned (run (fetch_crypto_prices http_get self crypto_symbols))
    = inr (PDict m) ->
  exists r data,
    http_get (crypto_url self) (crypto_params crypto_symbols) 10 = inr r /\
    status_code r = 200 /\ json r = inr data /\
    crypto_loop data crypto_symbols [] = inr m.
Proof.
  intros H.
  destruct (fetch_crypto_prices_cases http_get self crypto_symbols)
    as [(r & data & m' & Hget & Hcode & Hjson & Hloop & Hx)
       | [(line & t & Hx & _) | (e & t & Hx & _)]];
    cbv zeta in Hx; rewrite Hx in H; cbn in H; try discriminate H.
  injection H as <-. eauto 6.
Qed.

(** ** C4: the value that stands for an absent optional field *)

(** C4, as the code has it. When an optional field is absent from a 200
    response, the entry of the returned dict is the string ["N/A"]: the
    [visibility] of the weather dict when the body has no [visibility], and
    the [market_cap] and [volume_24h] of a quote when the object of the id
    has no [usd_market_cap], no [usd_24h_vol]. *)
Theorem absent_optional_field_is_N_A
    (http_get : string -> list (string * string) -> Z -> exn + response)
    (local_strftime : timestamp -> time_error + string)
    (self : APIIntegration) :
  (forall city_name r d info,
     http_get (weather_base_url self) (weather_params self city_name) 10 = inr r ->
     json r = inr (PDict d) ->
     dict_get "visibility" d = None ->
     returned (run (fetch_weather_data http_get local_strftime self city_name))
       = inr (PDict info) ->
     dict_get "visibility" info = Some (PStr "N/A")) /\
  (forall crypto_symbols r data m symbol q,
     http_get (crypto_url self) (crypto_params crypto_symbols) 10 = inr r ->
     json r = inr data ->
     returned (run (fetch_crypto_prices http_get self crypto_symbols))
       = inr (PDict m) ->
     dict_get symbol m = Some q ->
     exists d o,
       data = PDict d /\ dict_get symbol d = Some (PDict o) /\
       (dict_get "usd_market_cap" o = None ->
        subscript q "market_cap" = inr (PStr "N/A")) /\
       (dict_get "usd_24h_vol" o = None ->
        subscript q "volume_24h" = inr (PStr "N/A"))).
Proof.
  split.
  - intros city_name r d info Hget Hjson Hvis H.
    apply fetch_weather_data_success in H.
    destruct H as (r' & data & Hget' & _ & Hjson' & Hinfo).
    rewrite Hget in Hget'. injection Hget' as <-.
    rewrite Hjson in Hjson'. injection Hjson' as <-.
    apply weather_info_of_inv in Hinfo.
    destruct Hinfo as (? & ? & ? & ? & ? & ? & ? & ? & visibility & ? & ? & Hinfo).
    decompose [and] Hinfo; clear Hinfo.
    match goal with H : PDict info = _ |- _ => injection H as -> end.
    match goal with H : method_get _ _ _ = _ |- _ =>
      cbn in H; rewrite Hvis in H; injection H as <- end.
    reflexivity.
  - intros crypto_symbols r data m symbol q Hget Hjson H Hq.
    apply fetch_crypto_prices_success in H.
    destruct H as (r' & data' & Hget' & _ & Hjson' & Hloop).
    rewrite Hget in Hget'. injection Hget' as <-.
    rewrite Hjson in Hjson'. injection Hjson' as <-.
    destruct (crypto_loop_entries _ _ _ _ Hloop _ _ Hq)
      as [Hacc | (_ & d & o & price & -> & Hs & _ & ->)]; [discriminate Hacc|].
    exists d, o. repeat split; auto.
    + intros Hcap. unfold quote_of. cbn. now rewrite Hcap.
    + intros Hvol. unfold quote_of. cbn. now rewrite Hvol.
Qed.

Lemma absent_optional_field_is_N_A_witness :
  dict_get "visibility"
    [("city", PStr "London"); ("country", PStr "GB");
     ("temperature", PFloat 11.5%float); ("feels_like", PFloat 10.25%float);
     ("humidity", PInt 81); ("pressure", PInt 1012);
     ("weather_description", PStr "Light Rain");
     ("wind_speed", PFloat 4.5%float); ("visibility", PStr "N/A");
     ("timestamp", PStr "2021-01-01 00:00:00")] = Some (PStr "N/A") /\
  exists d o,
    PDict [("bitcoin", PDict [("usd", PInt 50000)])] = PDict d /\
    dict_get "bitcoin" d = Some (PDict o) /\
    (dict_get "usd_market_cap" o = None ->
     subscript (quote_of [("usd", PInt 50000)] (PInt 50000)) "market_cap"
       = inr (PStr "N/A")) /\
    (dict_get "usd_24h_vol" o = None ->
     subscript (quote_of [("usd", PInt 50000)] (PInt 50000)) "volume_24h"
       = inr (PStr "N/A")).
Proof.
  split.
  - refine (proj1 (absent_optional_field_is_N_A
              (mock_get (answer 200 london_without_visibility)) utc_strftime init)
            "London" _ _ _ eq_refl eq_refl eq_refl _).
    vm_compute. reflexivity.
  - refine (proj2 (absent_optional_field_is_N_A
              (mock_get (answer 200 (PDict [("bitcoin", PDict [("usd", PInt 50000)])])))
              utc_strftime init)
            ["bitcoin"; "ethereum"] _ _ _ "bitcoin" _ eq_refl eq_refl _ _).
    + vm_compute. reflexivity.
    + reflexivity.
Defined.

(** C4 as stated fails: without [visibility] in the body, the entry of the
    returned dict is ["N/A"], not ["unavailable"]. *)
Lemma absent_visibility_is_not_unavailable :
  ~ exists info,
      returned (weather_against (answer 200 london_without_visibility) "London")
        = inr (PDict info) /\
      dict_get "visibility" info = Some (PStr "unavailable").
Proof.
  intros (info & H & Hvis). vm_compute in H. injection H as <-.
  vm_compute in Hvis. discriminate Hvis.
Qed.

(** ** C5: quotes for the requested ids the response holds *)

(** C5, as the code has it. For a 200 crypto response whose body is an
    object in which every requested id that is a key has an object with a
    [usd] field, [fetch_crypto_prices] returns a dict with a quote exactly
    for the requested ids that are keys of the body; the other requested ids
    are left out; the [change_24h] of a quote is [0] when the object has no
    [usd_24h_change]. In particular the request [["bitcoin"; "ethereum"]]
    against the body [{"bitcoin": {"usd": 50000}}] returns the one entry
    [bitcoin], with change [0] and ["N/A"] for market cap and volume. *)
Theorem quotes_exactly_for_present_ids :
  (forall (http_get : string -> list (string * string) -> Z -> exn + response)
          (self : APIIntegration) (crypto_symbols : list string)
          (r : response) (d : dict),
     http_get (crypto_url self) (crypto_params crypto_symbols) 10 = inr r ->
     status_code r = 200 ->
     json r = inr (PDict d) ->
     (forall s v, In s crypto_symbols -> dict_get s d = Some v ->
        exists o price, v = PDict o /\ dict_get "usd" o = Some price) ->
     exists m,
       run (fetch_crypto_prices http_get self crypto_symbols) =
         (inr (PDict m), [crypto_request self crypto_symbols; EvJson]) /\
       (forall s, dict_mem s m = true <->
                  In s crypto_symbols /\ dict_mem s d = true) /\
       (forall s q, dict_get s m = Some q ->
          exists o price,
            dict_get s d = Some (PDict o) /\ dict_get "usd" o = Some price /\
            q = quote_of o price /\
            subscript q "price" = inr price /\
            (dict_get "usd_24h_change" o = None ->
             subscript q "change_24h" = inr (PInt 0)))) /\
  prices_against (answer 200 (PDict [("bitcoin", PDict [("usd", PInt 50000)])]))
    ["bitcoin"; "ethereum"] =
    (inr (PDict [("bitcoin", PDict [("price", PInt 50000);
                                    ("change_24h", PInt 0);
                                    ("market_cap", PStr "N/A");
                                    ("volume_24h", PStr "N/A")])]),
     [crypto_request init ["bitcoin"; "ethereum"]; EvJson]).
Proof.
  split; [|vm_compute; reflexivity].
  intros http_get self crypto_symbols r d Hget Hcode Hjson Hwf.
  destruct (crypto_loop_total d crypto_symbols Hwf []) as [m Hloop].
  exists m. split; [|split].
  - rewrite fetch_crypto_prices_run, Hget, Hcode, Hjson, Hloop. reflexivity.
  - intros s. rewrite dict_mem_In, (crypto_loop_keys _ _ _ _ Hloop).
    cbn [keys map app]. rewrite first_occurrences_In, filter_In.
    unfold present; cbn. rewrite andb_true_r. tauto.
  - intros s q Hq.
    destruct (crypto_loop_entries _ _ _ _ Hloop _ _ Hq)
      as [Hacc | (_ & d' & o & price & [= <-] & Hs & Hp & ->)]; [discriminate Hacc|].
    exists o, price. repeat split; auto.
    intros Hchange. unfold quote_of. cbn. now rewrite Hchange.
Qed.

Lemma quotes_exactly_for_present_ids_witness :
  exists m,
    prices_against
      (answer 200 (PDict [("bitcoin", PDict [("usd", PInt 50000)]);
                          ("cardano", PDict [("usd", PInt 2)])]))
      ["bitcoin"; "ethereum"] =
      (inr (PDict m), [crypto_request init ["bitcoin"; "ethereum"]; EvJson]) /\
    dict_mem "bitcoin" m = true /\
    dict_mem "ethereum" m = false /\
    dict_mem "cardano" m = false.
Proof.
  destruct (proj1 quotes_exactly_for_present_ids
              (mock_get (answer 200
                 (PDict [("bitcoin", PDict [("usd", PInt 50000)]);
                         ("cardano", PDict [("usd", PInt 2)])])))
              init ["bitcoin"; "ethereum"] _ _ eq_refl eq_refl eq_refl)
    as (m & Hrun & Hkeys & _).
  - intros s v [<-|[<-|[]]] [= <-]. eexists _, _. split; reflexivity.
  - exists m. split; [exact Hrun|].
    split; [|split].
    + apply Hkeys. split; [now left | reflexivity].
    + apply not_true_is_false. intros H. apply Hkeys in H.
      destruct H as [_ H]. discriminate H.
    + apply not_true_is_false. intros H. apply Hkeys in H.
      destruct H as [[H|[H|[]]] _]; discriminate H.
Defined.

(** C5 as stated fails: [bitcoin] is a key of the body, yet no quote of it
    is returned when its object has no [usd]; the call gives [None]. *)
Lemma present_id_without_price_yields_no_quote :
  ~ exists m,
      returned (prices_against
        (answer 200 (PDict [("bitcoin", PDict [("usd_24h_change", PInt 2)])]))
        ["bitcoin"]) = inr (PDict m) /\
      (forall s, dict_mem s m = true <->
         In s ["bitcoin"] /\
         dict_mem s [("bitcoin", PDict [("usd_24h_change", PInt 2)])] = true).
Proof. intros (m & H & _). vm_compute in H. discriminate H. Qed.

(** ** C6: a status code other than 200 *)

(** C6, as the code has it. After an exchange whose status code is not 200,
    both methods return [None] and print one line that carries the code,
    [Error: Unable to fetch weather data (Status code: <code>)] or the same
    with [crypto]; the body is not decoded: no [json] call is made. *)
Theorem non_200_prints_the_status
    (http_get : string -> list (string * string) -> Z -> exn + response)
    (local_strftime : timestamp -> time_error + string)
    (self : APIIntegration) (r : response)
    (Hcode : status_code r <> 200) :
  (forall city_name,
     http_get (weather_base_url self) (weather_params self city_name) 10 = inr r ->
     let x := run (fetch_weather_data http_get local_strftime self city_name) in
     x = (inr PNone,
          [weather_request self city_name;
           EvPrint (status_line "weather" (status_code r))]) /\
     parsed (snd x) = false) /\
  (forall crypto_symbols,
     http_get (crypto_url self) (crypto_params crypto_symbols) 10 = inr r ->
     let x := run (fetch_crypto_prices http_get self crypto_symbols) in
     x = (inr PNone,
          [crypto_request self crypto_symbols;
           EvPrint (status_line "crypto" (status_code r))]) /\
     parsed (snd x) = false).
Proof.
  apply Z.eqb_neq in Hcode.
  split.
  - intros city_name Hget. cbv zeta.
    rewrite fetch_weather_data_run, Hget, Hcode. split; reflexivity.
  - intros crypto_symbols Hget. cbv zeta.
    rewrite fetch_crypto_prices_run, Hget, Hcode. split; reflexivity.
Qed.

Lemma non_200_prints_the_status_witness :
  (weather_against (answer 404 london) "London" =
     (inr PNone,
      [weather_request init "London";
       EvPrint "Error: Unable to fetch weather data (Status code: 404)"]) /\
   parsed (snd (weather_against (answer 404 london) "London")) = false) /\
  (prices_against (answer 404 london) ["bitcoin"] =
     (inr PNone,
      [crypto_request init ["bitcoin"];
       EvPrint "Error: Unable to fetch crypto data (Status code: 404)"]) /\
   parsed (snd (prices_against (answer 404 london) ["bitcoin"])) = false).
Proof.
  assert (Hcode : status_code (Response 404 (inr london)) <> 200)
    by (cbn; discriminate).
  destruct (non_200_prints_the_status (mock_get (answer 404 london)) utc_strftime
              init _ Hcode) as [Hw Hc].
  split; [exact (Hw "London" eq_refl) | exact (Hc ["bitcoin"] eq_refl)].
Defined.

(** C6 as stated fails: the exchanges with status 404 and 500 give the
    caller the same value, [None], so the returned value carries no code. *)
Lemma status_code_is_not_in_the_result :
  ~ exists decode : exn + pyval -> ClassifiedError,
      decode (returned (weather_against (answer 404 london) "London"))
        = UpstreamStatus 404 /\
      decode (returned (weather_against (answer 500 london) "London"))
        = UpstreamStatus 500.
Proof.
  intros (decode & H1 & H2).
  change (decode (inr PNone) = UpstreamStatus 404) in H1.
  change (decode (inr PNone) = UpstreamStatus 500) in H2.
  rewrite H1 in H2. discriminate H2.
Qed.

(** ** C7: the description in title case *)



(** ** C8: what the error paths print *)

(** C8, as the code has it. On every path of [fetch_weather_data] and
    [fetch_crypto_prices] that ends in the failure value [None], the method
    itself prints exactly one line, which begins with ["Error: "]; the
    returned [None] carries no text. A call that returns a dict prints
    nothing. *)
Theorem error_paths_print_one_line
    (http_get : string -> list (string * string) -> Z -> exn + response)
    (local_strftime : timestamp -> time_error + string)
    (self : APIIntegration) :
  (forall city_name,
     let x := run (fetch_weather_data http_get local_strftime self city_name) in
     (returned x = inr PNone ->
      exists line, output x = [line] /\ String.prefix "Error: " line = true) /\
     (forall info, returned x = inr (PDict info) -> output x = [])) /\
  (forall crypto_symbols,
     let x := run (fetch_crypto_prices http_get self crypto_symbols) in
     (returned x = inr PNone ->
      exists line, output x = [line] /\ String.prefix "Error: " line = true) /\
     (forall m, returned x = inr (PDict m) -> output x = [])).
Proof.
  split.
  - intros city_name. cbv zeta.
    destruct (fetch_weather_data_cases http_get local_strftime self city_name)
      as [(r & data & info' & _ & _ & _ & _ & Hx)
         | [(line & t & Hx & Ht & Hline) | (e & t & Hx & _)]];
      cbv zeta in Hx; rewrite Hx; unfold returned, output; cbn [fst snd];
      (split; [intros H | intros info H]); try discriminate H.
    + reflexivity.
    + exists line. rewrite printed_app, Ht. auto.
  - intros crypto_symbols. cbv zeta.
    destruct (fetch_crypto_prices_cases http_get self crypto_symbols)
      as [(r & data & m' & _ & _ & _ & _ & Hx)
         | [(line & t & Hx & Ht & Hline) | (e & t & Hx & _)]];
      cbv zeta in Hx; rewrite Hx; unfold returned, output; cbn [fst snd];
      (split; [intros H | intros m H]); try discriminate H.
    + reflexivity.
    + exists line. rewrite printed_app, Ht. auto.
Qed.

Lemma error_paths_print_one_line_witness :
  (exists line,
     output (weather_against (answer 200 london_without_humidity) "London")
       = [line] /\
     String.prefix "Error: " line = true) /\
  (exists line,
     output (prices_against (inl (Exn RequestsConnectionError "refused"))
               ["bitcoin"]) = [line] /\
     String.prefix "Error: " line = true).
Proof.
  split.
  - exact (proj1 (proj1 (error_paths_print_one_line
             (mock_get (answer 200 london_without_humidity)) utc_strftime init)
             "London") eq_refl).
  - exact (proj1 (proj2 (error_paths_print_one_line
             (mock_get (inl (Exn RequestsConnectionError "refused")))
             utc_strftime init)
             ["bitcoin"]) eq_refl).
Defined.

(** C8 as stated fails: on the time-out path the method prints a line. *)
Lemma error_path_prints :
  ~ output (weather_against (inl (Exn ReadTimeout "read timed out")) "London")
    = [].
Proof. vm_compute. discriminate. Qed.

(** ** C9: exceptions never reach the caller *)

(** C9, as the code has it. When the transport and the decoder raise only
    exceptions of class [Exception], each call of [fetch_weather_data] and
    [fetch_crypto_prices] returns: either [None], or the dict with all ten
    weather entries, or a mapping whose quotes have all four entries. An
    exception outside [Exception], such as [KeyboardInterrupt], raised
    by the transport passes through every [except] clause and reaches the
    caller. *)
Theorem only_Exception_is_caught
    (http_get : string -> list (string * string) -> Z -> exn + response)
    (local_strftime : timestamp -> time_error + string)
    (self : APIIntegration) :
  (raises_only_Exception http_get ->
   (forall city_name,
      exists v,
        returned (run (fetch_weather_data http_get local_strftime self city_name))
          = inr v /\
        (v = PNone \/ exists info, v = PDict info /\ keys info = weather_keys)) /\
   (forall crypto_symbols,
      exists v,
        returned (run (fetch_crypto_prices http_get self crypto_symbols)) = inr v /\
        (v = PNone \/
         exists m, v = PDict m /\
           forall s q, dict_get s m = Some q ->
             exists o, q = PDict o /\ keys o = quote_keys))) /\
  (forall e, is_Exception e = false ->
     (forall city_name,
        http_get (weather_base_url self) (weather_params self city_name) 10 = inl e ->
        returned (run (fetch_weather_data http_get local_strftime self city_name))
          = inl e) /\
     (forall crypto_symbols,
        http_get (crypto_url self) (crypto_params crypto_symbols) 10 = inl e ->
        returned (run (fetch_crypto_prices http_get self crypto_symbols)) = inl e)).
Proof.
  split.
  - intros Honly. split.
    + intros city_name.
      destruct (fetch_weather_data_cases http_get local_strftime self city_name)
        as [(r & data & info & _ & _ & _ & Hinfo & Hx)
           | [(line & t & Hx & _) | (e & t & Hx & _ & He & Hraise)]];
        cbv zeta in Hx; rewrite Hx; unfold returned; cbn [fst].
      * exists (PDict info). split; [reflexivity|]. right. exists info.
        split; [reflexivity|].
        apply weather_info_of_inv in Hinfo.
        destruct Hinfo as (? & ? & ? & ? & ? & ? & ? & ? & ? & ? & ? & Hinfo).
        decompose [and] Hinfo; clear Hinfo.
        match goal with H : PDict info = _ |- _ => injection H as -> end.
        reflexivity.
      * exists PNone. auto.
      * exfalso.
        pose proof (Honly (weather_base_url self)
                      (weather_params self city_name) 10) as H.
        destruct Hraise as [Hget | (r & Hget & Hjson)]; rewrite Hget in H;
          [|rewrite Hjson in H]; congruence.
    + intros crypto_symbols.
      destruct (fetch_crypto_prices_cases http_get self crypto_symbols)
        as [(r & data & m & _ & _ & _ & Hloop & Hx)
           | [(line & t & Hx & _) | (e & t & Hx & _ & He & Hraise)]];
        cbv zeta in Hx; rewrite Hx; unfold returned; cbn [fst].
      * exists (PDict m). split; [reflexivity|]. right. exists m.
        split; [reflexivity|]. intros s q Hq.
        destruct (crypto_loop_entries _ _ _ _ Hloop _ _ Hq)
          as [Hacc | (_ & d & o & price & _ & _ & _ & ->)]; [discriminate Hacc|].
        unfold quote_of. eexists. split; reflexivity.
      * exists PNone. auto.
      * exfalso.
        pose proof (Honly (crypto_url self) (crypto_params crypto_symbols) 10) as H.
        destruct Hraise as [Hget | (r & Hget & Hjson)]; rewrite Hget in H;
          [|rewrite Hjson in H]; congruence.
  - intros e He. split.
    + intros city_name Hget. rewrite fetch_weather_data_run, Hget. cbv zeta.
      rewrite handlers_run, He.
      destruct e as [[] msg]; try discriminate He; reflexivity.
    + intros crypto_symbols Hget. rewrite fetch_crypto_prices_run, Hget. cbv zeta.
      rewrite handlers_run, He.
      destruct e as [[] msg]; try discriminate He; reflexivity.
Qed.

Lemma only_Exception_is_caught_witness :
  raises_only_Exception (mock_get (answer 200 london)) /\
  (exists v,
     returned (weather_against (answer 200 london) "London") = inr v /\
     (v = PNone \/ exists info, v = PDict info /\ keys info = weather_keys)) /\
  (exists v,
     returned (prices_against (answer 200 london) ["bitcoin"]) = inr v /\
     (v = PNone \/
      exists m, v = PDict m /\
        forall s q, dict_get s m = Some q ->
          exists o, q = PDict o /\ keys o = quote_keys)) /\
  returned (weather_against (inl (Exn KeyboardInterrupt "")) "London")
    = inl (Exn KeyboardInterrupt "").
Proof.
  assert (Honly : raises_only_Exception (mock_get (answer 200 london)))
    by (intros url params timeout; exact I).
  split; [exact Honly|].
  destruct (proj1 (only_Exception_is_caught (mock_get (answer 200 london))
                     utc_strftime init) Honly) as [Hw Hc].
  split; [exact (Hw "London")|].
  split; [exact (Hc ["bitcoin"])|].
  exact (proj1 (proj2 (only_Exception_is_caught
                         (mock_get (inl (Exn KeyboardInterrupt "")))
                         utc_strftime init)
                 (Exn KeyboardInterrupt "") eq_refl) "London" eq_refl).
Defined.

(** C9 as stated fails: a [KeyboardInterrupt] raised during the request is
    not caught, and the call returns no value. *)
Lemma keyboard_interrupt_propagates :
  ~ exists v,
      returned (weather_against (inl (Exn KeyboardInterrupt "")) "London") = inr v.
Proof. intros (v & H). vm_compute in H. discriminate H. Qed.

(** ** C10: the order of the keys of the result *)

Lemma dict_mem_Permutation (d d' : dict) s :
  Permutation d d' -> dict_mem s d = dict_mem s d'.
Proof.
  intros Hperm. apply Bool.eq_iff_eq_true. rewrite !dict_mem_In. unfold keys.
  split; apply Permutation_in;
    [|symmetry]; apply Permutation_map; exact Hperm.
Qed.

(** C10. When [fetch_crypto_prices] returns a mapping, its keys are the
    requested symbols that the body holds, in the order of the request, each
    at its first occurrence there: they stand in the request in the same
    relative order. The order of the keys of the body plays
    no part: a body with the same entries in another order gives the same
    keys in the same order. *)
Theorem result_keys_follow_the_request
    (http_get : string -> list (string * string) -> Z -> exn + response)
    (self : APIIntegration) (crypto_symbols : list string) (m : dict)
    (Hreturned :
       returned (run (fetch_crypto_prices http_get self crypto_symbols))
         = inr (PDict m)) :
  exists r data,
    http_get (crypto_url self) (crypto_params crypto_symbols) 10 = inr r /\
    json r = inr data /\
    keys m = first_occurrences (filter (present data) crypto_symbols) /\
    subsequence (keys m) crypto_symbols /\
    (forall d, data = PDict d ->
       keys m = first_occurrences (filter (fun s => dict_mem s d) crypto_symbols)) /\
    (forall http_get' r' d d' m',
       data = PDict d ->
       http_get' (crypto_url self) (crypto_params crypto_symbols) 10 = inr r' ->
       json r' = inr (PDict d') ->
       Permutation d d' ->
       returned (run (fetch_crypto_prices http_get' self crypto_symbols))
         = inr (PDict m') ->
       keys m' = keys m).
Proof.
  apply fetch_crypto_prices_success in Hreturned.
  destruct Hreturned as (r & data & Hget & _ & Hjson & Hloop).
  pose proof (crypto_loop_keys _ _ _ _ Hloop) as Hkeys.
  cbn [keys map app] in Hkeys. fold (keys m) in Hkeys.
  assert (Hfilter : filter (fun s => present data s && negb (dict_mem s []))
                      crypto_symbols
                    = filter (present data) crypto_symbols).
  { apply filter_ext. intros s. cbn. apply andb_true_r. }
  rewrite Hfilter in Hkeys.
  exists r, data.
  split; [exact Hget|]. split; [exact Hjson|]. split; [exact Hkeys|].
  split; [|split].
  - rewrite Hkeys. eapply subsequence_trans;
      [apply subsequence_first_occurrences | apply subsequence_filter].
  - intros d ->. exact Hkeys.
  - intros http_get' r' d d' m' -> Hget' Hjson' Hperm H'.
    apply fetch_crypto_prices_success in H'.
    destruct H' as (r'' & data' & Hget'' & _ & Hjson'' & Hloop').
    rewrite Hget' in Hget''. injection Hget'' as <-.
    rewrite Hjson' in Hjson''. injection Hjson'' as <-.
    pose proof (crypto_loop_keys _ _ _ _ Hloop') as Hkeys'.
    cbn [keys map app] in Hkeys'. fold (keys m') in Hkeys'.
    rewrite Hkeys, Hkeys'. f_equal. apply filter_ext. intros s.
    unfold present; cbn. rewrite andb_true_r.
    symmetry. now apply dict_mem_Permutation.
Qed.

(** The body lists [ethereum] before [bitcoin]; the request asks for
    [bitcoin], [solana], [ethereum] and [bitcoin] again. *)
Lemma result_keys_follow_the_request_witness :
  exists r data,
    mock_get
      (answer 200 (PDict [("ethereum", PDict [("usd", PInt 3000)]);
                          ("bitcoin", PDict [("usd", PInt 50000)])]))
      (crypto_url init)
      (crypto_params ["bitcoin"; "solana"; "ethereum"; "bitcoin"]) 10 = inr r /\
    json r = inr data /\
    ["bitcoin"; "ethereum"] =
      first_occurrences
        (filter (present data) ["bitcoin"; "solana"; "ethereum"; "bitcoin"]).
Proof.
  destruct (result_keys_follow_the_request
              (mock_get
                 (answer 200 (PDict [("ethereum", PDict [("usd", PInt 3000)]);
                                     ("bitcoin", PDict [("usd", PInt 50000)])])))
              init ["bitcoin"; "solana"; "ethereum"; "bitcoin"]
              [("bitcoin", quote_of [("usd", PInt 50000)] (PInt 50000));
               ("ethereum", quote_of [("usd", PInt 3000)] (PInt 3000))]
              eq_refl)
    as (r & data & Hget & Hjson & Hkeys & _).
  exists r, data. auto.
Defined.

(** * Further properties of the two methods *)

(** ** One request, at most one decoding *)

Lemma requests_app (t1 t2 : trace) :
  requests (t1 ++ t2)%list = (requests t1 ++ requests t2)%list.
Proof.
  induction t1 as [|[url params timeout| |line] t1 IH]; cbn;
    [reflexivity| | |]; now rewrite ?IH.
Qed.

Lemma decodings_app (t1 t2 : trace) :
  decodings (t1 ++ t2)%list = (decodings t1 + decodings t2)%nat.
Proof.
  induction t1 as [|[url params timeout| |line] t1 IH]; cbn;
    [reflexivity| | |]; now rewrite ?IH.
Qed.

(** The [except] clauses add at most a printed line to the trace. *)
Lemma handlers_trace api_name e t :
  requests (snd (handlers api_name e t)) = requests t /\
  decodings (snd (handlers api_name e t)) = decodings t.
Proof.
  rewrite handlers_run.
  destruct (is_Timeout e), (is_ConnectionError e), (is_Exception e); cbn [snd];
    rewrite ?requests_app, ?decodings_app; cbn;
    rewrite ?app_nil_r, ?Nat.add_0_r; auto.
Qed.

(** X1. Every call of [fetch_weather_data] and of [fetch_crypto_prices]
    sends exactly one request, however the exchange goes: a GET with a
    time-out of 10, to [weather_base_url] with the parameters [q], [appid]
    and [units=metric], or to [crypto_base_url/simple/price] with the
    symbols joined by commas in [ids]. Nothing is sent again after a
    failure. The body is decoded once when the exchange completes with
    status 200, and never otherwise. *)
Theorem one_request_per_call
    (http_get : string -> list (string * string) -> Z -> exn + response)
    (local_strftime : timestamp -> time_error + string)
    (self : APIIntegration) :
  (forall city_name,
     let t := snd (run (fetch_weather_data http_get local_strftime self city_name)) in
     requests t =
       [EvGet (weather_base_url self)
          [("q", city_name); ("appid", weather_api_key self); ("units", "metric")]
          10] /\
     decodings t =
       match http_get (weather_base_url self) (weather_params self city_name) 10 with
       | inr r => if status_code r =? 200 then 1%nat else 0%nat
       | inl _ => 0%nat
       end) /\
  (forall crypto_symbols,
     let t := snd (run (fetch_crypto_prices http_get self crypto_symbols)) in
     requests t =
       [EvGet (crypto_base_url self ++ "/simple/price")
          [("ids", join "," crypto_symbols);
           ("vs_currencies", "usd");
           ("include_24hr_change", "true");
           ("include_market_cap", "true");
           ("include_24hr_vol", "true")]
          10] /\
     decodings t =
       match http_get (crypto_url self) (crypto_params crypto_symbols) 10 with
       | inr r => if status_code r =? 200 then 1%nat else 0%nat
       | inl _ => 0%nat
       end).
Proof.
  split.
  - intros city_name. cbv zeta. rewrite fetch_weather_data_run. cbv zeta.
    destruct (http_get _ _ _) as [e|r].
    { destruct (handlers_trace "weather" e [weather_request self city_name])
        as [-> ->]. split; reflexivity. }
    destruct (status_code r =? 200); [|split; reflexivity].
    destruct (json r) as [e|data].
    { destruct (handlers_trace "weather" e [weather_request self city_name; EvJson])
        as [-> ->]. split; reflexivity. }
    destruct (weather_info_of local_strftime data) as [e|v].
    { destruct (handlers_trace "weather" e [weather_request self city_name; EvJson])
        as [-> ->]. split; reflexivity. }
    split; reflexivity.
  - intros crypto_symbols. cbv zeta. rewrite fetch_crypto_prices_run. cbv zeta.
    destruct (http_get _ _ _) as [e|r].
    { destruct (handlers_trace "crypto" e [crypto_request self crypto_symbols])
        as [-> ->]. split; reflexivity. }
    destruct (status_code r =? 200); [|split; reflexivity].
    destruct (json r) as [e|data].
    { destruct (handlers_trace "crypto" e [crypto_request self crypto_symbols; EvJson])
        as [-> ->]. split; reflexivity. }
    destruct (crypto_loop data crypto_symbols []) as [e|v].
    { destruct (handlers_trace "crypto" e [crypto_request self crypto_symbols; EvJson])
        as [-> ->]. split; reflexivity. }
    split; reflexivity.
Qed.

(** ** What a returned dict holds *)

(** X2. Whenever [fetch_weather_data] returns a dict, the exchange was
    completed with status 200 and the dict has the ten keys; [city],
    [country], [temperature], [feels_like], [humidity], [pressure] and
    [wind_speed] are the values of the body at [name], [sys.country],
    [main.temp], [main.feels_like], [main.humidity], [main.pressure] and
    [wind.speed], unchanged whatever their type; [visibility] is the one of
    the body when the body has one; [timestamp] is the local time of [dt]
    as the host formats it. *)
Theorem weather_fields_are_copied
    (http_get : string -> list (string * string) -> Z -> exn + response)
    (local_strftime : timestamp -> time_error + string)
    (self : APIIntegration) (city_name : string) (info : dict)
    (Hreturned :
       returned (run (fetch_weather_data http_get local_strftime self city_name))
         = inr (PDict info)) :
  exists r data,
    http_get (weather_base_url self) (weather_params self city_name) 10 = inr r /\
    status_code r = 200 /\ json r = inr data /\
    keys info = weather_keys /\
    (forall key path, In (key, path) copied_fields ->
       exists v, resolve data path = inr v /\ dict_get key info = Some v) /\
    (forall d v, data = PDict d -> dict_get "visibility" d = Some v ->
       dict_get "visibility" info = Some v) /\
    (exists dt timestamp,
       resolve data [Key "dt"] = inr dt /\
       fromtimestamp_strftime local_strftime dt = inr timestamp /\
       dict_get "timestamp" info = Some timestamp).
Proof.
  apply fetch_weather_data_success in Hreturned.
  destruct Hreturned as (r & data & Hget & Hcode & Hjson & Hinfo).
  apply weather_info_of_inv in Hinfo.
  destruct Hinfo as (city & country & temperature & feels_like & humidity
                     & pressure & raw & wind_speed & visibility & dt & timestamp
                     & H1 & H2 & H3 & H4 & H5 & H6 & H7 & H8 & H9 & H10 & H11 & H12).
  injection H12 as ->.
  exists r, data.
  split; [exact Hget|]. split; [exact Hcode|]. split; [exact Hjson|].
  split; [reflexivity|]. split; [|split].
  - intros key path Hin. unfold copied_fields in Hin; cbn [In] in Hin.
    repeat (destruct Hin as [[= <- <-]|Hin]; [eexists; split; [eassumption|reflexivity]|]).
    contradiction.
  - intros d v -> Hv. cbn in H9. rewrite Hv in H9. injection H9 as <-. reflexivity.
  - exists dt, timestamp. auto.
Qed.

Lemma weather_fields_are_copied_witness :
  exists r data,
    mock_get (answer 200 london) (weather_base_url init)
      (weather_params init "London") 10 = inr r /\
    status_code r = 200 /\ json r = inr data /\
    keys [("city", PStr "London"); ("country", PStr "GB");
          ("temperature", PFloat 11.5%float); ("feels_like", PFloat 10.25%float);
          ("humidity", PInt 81); ("pressure", PInt 1012);
          ("weather_description", PStr "Light Rain");
          ("wind_speed", PFloat 4.5%float); ("visibility", PInt 10000);
          ("timestamp", PStr "2021-01-01 00:00:00")] = weather_keys.
Proof.
  destruct (weather_fields_are_copied (mock_get (answer 200 london)) utc_strftime
              init "London" _ eq_refl) as (r & data & Hget & Hcode & Hjson & Hkeys & _).
  exists r, data. auto.
Defined.

(** X3. Whenever [fetch_crypto_prices] returns a mapping, each of its quotes
    belongs to a requested symbol whose entry in the body is an object with
    a [usd] field, and repeats that object: [price] is its [usd], and
    [change_24h], [market_cap], [volume_24h] are its [usd_24h_change],
    [usd_market_cap], [usd_24h_vol] whenever the object has them, unchanged
    whatever their type: a [null] that is present is kept, the default is
    for an absent key only. *)
Theorem quotes_copy_the_body
    (http_get : string -> list (string * string) -> Z -> exn + response)
    (self : APIIntegration) (crypto_symbols : list string) (m : dict)
    (symbol : string) (q : pyval)
    (Hreturned :
       returned (run (fetch_crypto_prices http_get self crypto_symbols))
         = inr (PDict m))
    (Hquote : dict_get symbol m = Some q) :
  exists r d o price,
    http_get (crypto_url self) (crypto_params crypto_symbols) 10 = inr r /\
    status_code r = 200 /\ json r = inr (PDict d) /\
    In symbol crypto_symbols /\
    dict_get symbol d = Some (PDict o) /\
    dict_get "usd" o = Some price /\
    subscript q "price" = inr price /\
    (forall v, dict_get "usd_24h_change" o = Some v ->
       subscript q "change_24h" = inr v) /\
    (forall v, dict_get "usd_market_cap" o = Some v ->
       subscript q "market_cap" = inr v) /\
    (forall v, dict_get "usd_24h_vol" o = Some v ->
       subscript q "volume_24h" = inr v).
Proof.
  apply fetch_crypto_prices_success in Hreturned.
  destruct Hreturned as (r & data & Hget & Hcode & Hjson & Hloop).
  destruct (crypto_loop_entries _ _ _ _ Hloop _ _ Hquote)
    as [Hacc | (Hin & d & o & price & -> & Hs & Hp & ->)]; [discriminate Hacc|].
  exists r, d, o, price. repeat split; auto;
    intros v Hv; unfold quote_of; cbn; now rewrite Hv.
Qed.

(** A body in which the change of [bitcoin] is [null]. *)
Lemma quotes_copy_the_body_witness :
  subscript
    (PDict [("price", PInt 50000); ("change_24h", PNone);
            ("market_cap", PStr "N/A"); ("volume_24h", PStr "N/A")])
    "change_24h" = inr PNone.
Proof.
  destruct (quotes_copy_the_body
              (mock_get (answer 200
                 (PDict [("bitcoin", PDict [("usd", PInt 50000);
                                            ("usd_24h_change", PNone)])])))
              init ["bitcoin"] _ "bitcoin" _ eq_refl eq_refl)
    as (r & d & o & price & Hget & _ & Hjson & _ & Hs & _ & _ & Hchange & _).
  apply Hchange.
  injection Hget as <-. injection Hjson as <-. injection Hs as <-. reflexivity.
Defined.

(** ** Bodies of another shape *)

Lemma crypto_loop_none_present data symbols acc :
  (forall s, In s symbols -> contains s data = inr false) ->
  crypto_loop data symbols acc = inr acc.
Proof.
  induction symbols as [|s rest IH]; intros Hnone; [reflexivity|].
  cbn [crypto_loop]; cbn. rewrite (Hnone s (or_introl eq_refl)). cbn.
  apply IH. intros s' Hs'. apply Hnone. now right.
Qed.

(** X4. When none of the requested symbols occurs in the body of a 200
    response, [fetch_crypto_prices] returns the empty mapping and prints
    nothing: so for an empty list of symbols, whatever the body decodes to,
    for the body [{}], and for a body that is a list or a string without the
    symbols. The request is sent all the same. *)
Theorem no_symbol_in_the_body_gives_empty_mapping
    (http_get : string -> list (string * string) -> Z -> exn + response)
    (self : APIIntegration) (crypto_symbols : list string) (r : response)
    (data : pyval)
    (Hget : http_get (crypto_url self) (crypto_params crypto_symbols) 10 = inr r)
    (Hcode : status_code r = 200)
    (Hjson : json r = inr data)
    (Hnone : forall s, In s crypto_symbols -> contains s data = inr false) :
  run (fetch_crypto_prices http_get self crypto_symbols) =
    (inr (PDict []), [crypto_request self crypto_symbols; EvJson]).
Proof.
  rewrite fetch_crypto_prices_run, Hget, Hcode, Hjson,
    (crypto_loop_none_present _ _ _ Hnone).
  reflexivity.
Qed.

Lemma no_symbol_in_the_body_gives_empty_mapping_witness :
  prices_against (answer 200 PNone) [] =
    (inr (PDict []), [crypto_request init []; EvJson]) /\
  prices_against (answer 200 (PList [PStr "bitcoin"])) ["ethereum"] =
    (inr (PDict []), [crypto_request init ["ethereum"]; EvJson]).
Proof.
  split.
  - apply (no_symbol_in_the_body_gives_empty_mapping
             (mock_get (answer 200 PNone)) init [] _ _ eq_refl eq_refl eq_refl).
    intros s [].
  - apply (no_symbol_in_the_body_gives_empty_mapping
             (mock_get (answer 200 (PList [PStr "bitcoin"]))) init ["ethereum"]
             _ _ eq_refl eq_refl eq_refl).
    intros s [<-|[]]. reflexivity.
Defined.

Lemma subscript_no_object data k :
  (forall d, data <> PDict d) ->
  exists e, subscript data k = inl e /\ exn_cls e = TypeError.
Proof.
  intros Hno. destruct data; cbn; eauto. now destruct (Hno d).
Qed.

Lemma crypto_loop_no_object data symbols symbol :
  (forall d, data <> PDict d) ->
  In symbol symbols ->
  contains symbol data <> inr false ->
  forall acc, exists e,
    crypto_loop data symbols acc = inl e /\ exn_cls e = TypeError.
Proof.
  intros Hno Hin Hsymbol.
  induction symbols as [|x rest IH]; intros acc; [contradiction|].
  cbn [crypto_loop]; cbn.
  destruct (contains x data) as [e|[|]] eqn:Hx.
  - exists e. split; [reflexivity|].
    destruct data; cbn in Hx; try discriminate Hx; now injection Hx as <-.
  - destruct (subscript_no_object data x Hno) as (e & -> & He). cbn. eauto.
  - destruct Hin as [->|Hin]; [contradiction|]. now apply IH.
Qed.

(** X5. A 200 response whose body is not an object (a list, a string, a
    number, a boolean or [null]) never gives a weather dict:
    [fetch_weather_data] returns [None] and prints the [TypeError] of the
    first subscript. [fetch_crypto_prices] does the same as soon as one
    requested symbol occurs in such a body or the body cannot be searched. *)
Theorem body_that_is_no_object
    (http_get : string -> list (string * string) -> Z -> exn + response)
    (local_strftime : timestamp -> time_error + string)
    (self : APIIntegration) (r : response) (data : pyval)
    (Hcode : status_code r = 200)
    (Hjson : json r = inr data)
    (Hno : forall d, data <> PDict d) :
  (forall city_name,
     http_get (weather_base_url self) (weather_params self city_name) 10 = inr r ->
     exists e,
       subscript data "name" = inl e /\ exn_cls e = TypeError /\
       run (fetch_weather_data http_get local_strftime self city_name) =
         (inr PNone,
          [weather_request self city_name; EvJson; EvPrint (exception_line e)])) /\
  (forall crypto_symbols symbol,
     http_get (crypto_url self) (crypto_params crypto_symbols) 10 = inr r ->
     In symbol crypto_symbols ->
     contains symbol data <> inr false ->
     exists e,
       exn_cls e = TypeError /\
       run (fetch_crypto_prices http_get self crypto_symbols) =
         (inr PNone,
          [crypto_request self crypto_symbols; EvJson; EvPrint (exception_line e)])).
Proof.
  split.
  - intros city_name Hget.
    destruct (subscript_no_object data "name" Hno) as (e & He & Hcls).
    exists e. split; [exact He|]. split; [exact Hcls|].
    assert (Hinfo : weather_info_of local_strftime data = inl e).
    { unfold weather_info_of; cbn. now rewrite He. }
    rewrite fetch_weather_data_run, Hget, Hcode, Hjson, Hinfo. cbv zeta.
    cbn [Z.eqb Pos.eqb].
    apply handlers_plain. eapply weather_info_of_plain; eassumption.
  - intros crypto_symbols symbol Hget Hin Hsymbol.
    destruct (crypto_loop_no_object data crypto_symbols symbol Hno Hin Hsymbol [])
      as (e & Hloop & Hcls).
    exists e. split; [exact Hcls|].
    rewrite fetch_crypto_prices_run, Hget, Hcode, Hjson, Hloop. cbv zeta.
    cbn [Z.eqb Pos.eqb].
    apply handlers_plain. eapply crypto_loop_plain; eassumption.
Qed.

Lemma body_that_is_no_object_witness :
  (exists e,
     subscript (PList [london]) "name" = inl e /\ exn_cls e = TypeError /\
     weather_against (answer 200 (PList [london])) "London" =
       (inr PNone,
        [weather_request init "London"; EvJson; EvPrint (exception_line e)])) /\
  (exists e,
     exn_cls e = TypeError /\
     prices_against (answer 200 (PInt 429)) ["bitcoin"] =
       (inr PNone,
        [crypto_request init ["bitcoin"]; EvJson; EvPrint (exception_line e)])).
Proof.
  split.
  - refine (proj1 (body_that_is_no_object
                     (mock_get (answer 200 (PList [london]))) utc_strftime init
                     (Response 200 (inr (PList [london]))) (PList [london])
                     eq_refl eq_refl _) "London" eq_refl).
    intros d H; discriminate H.
  - refine (proj2 (body_that_is_no_object
                     (mock_get (answer 200 (PInt 429))) utc_strftime init
                     (Response 200 (inr (PInt 429))) (PInt 429)
                     eq_refl eq_refl _) ["bitcoin"] "bitcoin" eq_refl
                  (or_introl eq_refl) _).
    + intros d H; discriminate H.
    + cbn. discriminate.
Defined.

(** X6. When [response.json()] raises on a 200 response, say a
    [JSONDecodeError] for a body that is no JSON, both methods return
    [None] and print ["Error: "] followed by the text of that exception;
    no field is read. *)
Theorem undecodable_body_returns_none
    (http_get : string -> list (string * string) -> Z -> exn + response)
    (local_strftime : timestamp -> time_error + string)
    (self : APIIntegration) (r : response) (e : exn)
    (Hcode : status_code r = 200)
    (Hjson : json r = inl e)
    (He : plain e = true) :
  (forall city_name,
     http_get (weather_base_url self) (weather_params self city_name) 10 = inr r ->
     run (fetch_weather_data http_get local_strftime self city_name) =
       (inr PNone,
        [weather_request self city_name; EvJson; EvPrint (exception_line e)])) /\
  (forall crypto_symbols,
     http_get (crypto_url self) (crypto_params crypto_symbols) 10 = inr r ->
     run (fetch_crypto_prices http_get self crypto_symbols) =
       (inr PNone,
        [crypto_request self crypto_symbols; EvJson; EvPrint (exception_line e)])).
Proof.
  split.
  - intros city_name Hget.
    rewrite fetch_weather_data_run, Hget, Hcode, Hjson. cbv zeta.
    cbn [Z.eqb Pos.eqb]. now apply handlers_plain.
  - intros crypto_symbols Hget.
    rewrite fetch_crypto_prices_run, Hget, Hcode, Hjson. cbv zeta.
    cbn [Z.eqb Pos.eqb]. now apply handlers_plain.
Qed.

Lemma undecodable_body_returns_none_witness :
  weather_against
    (inr (Response 200
            (inl (Exn JSONDecodeError "Expecting value: line 1 column 1 (char 0)"))))
    "London" =
    (inr PNone,
     [weather_request init "London"; EvJson;
      EvPrint "Error: Expecting value: line 1 column 1 (char 0)"]) /\
  prices_against
    (inr (Response 200
            (inl (Exn JSONDecodeError "Expecting value: line 1 column 1 (char 0)"))))
    ["bitcoin"] =
    (inr PNone,
     [crypto_request init ["bitcoin"]; EvJson;
      EvPrint "Error: Expecting value: line 1 column 1 (char 0)"]).
Proof.
  destruct (undecodable_body_returns_none
              (mock_get (inr (Response 200
                 (inl (Exn JSONDecodeError
                         "Expecting value: line 1 column 1 (char 0)")))))
              utc_strftime init
              (Response 200
                 (inl (Exn JSONDecodeError
                         "Expecting value: line 1 column 1 (char 0)")))
              (Exn JSONDecodeError "Expecting value: line 1 column 1 (char 0)")
              eq_refl eq_refl eq_refl) as [Hw Hc].
  split; [exact (Hw "London" eq_refl) | exact (Hc ["bitcoin"] eq_refl)].
Defined.

(** ** Symbols requested more than once *)

Lemma crypto_loop_step data symbol rest acc :
  crypto_loop data (symbol :: rest) acc =
    match crypto_step data symbol with
    | inl e => inl e
    | inr None => crypto_loop data rest acc
    | inr (Some q) => crypto_loop data rest (dict_set symbol q acc)
    end.
Proof.
  cbn [crypto_loop]. unfold crypto_step. cbn.
  destruct (contains symbol data) as [e|[|]]; cbn; [reflexivity| |reflexivity].
  repeat match goal with
  | |- context [match ?c with inl _ => _ | inr _ => _ end] =>
      destruct c; cbn; try reflexivity
  end.
Qed.

Lemma dict_set_same k v d : dict_get k d = Some v -> dict_set k v d = d.
Proof.
  induction d as [|[k' v'] d IH]; cbn; [discriminate|].
  destruct (String.eqb_spec k k') as [->|Hk].
  - now intros [= ->].
  - intros H. now rewrite IH.
Qed.

(** Leaving out the later occurrences of a symbol that was skipped, or whose
    quote is stored already, changes nothing. *)
Lemma crypto_loop_without data x symbols : forall acc,
  (crypto_step data x = inr None \/
   exists q, crypto_step data x = inr (Some q) /\ dict_get x acc = Some q) ->
  crypto_loop data symbols acc =
    crypto_loop data (filter (fun y => negb (String.eqb x y)) symbols) acc.
Proof.
  induction symbols as [|s rest IH]; intros acc Hx; [reflexivity|].
  cbn [filter]. destruct (String.eqb_spec x s) as [<-|Hne]; cbn [negb].
  - rewrite crypto_loop_step.
    destruct Hx as [Hskip | (q & Hq & Hacc)].
    + rewrite Hskip. apply IH. now left.
    + rewrite Hq, (dict_set_same _ _ _ Hacc). apply IH. right. eauto.
  - rewrite !crypto_loop_step.
    destruct (crypto_step data s) as [e|[q'|]]; [reflexivity| |now apply IH].
    apply IH. destruct Hx as [Hskip | (q & Hq & Hacc)]; [now left|].
    right. exists q. split; [exact Hq|].
    rewrite dict_get_set. destruct (String.eqb_spec x s); [contradiction|exact Hacc].
Qed.

Lemma crypto_loop_first_occurrences data symbols : forall acc,
  crypto_loop data symbols acc = crypto_loop data (first_occurrences symbols) acc.
Proof.
  induction symbols as [|x rest IH]; intros acc; [reflexivity|].
  cbn [first_occurrences]. rewrite !crypto_loop_step.
  destruct (crypto_step data x) as [e|[q|]] eqn:Hx; [reflexivity| |].
  - rewrite IH. apply crypto_loop_without. right. exists q. split; [exact Hx|].
    rewrite dict_get_set, String.eqb_refl. reflexivity.
  - rewrite IH. apply crypto_loop_without. left. exact Hx.
Qed.

(** X7. Naming a symbol more than once in the request changes neither the
    value [fetch_crypto_prices] returns nor what it prints: against the same
    answer, the list of symbols and the list of its first occurrences give
    the same result, be it a mapping or [None]. *)
Theorem repeated_symbols_change_nothing
    (http_get http_get' : string -> list (string * string) -> Z -> exn + response)
    (self : APIIntegration) (crypto_symbols : list string)
    (Hsame :
       http_get (crypto_url self) (crypto_params crypto_symbols) 10 =
       http_get' (crypto_url self)
         (crypto_params (first_occurrences crypto_symbols)) 10) :
  returned (run (fetch_crypto_prices http_get self crypto_symbols)) =
    returned (run (fetch_crypto_prices http_get' self
                     (first_occurrences crypto_symbols))) /\
  output (run (fetch_crypto_prices http_get self crypto_symbols)) =
    output (run (fetch_crypto_prices http_get' self
                   (first_occurrences crypto_symbols))).
Proof.
  rewrite !fetch_crypto_prices_run, <- Hsame. cbv zeta.
  unfold returned, output.
  destruct (http_get _ _ _) as [e|r].
  { rewrite !handlers_run.
    destruct (is_Timeout e), (is_ConnectionError e), (is_Exception e);
      split; reflexivity. }
  destruct (status_code r =? 200); [|split; reflexivity].
  destruct (json r) as [e|data].
  { rewrite !handlers_run.
    destruct (is_Timeout e), (is_ConnectionError e), (is_Exception e);
      split; reflexivity. }
  rewrite <- crypto_loop_first_occurrences.
  destruct (crypto_loop data crypto_symbols []) as [e|m]; [|split; reflexivity].
  rewrite !handlers_run.
  destruct (is_Timeout e), (is_ConnectionError e), (is_Exception e);
    split; reflexivity.
Qed.

Lemma repeated_symbols_change_nothing_witness :
  returned (prices_against
              (answer 200 (PDict [("ethereum", PDict [("usd", PInt 3000)]);
                                  ("bitcoin", PDict [("usd", PInt 50000)])]))
              ["bitcoin"; "ethereum"; "bitcoin"]) =
  returned (prices_against
              (answer 200 (PDict [("ethereum", PDict [("usd", PInt 3000)]);
                                  ("bitcoin", PDict [("usd", PInt 50000)])]))
              ["bitcoin"; "ethereum"]).
Proof.
  exact (proj1 (repeated_symbols_change_nothing
                  (mock_get (answer 200
                     (PDict [("ethereum", PDict [("usd", PInt 3000)]);
                             ("bitcoin", PDict [("usd", PInt 50000)])])))
                  (mock_get (answer 200
                     (PDict [("ethereum", PDict [("usd", PInt 3000)]);
                             ("bitcoin", PDict [("usd", PInt 50000)])])))
                  init ["bitcoin"; "ethereum"; "bitcoin"] eq_refl)).
Defined.

(** * Presentation *)

Lemma run_bind {A B} (c : M A) (k : A -> M B) :
  run (x <- c ;; k x) =
    match run c with
    | (inl e, t) => (inl e, t)
    | (inr a, t) => k a t
    end.
Proof. reflexivity. Qed.

Lemma printed_prints lines : printed (prints lines) = lines.
Proof.
  unfold prints. induction lines as [|l lines IH]; cbn; [reflexivity | now rewrite IH].
Qed.

(** ** [display_weather] *)

(** A complete dict, as [fetch_weather_data] builds it, is printed whole. *)
Lemma display_weather_complete self t
    city country temperature feels_like humidity pressure description
    wind_speed visibility timestamp :
  let info := [("city", city); ("country", country);
               ("temperature", temperature); ("feels_like", feels_like);
               ("humidity", humidity); ("pressure", pressure);
               ("weather_description", description);
               ("wind_speed", wind_speed); ("visibility", visibility);
               ("timestamp", timestamp)] in
  display_weather self (PDict info) t =
    (inr tt, (t ++ prints (weather_report info))%list).
Proof.
  cbv zeta. unfold display_weather, weather_report, shown, prints.
  cbn -[py_str str_mul nl rule]. unfold M_bind, print, emit, lift; cbn -[py_str str_mul nl rule].
  unfold M_bind; cbn -[py_str str_mul nl rule].
  rewrite <- !app_assoc. reflexivity.
Qed.

(** X8. Fetching the weather and displaying what came back, as [main]
    does, never raises when the transport and the decoder raise only
    exceptions of class [Exception] and what is fetched is ASCII text,
    that is, every text in the dict the fetch returns and the line it
    prints; it prints one line that begins with ["Error: "] and nothing
    else, or the twelve lines of the report of the dict that was fetched,
    never a part of a report. Text outside ASCII is left open: a console
    may fail to print it, and its [repr] is not modelled. *)
Theorem weather_is_shown_or_one_error
    (http_get : string -> list (string * string) -> Z -> exn + response)
    (local_strftime : timestamp -> time_error + string)
    (self : APIIntegration) (city_name : string)
    (Honly : raises_only_Exception http_get)
    (Hascii : ascii_outcome
                (run (fetch_weather_data http_get local_strftime self city_name))
              = true) :
  let x := run (show_weather http_get local_strftime self city_name) in
  returned x = inr tt /\
  ((exists line, output x = [line] /\ String.prefix "Error: " line = true) \/
   (exists info,
      returned (run (fetch_weather_data http_get local_strftime self city_name))
        = inr (PDict info) /\
      keys info = weather_keys /\
      output x = weather_report info)).
Proof.
  cbv zeta. unfold show_weather. rewrite run_bind.
  destruct (fetch_weather_data_cases http_get local_strftime self city_name)
    as [(r & data & info & _ & _ & _ & Hinfo & Hx)
       | [(line & t & Hx & Ht & Hline) | (e & t & Hx & _ & He & Hraise)]];
    cbv zeta in Hx; rewrite Hx.
  - apply weather_info_of_inv in Hinfo.
    destruct Hinfo as (? & ? & ? & ? & ? & ? & ? & ? & ? & ? & ? & Hinfo).
    decompose [and] Hinfo; clear Hinfo.
    match goal with H : PDict info = _ |- _ => injection H as -> end.
    pose proof (display_weather_complete self
                  [weather_request self city_name; EvJson]) as Hshow.
    cbv zeta in Hshow. rewrite Hshow.
    split; [reflexivity|]. right. eexists. split; [reflexivity|].
    split; [reflexivity|].
    unfold output; cbn [snd]. rewrite printed_app, printed_prints. reflexivity.
  - split; [reflexivity|]. left. exists line. split; [|exact Hline].
    unfold output; cbn [snd display_weather truthy negb].
    cbn. rewrite printed_app, Ht. reflexivity.
  - exfalso.
    pose proof (Honly (weather_base_url self)
                  (weather_params self city_name) 10) as H.
    destruct Hraise as [Hget | (r & Hget & Hjson)]; rewrite Hget in H;
      [|rewrite Hjson in H]; congruence.
Qed.

Lemma weather_is_shown_or_one_error_witness :
  raises_only_Exception (mock_get (answer 200 london)) /\
  ascii_outcome (weather_against (answer 200 london) "London") = true /\
  returned (run (show_weather (mock_get (answer 200 london)) utc_strftime init
                   "London")) = inr tt /\
  output (run (show_weather (mock_get (answer 200 london)) utc_strftime init
                 "London")) =
    [nl ++ rule;
     "🌤️  WEATHER INFORMATION";
     rule;
     "Location: London, GB";
     "Temperature: 11.5°C";
     "Feels Like: 10.25°C";
     "Description: Light Rain";
     "Humidity: 81%";
     "Pressure: 1012 hPa";
     "Wind Speed: 4.5 m/s";
     "Visibility: 10000 meters";
     "Last Updated: 2021-01-01 00:00:00"].
Proof.
  assert (Honly : raises_only_Exception (mock_get (answer 200 london)))
    by (intros url params timeout; exact I).
  split; [exact Honly|]. split; [vm_compute; reflexivity|].
  destruct (weather_is_shown_or_one_error (mock_get (answer 200 london))
              utc_strftime init "London" Honly eq_refl) as [Hret _].
  split; [exact Hret|]. vm_compute. reflexivity.
Defined.

Lemma subscript_dict_missing d k e :
  subscript (PDict d) k = inl e -> dict_get k d = None /\ e = Exn KeyError (repr_key k).
Proof.
  cbn. destruct (dict_get k d); [discriminate|]. now intros [= <-].
Qed.

Lemma subscript_dict_found d k v :
  subscript (PDict d) k = inr v -> dict_get k d = Some v.
Proof. cbn. destruct (dict_get k d); [now intros [= ->] | discriminate]. Qed.

(** Reads the entry [k] of the dict [wd]: a missing entry ends the proof.
    *)
Ltac read_entry wd before k after :=
  let E := fresh "E" in
  destruct (subscript wd k) eqn:E;
  [ apply subscript_dict_missing in E; destruct E as [E ->];
    exists before, k, after;
    split; [reflexivity|]; split;
    [ let j := fresh "k" in
      let Hj := fresh "Hk" in
      intros j Hj; cbn [In] in Hj;
      repeat (destruct Hj as [<-|Hj]; [congruence|]); contradiction
    | split; [exact E | split; reflexivity] ]
  | apply subscript_dict_found in E;
    cbn -[subscript py_str str_mul nl rule wd] ].

(** X9. [display_weather] has no handler: given a non-empty dict that
    lacks one of the ten entries, it prints the heading, then raises the
    [KeyError] of the first entry missing in the order it reads them, so
    that a partially filled dict would end the program. An empty dict and
    [None] print nothing. *)
Theorem display_weather_needs_every_entry
    (self : APIIntegration) (d : dict) :
  (d <> [] ->
   (exists key, In key displayed_keys /\ dict_get key d = None) ->
   exists before key after,
     displayed_keys = (before ++ key :: after)%list /\
     (forall k, In k before -> dict_get k d <> None) /\
     dict_get key d = None /\
     returned (run (display_weather self (PDict d)))
       = inl (Exn KeyError ("'" ++ key ++ "'")) /\
     firstn 3 (output (run (display_weather self (PDict d))))
       = [nl ++ rule; "🌤️  WEATHER INFORMATION"; rule]) /\
  run (display_weather self (PDict [])) = (inr tt, []) /\
  run (display_weather self PNone) = (inr tt, []).
Proof.
  split; [|split; reflexivity].
  intros Hd (key0 & Hin0 & Hmiss0).
  assert (Htruthy : truthy (PDict d) = true) by (destruct d; [contradiction|reflexivity]).
  set (wd := PDict d) in *.
  unfold run, display_weather. rewrite Htruthy. cbn [negb].
  cbn -[subscript py_str str_mul nl rule wd].
  unfold M_bind, print, emit, lift; cbn -[subscript py_str str_mul nl rule wd].
  unfold M_bind; cbn -[subscript py_str str_mul nl rule wd].
  read_entry wd (@nil string) "city"
    ["country"; "temperature"; "feels_like"; "weather_description"; "humidity";
     "pressure"; "wind_speed"; "visibility"; "timestamp"].
  read_entry wd ["city"] "country"
    ["temperature"; "feels_like"; "weather_description"; "humidity";
     "pressure"; "wind_speed"; "visibility"; "timestamp"].
  read_entry wd ["city"; "country"] "temperature"
    ["feels_like"; "weather_description"; "humidity"; "pressure"; "wind_speed";
     "visibility"; "timestamp"].
  read_entry wd ["city"; "country"; "temperature"] "feels_like"
    ["weather_description"; "humidity"; "pressure"; "wind_speed"; "visibility";
     "timestamp"].
  read_entry wd ["city"; "country"; "temperature"; "feels_like"]
    "weather_description"
    ["humidity"; "pressure"; "wind_speed"; "visibility"; "timestamp"].
  read_entry wd ["city"; "country"; "temperature"; "feels_like";
                 "weather_description"] "humidity"
    ["pressure"; "wind_speed"; "visibility"; "timestamp"].
  read_entry wd ["city"; "country"; "temperature"; "feels_like";
                 "weather_description"; "humidity"] "pressure"
    ["wind_speed"; "visibility"; "timestamp"].
  read_entry wd ["city"; "country"; "temperature"; "feels_like";
                 "weather_description"; "humidity"; "pressure"] "wind_speed"
    ["visibility"; "timestamp"].
  read_entry wd ["city"; "country"; "temperature"; "feels_like";
                 "weather_description"; "humidity"; "pressure"; "wind_speed"]
    "visibility" ["timestamp"].
  read_entry wd ["city"; "country"; "temperature"; "feels_like";
                 "weather_description"; "humidity"; "pressure"; "wind_speed";
                 "visibility"] "timestamp" (@nil string).
  exfalso. unfold displayed_keys in Hin0; cbn [In] in Hin0.
  repeat (destruct Hin0 as [<-|Hin0]; [congruence|]). contradiction.
Qed.

Lemma display_weather_needs_every_entry_witness :
  exists before key after,
    displayed_keys = (before ++ key :: after)%list /\
    key = "country" /\
    returned (run (display_weather init (PDict [("city", PStr "London")])))
      = inl (Exn KeyError ("'" ++ key ++ "'")).
Proof.
  destruct (proj1 (display_weather_needs_every_entry init
                     [("city", PStr "London")]))
    as (before & key & after & Hsplit & Hbefore & Hkey & Hret & _).
  - discriminate.
  - exists "country". split; [cbn; tauto | reflexivity].
  - exists before, key, after. split; [exact Hsplit|]. split; [|exact Hret].
    unfold displayed_keys in Hsplit.
    destruct before as [|b0 before]; cbn in Hsplit.
    + injection Hsplit as <- _. discriminate Hkey.
    + injection Hsplit as <- Hsplit.
      destruct before as [|b1 before]; cbn in Hsplit.
      * now injection Hsplit as <- _.
      * injection Hsplit as <- _. exfalso.
        apply (Hbefore "country"); [cbn; tauto | reflexivity].
Defined.

(** ** [display_crypto_prices] *)

Lemma format_value_number plus comma prec v :
  is_number v = true ->
  format_value plus comma prec v = inr (number_text plus comma prec v).
Proof.
  unfold number_text.
  destruct v; cbn; try discriminate; intros H.
  - now destruct b.
  - unfold format_int in *. destruct (float_of_int n); [reflexivity|discriminate].
  - reflexivity.
Qed.

Lemma format_value_no_number plus comma prec v :
  is_number v = false ->
  exists e,
    format_value plus comma prec v = inl e /\
    In (exn_cls e) [TypeError; ValueError; OverflowError].
Proof.
  destruct v; cbn; try discriminate; intros H; try (eexists; split; [reflexivity|cbn; tauto]).
  unfold format_int. destruct (float_of_int n); [discriminate|].
  eexists; split; [reflexivity|cbn; tauto].
Qed.

Lemma display_quotes_cons symbol q rest t :
  displayable q = true ->
  display_quotes ((symbol, q) :: rest) t =
    display_quotes rest (t ++ prints (quote_report (symbol, q)))%list.
Proof.
  unfold displayable, quote_report, entry.
  destruct (subscript q "price") as [?|price] eqn:Eprice; [discriminate|].
  destruct (subscript q "change_24h") as [?|change] eqn:Echange; [discriminate|].
  destruct (subscript q "market_cap") as [?|cap] eqn:Ecap; [discriminate|].
  destruct (subscript q "volume_24h") as [?|volume] eqn:Evolume; [discriminate|].
  intros H. apply andb_true_iff in H. destruct H as [H Hvolume].
  apply andb_true_iff in H. destruct H as [H Hcap].
  apply andb_true_iff in H. destruct H as [Hprice Hchange].
  cbn [display_quotes].
  cbn -[subscript format_value number_text upper nl eq_str display_quotes].
  unfold M_bind, print, emit, lift;
    cbn -[subscript format_value number_text upper nl eq_str display_quotes].
  rewrite Eprice, Echange, Ecap, Evolume;
    cbn -[subscript format_value number_text upper nl eq_str display_quotes].
  rewrite (format_value_number false true 2 price Hprice),
          (format_value_number true false 2 change Hchange);
    cbn -[subscript format_value number_text upper nl eq_str display_quotes].
  destruct (eq_str "N/A" cap) eqn:Hc, (eq_str "N/A" volume) eqn:Hv;
    cbn -[subscript format_value number_text upper nl eq_str display_quotes];
    cbn [orb] in Hcap, Hvolume;
    rewrite ?Ecap, ?Evolume;
    cbn -[subscript format_value number_text upper nl eq_str display_quotes];
    rewrite ?(format_value_number false true 0 cap Hcap),
            ?(format_value_number false true 0 volume Hvolume);
    cbn -[subscript format_value number_text upper nl eq_str display_quotes];
    unfold prints; cbn [map app];
    rewrite <- ?app_assoc; reflexivity.
Qed.

Ltac quote_entry q k :=
  let E := fresh "E" in
  let e := fresh "e" in
  destruct (subscript q k) as [e|?] eqn:E;
  [ exists e; eexists; split; [reflexivity|];
    right; exists k; split; [cbn; tauto | exact E]
  | cbn -[subscript format_value upper nl eq_str display_quotes] ].

Ltac quote_number plus comma prec v :=
  let N := fresh "N" in
  let e := fresh "e" in
  let Hf := fresh "Hf" in
  let Hc := fresh "Hc" in
  destruct (is_number v) eqn:N;
  [ rewrite (format_value_number plus comma prec v N);
    cbn -[subscript format_value number_text upper nl eq_str display_quotes]
  | destruct (format_value_no_number plus comma prec v N) as (e & Hf & Hc);
    rewrite Hf; exists e; eexists; split; [reflexivity|];
    left; exact Hc ].

(** A quote that is not displayable ends the loop with an exception: the
    one of a value that code [f] cannot format, or the one of reading an
    entry. *)
Lemma display_quotes_raises symbol q rest t :
  displayable q = false ->
  exists e t',
    display_quotes ((symbol, q) :: rest) t = (inl e, t') /\
    (In (exn_cls e) [TypeError; ValueError; OverflowError] \/
     exists k, In k quote_keys /\ subscript q k = inl e).
Proof.
  intros H. unfold displayable in H.
  cbn [display_quotes].
  cbn -[subscript format_value upper nl eq_str display_quotes].
  unfold M_bind, print, emit, lift;
    cbn -[subscript format_value upper nl eq_str display_quotes].
  quote_entry q "price".
  quote_number false true 2%nat p.
  quote_entry q "change_24h".
  quote_number true false 2%nat p0.
  quote_entry q "market_cap".
  destruct (eq_str "N/A" p1) eqn:Hcap;
    cbn -[subscript format_value number_text upper nl eq_str display_quotes].
  - quote_entry q "volume_24h".
    destruct (eq_str "N/A" p2) eqn:Hvol; [cbn in H; discriminate H|].
    cbn -[subscript format_value number_text upper nl eq_str display_quotes].
    rewrite ?E2.
    cbn -[subscript format_value number_text upper nl eq_str display_quotes].
    quote_number false true 0%nat p2. cbn in H. discriminate H.
  - rewrite ?E1.
    cbn -[subscript format_value number_text upper nl eq_str display_quotes].
    quote_number false true 0%nat p1.
    quote_entry q "volume_24h".
    destruct (eq_str "N/A" p2) eqn:Hvol; [cbn in H; discriminate H|].
    cbn -[subscript format_value number_text upper nl eq_str display_quotes].
    rewrite ?E2.
    cbn -[subscript format_value number_text upper nl eq_str display_quotes].
    quote_number false true 0%nat p2. cbn in H. discriminate H.
Qed.

Lemma display_quotes_all items : forall t,
  forallb (fun item => displayable (snd item)) items = true ->
  display_quotes items t = (inr tt, (t ++ prints (flat_map quote_report items))%list).
Proof.
  induction items as [|[symbol q] rest IH]; intros t H.
  - cbn. now rewrite app_nil_r.
  - cbn [forallb snd] in H. apply andb_true_iff in H. destruct H as [Hq Hrest].
    rewrite (display_quotes_cons _ _ _ _ Hq), (IH _ Hrest).
    cbn [flat_map]. unfold prints. now rewrite map_app, app_assoc.
Qed.

Lemma display_quotes_some items : forall t,
  forallb (fun item => displayable (snd item)) items = false ->
  exists e t' symbol q,
    display_quotes items t = (inl e, t') /\
    In (symbol, q) items /\ displayable q = false /\
    (In (exn_cls e) [TypeError; ValueError; OverflowError] \/
     exists k, In k quote_keys /\ subscript q k = inl e).
Proof.
  induction items as [|[symbol q] rest IH]; intros t H; [discriminate H|].
  cbn [forallb snd] in H.
  destruct (displayable q) eqn:Hq.
  - cbn [andb] in H. rewrite (display_quotes_cons _ _ _ _ Hq).
    destruct (IH (t ++ prints (quote_report (symbol, q)))%list H)
      as (e & t' & s' & q' & Hrun & Hin & Hq' & Hcls).
    exists e, t', s', q'. repeat split; auto. now right.
  - destruct (display_quotes_raises symbol q rest t Hq) as (e & t' & Hrun & Hcls).
    exists e, t', symbol, q. repeat split; auto. now left.
Qed.

Lemma display_crypto_prices_all self m t :
  forallb (fun item => displayable (snd item)) m = true ->
  display_crypto_prices self (PDict m) t =
    (inr tt,
     (t ++ prints (match m with
                   | [] => []
                   | _ => prices_header ++ flat_map quote_report m
                   end))%list).
Proof.
  intros H. destruct m as [|item m]; [cbn; now rewrite app_nil_r|].
  unfold display_crypto_prices. cbn [truthy negb].
  cbn -[display_quotes str_mul nl]. unfold M_bind, print, emit, lift.
  cbn -[display_quotes str_mul nl]. unfold M_bind.
  cbn -[display_quotes str_mul nl].
  rewrite (display_quotes_all _ _ H). unfold prints, prices_header, rule.
  cbn [map app]. rewrite <- !app_assoc. reflexivity.
Qed.

Lemma display_crypto_prices_some self m t :
  forallb (fun item => displayable (snd item)) m = false ->
  exists e t' symbol q,
    display_crypto_prices self (PDict m) t = (inl e, t') /\
    In (symbol, q) m /\ displayable q = false /\
    (In (exn_cls e) [TypeError; ValueError; OverflowError] \/
     exists k, In k quote_keys /\ subscript q k = inl e).
Proof.
  intros H. destruct m as [|item m]; [discriminate H|].
  unfold display_crypto_prices. cbn [truthy negb].
  cbn -[display_quotes str_mul nl]. unfold M_bind, print, emit, lift.
  cbn -[display_quotes str_mul nl]. unfold M_bind.
  cbn -[display_quotes str_mul nl].
  match goal with
  | |- context [display_quotes ?items ?t0] =>
      destruct (display_quotes_some items t0 H)
        as (e & t' & symbol & q & Hrun & Hin & Hq & Hcls)
  end.
  rewrite Hrun. exists e, t', symbol, q. auto.
Qed.

(** X10. [display_crypto_prices] prints a non-empty mapping whose
    symbols are ASCII text whole exactly when every quote is displayable:
    it has the four entries, price and change are numbers, market cap and
    volume are numbers or ["N/A"]. Then it prints the heading and, for
    each quote in the order of the mapping, the symbol in upper case, the
    price with two decimals and commas, the signed change, and the market
    cap and volume lines only where the value is not ["N/A"]. Otherwise
    it raises at a quote that is not displayable, say one whose change is
    [None]; nothing catches that exception. An empty mapping prints
    nothing. The upper case of symbols outside ASCII is left open. *)
Theorem prices_are_shown_when_displayable
    (self : APIIntegration) (m : dict)
    (Hsymbols : forallb (fun item => ascii_text (fst item)) m = true) :
  (forallb (fun item => displayable (snd item)) m = true ->
   run (display_crypto_prices self (PDict m)) =
     (inr tt,
      prints (match m with
              | [] => []
              | _ => prices_header ++ flat_map quote_report m
              end))) /\
  (forallb (fun item => displayable (snd item)) m = false ->
   exists e symbol q,
     returned (run (display_crypto_prices self (PDict m))) = inl e /\
     In (symbol, q) m /\ displayable q = false /\
     (In (exn_cls e) [TypeError; ValueError; OverflowError] \/
      exists k, In k quote_keys /\ subscript q k = inl e)).
Proof.
  split; intros H.
  - unfold run. rewrite (display_crypto_prices_all self m [] H). reflexivity.
  - destruct (display_crypto_prices_some self m [] H)
      as (e & t' & symbol & q & Hrun & Hin & Hq & Hcls).
    exists e, symbol, q. unfold run, returned. rewrite Hrun. auto.
Qed.

Lemma prices_are_shown_when_displayable_witness :
  forallb (fun item => ascii_text (fst item))
    [("bitcoin", PNone)] = true /\
  run (display_crypto_prices init
         (PDict [("bitcoin", PDict [("price", PInt 50000);
                                    ("change_24h", PFloat (-1.25)%float);
                                    ("market_cap", PStr "N/A");
                                    ("volume_24h", PInt 123456789)])])) =
    (inr tt,
     prints [nl ++ rule; "CRYPTOCURRENCY PRICES"; rule;
             nl ++ "BITCOIN:";
             "  Price: $50,000.00";
             "  24h Change: -1.25%";
             "  24h Volume: $123,456,789"]) /\
  exists e symbol q,
    returned (run (display_crypto_prices init
                     (PDict [("bitcoin", PDict [("price", PInt 50000);
                                                ("change_24h", PNone);
                                                ("market_cap", PStr "N/A");
                                                ("volume_24h", PStr "N/A")])])))
      = inl e /\
    In (symbol, q)
       [("bitcoin", PDict [("price", PInt 50000); ("change_24h", PNone);
                           ("market_cap", PStr "N/A");
                           ("volume_24h", PStr "N/A")])] /\
    displayable q = false /\
    (In (exn_cls e) [TypeError; ValueError; OverflowError] \/
     exists k, In k quote_keys /\ subscript q k = inl e).
Proof.
  split; [reflexivity|]. split.
  - exact (proj1 (prices_are_shown_when_displayable init
                    [("bitcoin", PDict [("price", PInt 50000);
                                        ("change_24h", PFloat (-1.25)%float);
                                        ("market_cap", PStr "N/A");
                                        ("volume_24h", PInt 123456789)])]
                    eq_refl)
             eq_refl).
  - exact (proj2 (prices_are_shown_when_displayable init
                    [("bitcoin", PDict [("price", PInt 50000);
                                        ("change_24h", PNone);
                                        ("market_cap", PStr "N/A");
                                        ("volume_24h", PStr "N/A")])]
                    eq_refl)
             eq_refl).
Defined.

Lemma In_dict_set s q k v d :
  In (s, q) (dict_set k v d) -> In (s, q) d \/ (s, q) = (k, v).
Proof.
  induction d as [|[k' v'] d IH]; cbn.
  - intros [[= <- <-]|[]]. now right.
  - destruct (String.eqb_spec k k') as [->|Hk]; cbn.
    + intros [[= <- <-]|H]; [now right | left; now right].
    + intros [H|H]; [left; now left|].
      destruct (IH H) as [H'|H']; [left; now right | now right].
Qed.

(** Every item of the mapping the loop returns was in [crypto_info]
    already, or is a quote with the four entries. *)
Lemma crypto_loop_items data symbols : forall acc m,
  crypto_loop data symbols acc = inr m ->
  forall s q, In (s, q) m ->
    In (s, q) acc \/ exists o price, q = quote_of o price.
Proof.
  induction symbols as [|symbol rest IH]; intros acc m H s q Hin.
  - injection H as <-. now left.
  - apply crypto_loop_cons in H.
    destruct H as [[_ H] | (d & o & price & _ & _ & _ & H)].
    + eapply IH; eassumption.
    + destruct (IH _ _ H _ _ Hin) as [Hacc|Hq]; [|now right].
      apply In_dict_set in Hacc. destruct Hacc as [Hacc|[= _ ->]]; [now left|].
      right. eauto.
Qed.

(** X11. Fetching the prices and displaying what came back, as [main]
    does, is not safe in the way the weather is: with a transport that
    raises only exceptions of class [Exception], the sequence returns
    normally exactly when the fetch gave [None] or a mapping all of whose
    quotes are displayable. When a quote holds a value that is not a
    number where one is printed, which the fetch copies from the body
    as it is, the display raises a [TypeError], [ValueError] or
    [OverflowError] that nothing catches. *)
Theorem prices_are_shown_unless_a_value_is_no_number
    (http_get : string -> list (string * string) -> Z -> exn + response)
    (self : APIIntegration) (crypto_symbols : list string)
    (Honly : raises_only_Exception http_get) :
  let fetched := returned (run (fetch_crypto_prices http_get self crypto_symbols)) in
  let x := run (show_prices http_get self crypto_symbols) in
  (returned x = inr tt <->
   fetched = inr PNone \/
   exists m, fetched = inr (PDict m) /\
             forallb (fun item => displayable (snd item)) m = true) /\
  (forall e, returned x = inl e ->
     In (exn_cls e) [TypeError; ValueError; OverflowError] /\
     exists m symbol q,
       fetched = inr (PDict m) /\ In (symbol, q) m /\ displayable q = false).
Proof.
  cbv zeta. unfold show_prices. rewrite run_bind.
  destruct (fetch_crypto_prices_cases http_get self crypto_symbols)
    as [(r & data & m & _ & _ & _ & Hloop & Hx)
       | [(line & t & Hx & Ht & Hline) | (e & t & Hx & _ & He & Hraise)]];
    cbv zeta in Hx; rewrite Hx; unfold returned at 2 4; cbn [fst].
  - destruct (forallb (fun item => displayable (snd item)) m) eqn:Hall.
    + rewrite (display_crypto_prices_all self m _ Hall). unfold returned; cbn [fst].
      split.
      * split; [intros _; right; exists m; auto | reflexivity].
      * intros e [=].
    + destruct (display_crypto_prices_some self m
                  [crypto_request self crypto_symbols; EvJson] Hall)
        as (e & t' & symbol & q & Hrun & Hin & Hq & Hcls).
      rewrite Hrun. unfold returned; cbn [fst]. split.
      * split; [discriminate|].
        intros [[=] | (m' & [= <-] & Hm')]. congruence.
      * intros e' [= <-]. split.
        -- destruct Hcls as [Hcls | (k & Hk & Hsub)]; [exact Hcls|].
           exfalso.
           destruct (crypto_loop_items _ _ _ _ Hloop _ _ Hin)
             as [[] | (o & price & ->)].
           unfold quote_keys in Hk; cbn [In] in Hk.
           repeat (destruct Hk as [<-|Hk]; [discriminate Hsub|]). contradiction.
        -- exists m, symbol, q. auto.
  - cbn. split.
    + split; [intros _; now left | reflexivity].
    + intros e [=].
  - exfalso.
    pose proof (Honly (crypto_url self) (crypto_params crypto_symbols) 10) as H.
    destruct Hraise as [Hget | (r & Hget & Hjson)]; rewrite Hget in H;
      [|rewrite Hjson in H]; congruence.
Qed.

(** A body in which the change of [bitcoin] is [null]. *)
Lemma prices_are_shown_unless_a_value_is_no_number_witness :
  raises_only_Exception
    (mock_get (answer 200
       (PDict [("bitcoin", PDict [("usd", PInt 50000);
                                  ("usd_24h_change", PNone)])]))) /\
  returned (run (show_prices
    (mock_get (answer 200
       (PDict [("bitcoin", PDict [("usd", PInt 50000);
                                  ("usd_24h_change", PNone)])])))
    init ["bitcoin"])) =
    inl (Exn TypeError "unsupported format string passed to NoneType.__format__") /\
  In TypeError [TypeError; ValueError; OverflowError].
Proof.
  assert (Honly : raises_only_Exception
            (mock_get (answer 200
               (PDict [("bitcoin", PDict [("usd", PInt 50000);
                                          ("usd_24h_change", PNone)])]))))
    by (intros url params timeout; exact I).
  split; [exact Honly|]. split; [vm_compute; reflexivity|].
  exact (proj1 (proj2 (prices_are_shown_unless_a_value_is_no_number
                         _ init ["bitcoin"] Honly)
                 (Exn TypeError
                    "unsupported format string passed to NoneType.__format__")
                 eq_refl)).
Defined.

(** ** The display methods only print *)

Lemma quiet_ret {A} (a : A) : quiet (ret a).
Proof. intros t. exists []. cbn. now rewrite app_nil_r. Qed.

Lemma quiet_lift {A} (r : exn + A) : quiet (lift r).
Proof. intros t. exists []. destruct r; cbn; now rewrite app_nil_r. Qed.

Lemma quiet_print line : quiet (print line).
Proof. intros t. exists [line]. reflexivity. Qed.

Lemma quiet_bind {A B} (c : M A) (k : A -> M B) :
  quiet c -> (forall a, quiet (k a)) -> quiet (x <- c ;; k x).
Proof.
  intros Hc Hk t. destruct (Hc t) as [lines Hlines].
  cbn. unfold M_bind. destruct (c t) as [[e|a] t'] eqn:E; cbn in Hlines; subst t'.
  - exists lines. reflexivity.
  - destruct (Hk a (t ++ prints lines)%list) as [lines' Hlines'].
    exists (lines ++ lines')%list. rewrite Hlines'.
    unfold prints. now rewrite map_app, app_assoc.
Qed.

Ltac quiet_steps :=
  repeat first
    [ apply quiet_ret | apply quiet_lift | apply quiet_print
    | apply quiet_bind; [|intros ?]
    | match goal with
      | |- quiet (if ?b then _ else _) => destruct b
      end ].

Lemma display_weather_quiet self v : quiet (display_weather self v).
Proof. unfold display_weather. quiet_steps. Qed.

Lemma display_quotes_quiet items : quiet (display_quotes items).
Proof.
  induction items as [|[symbol data] rest IH]; [apply quiet_ret|].
  cbn [display_quotes]. quiet_steps. exact IH.
Qed.

Lemma display_crypto_prices_quiet self v : quiet (display_crypto_prices self v).
Proof.
  unfold display_crypto_prices. quiet_steps. apply display_quotes_quiet.
Qed.

Lemma requests_prints lines : requests (prints lines) = [].
Proof. induction lines; cbn; auto. Qed.

Lemma decodings_prints lines : decodings (prints lines) = O.
Proof. induction lines; cbn; auto. Qed.

(** X12. The two display methods do nothing but print, whatever they are
    given and however they end: they send no request and decode no body,
    so that every request of the program comes from a fetch. *)
Theorem display_only_prints (self : APIIntegration) (v : pyval) :
  (exists lines, snd (run (display_weather self v)) = prints lines) /\
  (exists lines, snd (run (display_crypto_prices self v)) = prints lines) /\
  requests (snd (run (display_weather self v))) = [] /\
  requests (snd (run (display_crypto_prices self v))) = [] /\
  decodings (snd (run (display_weather self v))) = O /\
  decodings (snd (run (display_crypto_prices self v))) = O.
Proof.
  destruct (display_weather_quiet self v []) as [lw Hw].
  destruct (display_crypto_prices_quiet self v []) as [lc Hc].
  unfold run. rewrite Hw, Hc. cbn [app].
  rewrite !requests_prints, !decodings_prints. eauto 10.
Qed.

(** * The program *)

Lemma sent_app l1 l2 : sent (l1 ++ l2) = (sent l1 ++ sent l2)%list.
Proof.
  induction l1 as [|[[url params timeout| |line]|text] l1 IH]; cbn;
    [reflexivity| | | |]; now rewrite ?IH.
Qed.

Lemma sent_Core t : sent (map Core t) = requests t.
Proof.
  induction t as [|[url params timeout| |line] t IH]; cbn;
    [reflexivity| | |]; now rewrite ?IH.
Qed.

Lemma console_app l1 l2 : console (l1 ++ l2) = (console l1 ++ console l2)%list.
Proof.
  induction l1 as [|[[url params timeout| |line]|text] l1 IH]; cbn;
    [reflexivity| | | |]; now rewrite ?IH.
Qed.

(** The trace of a fetch holds its one request. *)
Lemma fetch_weather_data_requests http_get local_strftime self city_name :
  requests (snd (run (fetch_weather_data http_get local_strftime self city_name)))
    = [weather_request self city_name].
Proof.
  rewrite fetch_weather_data_run. cbv zeta.
  destruct (http_get _ _ _) as [e|r].
  { now destruct (handlers_trace "weather" e [weather_request self city_name])
      as [-> _]. }
  destruct (status_code r =? 200); [|reflexivity].
  destruct (json r) as [e|data].
  { now destruct (handlers_trace "weather" e [weather_request self city_name; EvJson])
      as [-> _]. }
  destruct (weather_info_of local_strftime data) as [e|v]; [|reflexivity].
  now destruct (handlers_trace "weather" e [weather_request self city_name; EvJson])
    as [-> _].
Qed.

Lemma fetch_crypto_prices_requests http_get self crypto_symbols :
  requests (snd (run (fetch_crypto_prices http_get self crypto_symbols)))
    = [crypto_request self crypto_symbols].
Proof.
  rewrite fetch_crypto_prices_run. cbv zeta.
  destruct (http_get _ _ _) as [e|r].
  { now destruct (handlers_trace "crypto" e [crypto_request self crypto_symbols])
      as [-> _]. }
  destruct (status_code r =? 200); [|reflexivity].
  destruct (json r) as [e|data].
  { now destruct (handlers_trace "crypto" e
                    [crypto_request self crypto_symbols; EvJson]) as [-> _]. }
  destruct (crypto_loop data crypto_symbols []) as [e|v]; [|reflexivity].
  now destruct (handlers_trace "crypto" e
                  [crypto_request self crypto_symbols; EvJson]) as [-> _].
Qed.

Section Program.

Variable network : nat -> string -> list (string * string) -> Z -> exn + response.
Variable local_strftime : timestamp -> time_error + string.

Lemma post_ret {A} (a : A) w (Q : stop + A -> world -> Prop) :
  Q (inr a) w -> post (ret a) w Q.
Proof. exact (fun H => H). Qed.

Lemma post_bind {A B} (c : P A) (k : A -> P B) w (Q : stop + B -> world -> Prop) :
  post c w (fun r w' =>
              match r with
              | inl s => Q (inl s) w'
              | inr a => post (k a) w' Q
              end) ->
  post (x <- c ;; k x) w Q.
Proof.
  unfold post. cbn. unfold P_bind. destruct (c w) as [[s|a] w']; exact (fun H => H).
Qed.

Lemma post_core {A}
    (c : (string -> list (string * string) -> Z -> exn + response) -> M A)
    w (Q : stop + A -> world -> Prop) :
  (forall r t,
     run (c (network (requests_made w))) = (r, t) ->
     Q (match r with
        | inl e => inl (Raised e)
        | inr a => inr a
        end)
       {| stdin := stdin w;
          effects := (effects w ++ map Core t)%list;
          requests_made := (requests_made w + length (requests t))%nat |}) ->
  post (core network c) w Q.
Proof.
  intros H. unfold post, core.
  destruct (run (c (network (requests_made w)))) as [r t] eqn:E.
  exact (H r t eq_refl).
Qed.

Lemma post_say line w (Q : stop + unit -> world -> Prop) :
  Q (inr tt)
    {| stdin := stdin w;
       effects := (effects w ++ [Core (EvPrint line)])%list;
       requests_made := requests_made w |} ->
  post (say network line) w Q.
Proof.
  intros H. apply post_core. intros r t [= <- <-]. cbn.
  now rewrite Nat.add_0_r.
Qed.

Lemma post_input prompt w (Q : stop + string -> world -> Prop) :
  match stdin w with
  | [] =>
      Q (inl (EOFError "EOF when reading a line"))
        {| stdin := [];
           effects := (effects w ++ [Prompt prompt])%list;
           requests_made := requests_made w |}
  | line :: rest =>
      Q (inr line)
        {| stdin := rest;
           effects := (effects w ++ [Prompt prompt])%list;
           requests_made := requests_made w |}
  end ->
  post (input prompt) w Q.
Proof. unfold post, input. destruct (stdin w); exact (fun H => H). Qed.

End Program.

Lemma extends_refl w w' :
  sent (effects w') = sent (effects w) ->
  requests_made w' = requests_made w ->
  extends w w' [].
Proof. intros H1 H2. split; cbn; now rewrite ?app_nil_r, ?Nat.add_0_r. Qed.

Lemma extends_trans w w1 w2 a b :
  extends w w1 a -> extends w1 w2 b -> extends w w2 (a ++ b).
Proof.
  intros [H1 H2] [H3 H4]. split.
  - now rewrite H3, H1, app_assoc.
  - rewrite H4, H2, length_app. lia.
Qed.

Lemma extends_whole w w' plan :
  extends w w' plan -> exists k, extends w w' (firstn k plan).
Proof. intros H. exists (length plan). now rewrite firstn_all. Qed.

Lemma run_post_raised ok plan exits w w' e k :
  extends w w' (firstn k plan) ->
  ok e ->
  run_post ok plan exits w (inl (Raised e)) w'.
Proof.
  intros H Hok. split; [discriminate|]. split; [eauto|].
  split; [discriminate|]. split; [intros msg [=]|]. now intros e' [= <-].
Qed.

Lemma run_post_eof ok plan exits w w' msg :
  extends w w' plan ->
  exits = false ->
  stdin w' = [] ->
  run_post ok plan exits w (inl (EOFError msg)) w'.
Proof.
  intros H He Hs. split; [discriminate|].
  split; [now apply extends_whole|]. split; [discriminate|].
  split; [auto|]. intros e [=].
Qed.

Lemma run_post_return ok plan exits w w' :
  extends w w' plan ->
  exits = true ->
  last (console (effects w')) "" = thanks ->
  run_post ok plan exits w (inr tt) w'.
Proof.
  intros H He Hl. split; [discriminate|].
  split; [now apply extends_whole|]. split; [auto|].
  split; [intros msg [=]|intros e [=]].
Qed.

(** A run that goes on from [w1], reached from [w] by sending [extra]. *)
Lemma run_post_later ok plan exits w w1 extra r w' :
  extends w w1 extra ->
  run_post ok plan exits w1 r w' ->
  run_post ok (extra ++ plan) exits w r w'.
Proof.
  intros Hext (Hfuel & (k & Hk) & Hret & Heof & Hok).
  split; [exact Hfuel|]. split.
  - exists (length extra + k)%nat. rewrite firstn_app_2.
    eapply extends_trans; eassumption.
  - split; [|split; [|exact Hok]].
    + intros Hr. destruct (Hret Hr) as (He & Hx & Hl).
      repeat split; auto; eapply extends_trans; eassumption.
    + intros msg Hr. destruct (Heof msg Hr) as (He & Hs & Hx).
      repeat split; auto; eapply extends_trans; eassumption.
Qed.

(** With a transport and a decoder that raise only exceptions of class
    [Exception], the fetch returns and the display of what it returned
    returns as well. *)
Lemma fetch_weather_data_then_display
    (http_get : string -> list (string * string) -> Z -> exn + response)
    (local_strftime : timestamp -> time_error + string)
    (self : APIIntegration) (city_name : string) :
  raises_only_Exception http_get ->
  exists v t,
    run (fetch_weather_data http_get local_strftime self city_name) = (inr v, t) /\
    returned (run (display_weather self v)) = inr tt.
Proof.
  intros Honly.
  destruct (fetch_weather_data_cases http_get local_strftime self city_name)
    as [(r & data & info & _ & _ & _ & Hinfo & Hx)
       | [(line & t & Hx & Ht & Hline) | (e & t & Hx & _ & He & Hraise)]];
    cbv zeta in Hx.
  - apply weather_info_of_inv in Hinfo.
    destruct Hinfo as (? & ? & ? & ? & ? & ? & ? & ? & ? & ? & ? & Hinfo).
    decompose [and] Hinfo; clear Hinfo.
    match goal with H : PDict info = _ |- _ => injection H as -> end.
    eexists _, _. split; [exact Hx|].
    pose proof (display_weather_complete self []) as Hshow.
    cbv zeta in Hshow. unfold run. rewrite Hshow. reflexivity.
  - exists PNone. eexists. split; [exact Hx|]. reflexivity.
  - exfalso.
    pose proof (Honly (weather_base_url self)
                  (weather_params self city_name) 10) as H.
    destruct Hraise as [Hget | (r & Hget & Hjson)]; rewrite Hget in H;
      [|rewrite Hjson in H]; congruence.
Qed.

(** The same for the prices, but for the display of a value that is no
    number. *)
Lemma fetch_crypto_prices_then_display
    (http_get : string -> list (string * string) -> Z -> exn + response)
    (self : APIIntegration) (crypto_symbols : list string) :
  raises_only_Exception http_get ->
  exists v t,
    run (fetch_crypto_prices http_get self crypto_symbols) = (inr v, t) /\
    forall e, returned (run (display_crypto_prices self v)) = inl e ->
              In (exn_cls e) [TypeError; ValueError; OverflowError].
Proof.
  intros Honly.
  destruct (fetch_crypto_prices_cases http_get self crypto_symbols)
    as [(r & data & m & _ & _ & _ & Hloop & Hx)
       | [(line & t & Hx & Ht & Hline) | (e & t & Hx & _ & He & Hraise)]];
    cbv zeta in Hx.
  - eexists _, _. split; [exact Hx|]. intros e He.
    destruct (forallb (fun item => displayable (snd item)) m) eqn:Hall.
    + unfold run in He. rewrite (display_crypto_prices_all self m _ Hall) in He.
      discriminate He.
    + destruct (display_crypto_prices_some self m [] Hall)
        as (e' & t' & symbol & q & Hrun & Hin & Hq & Hcls).
      unfold run in He. rewrite Hrun in He. injection He as <-.
      destruct Hcls as [Hcls | (k & Hk & Hsub)]; [exact Hcls|].
      exfalso.
      destruct (crypto_loop_items _ _ _ _ Hloop _ _ Hin)
        as [[] | (o & price & ->)].
      unfold quote_keys in Hk; cbn [In] in Hk.
      repeat (destruct Hk as [<-|Hk]; [discriminate Hsub|]). contradiction.
  - exists PNone. eexists. split; [exact Hx|]. intros e He. discriminate He.
  - exfalso.
    pose proof (Honly (crypto_url self) (crypto_params crypto_symbols) 10) as H.
    destruct Hraise as [Hget | (r & Hget & Hjson)]; rewrite Hget in H;
      [|rewrite Hjson in H]; congruence.
Qed.

(** A request that is not answered with status 200 gives [None]. *)
Lemma fetch_weather_data_unavailable
    (http_get : string -> list (string * string) -> Z -> exn + response)
    (local_strftime : timestamp -> time_error + string)
    (self : APIIntegration) (city_name : string) :
  match http_get (weather_base_url self) (weather_params self city_name) 10 with
  | inl e => is_Exception e = true
  | inr r => status_code r <> 200
  end ->
  exists t,
    run (fetch_weather_data http_get local_strftime self city_name) = (inr PNone, t).
Proof.
  intros H. rewrite fetch_weather_data_run. cbv zeta.
  destruct (http_get _ _ _) as [e|r].
  - destruct (handlers_cases "weather" e [weather_request self city_name])
      as [(line & -> & _) | (_ & He)]; [eauto|congruence].
  - destruct (Z.eqb_spec (status_code r) 200); [contradiction|eauto].
Qed.

Lemma fetch_crypto_prices_unavailable
    (http_get : string -> list (string * string) -> Z -> exn + response)
    (self : APIIntegration) (crypto_symbols : list string) :
  match http_get (crypto_url self) (crypto_params crypto_symbols) 10 with
  | inl e => is_Exception e = true
  | inr r => status_code r <> 200
  end ->
  exists t,
    run (fetch_crypto_prices http_get self crypto_symbols) = (inr PNone, t).
Proof.
  intros H. rewrite fetch_crypto_prices_run. cbv zeta.
  destruct (http_get _ _ _) as [e|r].
  - destruct (handlers_cases "crypto" e [crypto_request self crypto_symbols])
      as [(line & -> & _) | (_ & He)]; [eauto|congruence].
  - destruct (Z.eqb_spec (status_code r) 200); [contradiction|eauto].
Qed.

Section Program.

Variable network : nat -> string -> list (string * string) -> Z -> exn + response.
Variable local_strftime : timestamp -> time_error + string.

(** Fetching and displaying sends the one request of the fetch, reads no
    line, and ends by returning or by an exception that escapes the two
    methods. *)
Lemma post_show_weather api city w (Q : stop + unit -> world -> Prop) :
  (forall r w',
     stdin w' = stdin w ->
     extends w w' [weather_request api city] ->
     (r = inr tt \/ exists e, r = inl (Raised e) /\ escapes network e) ->
     Q r w') ->
  post (weather_data <-
          core network
            (fun http_get => fetch_weather_data http_get local_strftime api city) ;;
        core network (fun _ => display_weather api weather_data)) w Q.
Proof.
  intros H. apply post_bind, post_core. intros r t E.
  pose proof (fetch_weather_data_requests (network (requests_made w))
                local_strftime api city) as Hreq.
  rewrite E in Hreq; cbn [snd] in Hreq.
  assert (Hsafe : (forall n, raises_only_Exception (network n)) ->
                  exists v, r = inr v /\
                            returned (run (display_weather api v)) = inr tt).
  { intros Honly.
    destruct (fetch_weather_data_then_display (network (requests_made w))
                local_strftime api city (Honly _)) as (v & t' & Hrun & Hd).
    rewrite Hrun in E. injection E as <- <-. eauto. }
  assert (Hnone : unavailable network -> r = inr PNone).
  { intros Hun.
    destruct (fetch_weather_data_unavailable (network (requests_made w))
                local_strftime api city
                (Hun _ _ _ _)) as (t' & Hrun).
    rewrite Hrun in E. now injection E as <- <-. }
  destruct r as [e|v].
  - apply H; [reflexivity| |right; exists e; split; [reflexivity|]].
    + split; cbn [effects requests_made];
        now rewrite ?sent_app, ?sent_Core, Hreq.
    + split; [intros Honly; destruct (Hsafe Honly) as (v & [=] & _)|].
      intros Hun. discriminate (Hnone Hun).
  - apply post_core. intros r2 t2 E2.
    assert (Hr2 : r2 = inr tt \/ exists e, r2 = inl e /\ escapes network e).
    { destruct r2 as [e|[]]; [right|now left]. exists e. split; [reflexivity|].
      split.
      - intros Honly. destruct (Hsafe Honly) as (v' & [= <-] & Hd).
        rewrite E2 in Hd. discriminate Hd.
      - intros Hun. pose proof (Hnone Hun) as Hv. injection Hv as ->.
        cbn in E2. discriminate E2. }
    destruct (display_weather_quiet api v []) as [lines Hlines].
    unfold run in E2. rewrite E2 in Hlines; cbn in Hlines; subst t2.
    apply H; [reflexivity| |].
    + split; cbn [effects requests_made];
        rewrite ?sent_app, ?sent_Core, ?requests_prints, Hreq; cbn;
        now rewrite ?app_nil_r, ?Nat.add_0_r.
    + destruct Hr2 as [->|(e & -> & He)]; eauto.
Qed.

Lemma post_show_prices api symbols w (Q : stop + unit -> world -> Prop) :
  (forall r w',
     stdin w' = stdin w ->
     extends w w' [crypto_request api symbols] ->
     (r = inr tt \/ exists e, r = inl (Raised e) /\ escapes network e) ->
     Q r w') ->
  post (crypto_data <-
          core network (fun http_get => fetch_crypto_prices http_get api symbols) ;;
        core network (fun _ => display_crypto_prices api crypto_data)) w Q.
Proof.
  intros H. apply post_bind, post_core. intros r t E.
  pose proof (fetch_crypto_prices_requests (network (requests_made w))
                api symbols) as Hreq.
  rewrite E in Hreq; cbn [snd] in Hreq.
  assert (Hsafe : (forall n, raises_only_Exception (network n)) ->
                  exists v, r = inr v /\
                    forall e, returned (run (display_crypto_prices api v)) = inl e ->
                              In (exn_cls e) [TypeError; ValueError; OverflowError]).
  { intros Honly.
    destruct (fetch_crypto_prices_then_display (network (requests_made w))
                api symbols (Honly _)) as (v & t' & Hrun & Hd).
    rewrite Hrun in E. injection E as <- <-. eauto. }
  assert (Hnone : unavailable network -> r = inr PNone).
  { intros Hun.
    destruct (fetch_crypto_prices_unavailable (network (requests_made w))
                api symbols
                (Hun _ _ _ _)) as (t' & Hrun).
    rewrite Hrun in E. now injection E as <- <-. }
  destruct r as [e|v].
  - apply H; [reflexivity| |right; exists e; split; [reflexivity|]].
    + split; cbn [effects requests_made];
        now rewrite ?sent_app, ?sent_Core, Hreq.
    + split; [intros Honly; destruct (Hsafe Honly) as (v & [=] & _)|].
      intros Hun. discriminate (Hnone Hun).
  - apply post_core. intros r2 t2 E2.
    assert (Hr2 : r2 = inr tt \/ exists e, r2 = inl e /\ escapes network e).
    { destruct r2 as [e|[]]; [right|now left]. exists e. split; [reflexivity|].
      split.
      - intros Honly. destruct (Hsafe Honly) as (v' & [= <-] & Hd).
        apply Hd. rewrite E2. reflexivity.
      - intros Hun. pose proof (Hnone Hun) as Hv. injection Hv as ->.
        cbn in E2. discriminate E2. }
    destruct (display_crypto_prices_quiet api v []) as [lines Hlines].
    unfold run in E2. rewrite E2 in Hlines; cbn in Hlines; subst t2.
    apply H; [reflexivity| |].
    + split; cbn [effects requests_made];
        rewrite ?sent_app, ?sent_Core, ?requests_prints, Hreq; cbn;
        now rewrite ?app_nil_r, ?Nat.add_0_r.
    + destruct Hr2 as [->|(e & -> & He)]; eauto.
Qed.

End Program.

Lemma post_weaken {A} (c : P A) w (Q Q' : stop + A -> world -> Prop) :
  (forall r w', Q r w' -> Q' r w') -> post c w Q -> post c w Q'.
Proof. unfold post. auto. Qed.

Lemma post_ext {A} (c c' : P A) w (Q : stop + A -> world -> Prop) :
  c w = c' w -> post c' w Q -> post c w Q.
Proof. unfold post. now intros ->. Qed.

Lemma P_bind_assoc {A B C} (c : P A) (f : A -> P B) (g : B -> P C) w :
  (x <- c ;; (y <- f x ;; g y)) w = (y <- (x <- c ;; f x) ;; g y) w.
Proof.
  cbn. unfold P_bind. destruct (c w) as [[s|a] w1]; reflexivity.
Qed.

Ltac say_step := apply post_bind, post_say; cbn [stdin effects requests_made].

(** The world differs from [w] by prints and prompts only. *)
Ltac nothing_sent :=
  apply extends_refl; cbn [effects requests_made start];
  rewrite ?sent_app; cbn; rewrite ?app_nil_r; reflexivity.

Section Program.

Variable network : nat -> string -> list (string * string) -> Z -> exn + response.
Variable local_strftime : timestamp -> time_error + string.

(** The menu loop, with more fuel than lines to read. *)
Lemma interactive_mode_post api fuel : forall w,
  (length (stdin w) < fuel)%nat ->
  post (interactive_mode network local_strftime api fuel) w
    (run_post (escapes network) (plan_loop api (stdin w))
       (exits_loop (stdin w)) w).
Proof.
  induction fuel as [|fuel IH]; intros w Hlen; [lia|].
  cbn [interactive_mode].
  do 5 say_step.
  apply post_bind, post_input. cbn [stdin].
  destruct (stdin w) as [|c rest] eqn:Hs.
  { apply run_post_eof; [nothing_sent | reflexivity | reflexivity]. }
  cbn [plan_loop exits_loop]. cbn beta iota zeta.
  destruct (String.eqb (strip c) "1") eqn:H1.
  { apply post_bind, post_input. cbn [stdin].
    destruct rest as [|name rest'].
    { apply run_post_eof; [nothing_sent | reflexivity | reflexivity]. }
    cbn beta iota zeta.
    destruct (negb (String.eqb (strip name) "")) eqn:Hname.
    - apply post_bind, post_show_weather. intros r w1 Hstdin Hext Hr.
      cbn [stdin] in Hstdin.
      assert (Hw1 : extends w w1 [weather_request api (strip name)]).
      { change [weather_request api (strip name)]
          with ([] ++ [weather_request api (strip name)])%list.
        eapply extends_trans; [|exact Hext]. nothing_sent. }
      destruct Hr as [->|(e & -> & He)].
      + eapply post_weaken; [|apply IH; rewrite Hstdin; cbn in Hlen; lia].
        intros r w' Hpost. rewrite Hstdin in Hpost.
        eapply run_post_later; eassumption.
      + apply run_post_raised with (k := 1%nat); [exact Hw1 | exact He].
    - apply post_bind, post_ret.
      eapply post_weaken; [|apply IH; cbn [stdin]; cbn in Hlen; lia].
      intros r w' Hpost. cbn [stdin] in Hpost.
      refine (run_post_later _ _ _ w _ [] r w' _ Hpost); nothing_sent. }
  destruct (String.eqb (strip c) "2") eqn:H2.
  { apply post_bind, post_input. cbn [stdin].
    destruct rest as [|name rest'].
    { apply run_post_eof; [nothing_sent | reflexivity | reflexivity]. }
    cbn beta iota zeta.
    destruct (negb (String.eqb (lower (strip name)) "")) eqn:Hname.
    - apply post_bind, post_show_prices. intros r w1 Hstdin Hext Hr.
      cbn [stdin] in Hstdin.
      assert (Hw1 : extends w w1 [crypto_request api [lower (strip name)]]).
      { change [crypto_request api [lower (strip name)]]
          with ([] ++ [crypto_request api [lower (strip name)]])%list.
        eapply extends_trans; [|exact Hext]. nothing_sent. }
      destruct Hr as [->|(e & -> & He)].
      + eapply post_weaken; [|apply IH; rewrite Hstdin; cbn in Hlen; lia].
        intros r w' Hpost. rewrite Hstdin in Hpost.
        eapply run_post_later; eassumption.
      + apply run_post_raised with (k := 1%nat); [exact Hw1 | exact He].
    - apply post_bind, post_ret.
      eapply post_weaken; [|apply IH; cbn [stdin]; cbn in Hlen; lia].
      intros r w' Hpost. cbn [stdin] in Hpost.
      refine (run_post_later _ _ _ w _ [] r w' _ Hpost); nothing_sent. }
  destruct (String.eqb (strip c) "3") eqn:H3.
  { apply post_say. apply run_post_return; [nothing_sent | reflexivity |].
    cbn [effects]. rewrite console_app. cbn [console].
    now rewrite last_last. }
  say_step.
  eapply post_weaken; [|apply IH; cbn [stdin]; cbn in Hlen; lia].
  intros r w' Hpost. cbn [stdin] in Hpost.
  refine (run_post_later _ _ _ w _ [] r w' _ Hpost); nothing_sent.
Qed.

(** The whole program, started on the lines [lines]. *)
Lemma main_post lines :
  post (main network local_strftime) (start lines)
    (run_post (escapes network) (plan_main lines) (exits_main lines)
       (start lines)).
Proof.
  unfold main. cbn zeta.
  do 2 say_step.
  apply post_bind, post_input. cbn [stdin start].
  destruct lines as [|line rest].
  { apply run_post_eof; [nothing_sent | reflexivity | reflexivity]. }
  cbn [plan_main exits_main]. cbn beta iota zeta.
  destruct (negb (String.eqb (strip line) "")) eqn:Hcity.
  - apply post_bind, post_show_weather. intros r w1 Hstdin Hext Hr.
    cbn [stdin] in Hstdin.
    assert (Hw1 : extends (start (line :: rest)) w1
                    [weather_request init (strip line)]).
    { change [weather_request init (strip line)]
        with ([] ++ [weather_request init (strip line)])%list.
      eapply extends_trans; [|exact Hext]. nothing_sent. }
    destruct Hr as [->|(e & -> & He)].
    2:{ apply run_post_raised with (k := 1%nat); [exact Hw1 | exact He]. }
    say_step.
    eapply post_ext; [apply P_bind_assoc|].
    apply post_bind, post_show_prices. intros r w2 Hstdin2 Hext2 Hr2.
    cbn [stdin] in Hstdin2.
    assert (Hw2 : extends (start (line :: rest)) w2
                    ([weather_request init (strip line)] ++
                     [crypto_request init startup_symbols])).
    { eapply extends_trans; [exact Hw1|].
      change [crypto_request init startup_symbols]
        with ([] ++ [crypto_request init startup_symbols])%list.
      eapply extends_trans; [|exact Hext2]. nothing_sent. }
    destruct Hr2 as [->|(e & -> & He)].
    2:{ apply run_post_raised with (k := 2%nat); [exact Hw2 | exact He]. }
    apply post_ext
      with (c' := interactive_mode network local_strftime init
                    (S (length (stdin w2)))); [reflexivity|].
    eapply post_weaken; [|apply interactive_mode_post; lia].
    intros r w' Hpost. rewrite Hstdin2, Hstdin in Hpost.
    exact (run_post_later _ _ _ _ _ _ _ _ Hw2 Hpost).
  - apply post_bind, post_ret.
    say_step.
    eapply post_ext; [apply P_bind_assoc|].
    apply post_bind, post_show_prices. intros r w2 Hstdin2 Hext2 Hr2.
    cbn [stdin] in Hstdin2.
    assert (Hw2 : extends (start (line :: rest)) w2
                    [crypto_request init startup_symbols]).
    { change [crypto_request init startup_symbols]
        with ([] ++ [crypto_request init startup_symbols])%list.
      eapply extends_trans; [|exact Hext2]. nothing_sent. }
    destruct Hr2 as [->|(e & -> & He)].
    2:{ apply run_post_raised with (k := 1%nat); [exact Hw2 | exact He]. }
    apply post_ext
      with (c' := interactive_mode network local_strftime init
                    (S (length (stdin w2)))); [reflexivity|].
    eapply post_weaken; [|apply interactive_mode_post; lia].
    intros r w' Hpost. rewrite Hstdin2 in Hpost.
    exact (run_post_later _ _ _ _ _ _ _ _ Hw2 Hpost).
Qed.

End Program.

(** ** The program *)

(** X13. On lines of ASCII text, the requests of a run of [main] are
    those the lines of the standard input imply, in their order: the
    weather of the city of the first line, stripped, unless it is blank;
    the prices of bitcoin, ethereum, cardano and solana; then, per menu
    round up to the first choice [3], the weather of the city named after
    a choice [1] or the price of the one symbol named after a choice [2],
    stripped and in lower case, and nothing for a blank name or for a
    choice that is none of the three. A run sends a first part of these
    requests, and all of them unless an exception leaves one of the
    methods. *)
Theorem main_requests_follow_the_input
    (network : nat -> string -> list (string * string) -> Z -> exn + response)
    (local_strftime : timestamp -> time_error + string)
    (lines : list string)
    (Hascii : forallb ascii_text lines = true) :
  let x := main network local_strftime (start lines) in
  (exists k, sent (effects (snd x)) = firstn k (plan_main lines)) /\
  ((forall e, fst x <> inl (Raised e)) ->
   sent (effects (snd x)) = plan_main lines).
Proof.
  cbv zeta.
  destruct (main_post network local_strftime lines)
    as (Hfuel & (k & Hk & _) & Hret & Heof & _).
  split; [exists k; exact Hk|].
  intros Hraise.
  destruct (fst (main network local_strftime (start lines)))
    as [[e|msg|]|[]] eqn:Hr.
  - now destruct (Hraise e).
  - now destruct (Heof msg eq_refl) as (_ & _ & H & _).
  - now destruct Hfuel.
  - now destruct (Hret eq_refl) as (_ & (H & _) & _).
Qed.

Lemma main_requests_follow_the_input_witness :
  forallb ascii_text session = true /\
  (forall e, fst (main session_network utc_strftime (start session))
             <> inl (Raised e)) /\
  sent (effects (snd (main session_network utc_strftime (start session)))) =
    [weather_request init "London";
     crypto_request init ["bitcoin"; "ethereum"; "cardano"; "solana"];
     crypto_request init ["bitcoin"]].
Proof.
  assert (H : forall e, fst (main session_network utc_strftime (start session))
                        <> inl (Raised e))
    by (intros e; vm_compute; discriminate).
  split; [reflexivity|]. split; [exact H|].
  rewrite (proj2 (main_requests_follow_the_input session_network utc_strftime
                    session eq_refl) H).
  vm_compute. reflexivity.
Defined.

(** X14. On lines of ASCII text, [main] stops, and in one of three
    ways. It returns only after a choice [3], and the last line it
    printed is then the line of thanks; it ends with [EOFError] only when
    the input ends before a choice [3], with every line read; or an
    exception leaves one of the methods. The loop [while True] reads a
    line in every round: it begins at most one round more than there are
    lines left when it starts. *)
Theorem main_stops_at_exit_or_end_of_input
    (network : nat -> string -> list (string * string) -> Z -> exn + response)
    (local_strftime : timestamp -> time_error + string)
    (lines : list string)
    (Hascii : forallb ascii_text lines = true) :
  let x := main network local_strftime (start lines) in
  fst x <> inl OutOfFuel /\
  (fst x = inr tt ->
   exits_main lines = true /\
   last (console (effects (snd x))) "" = thanks) /\
  (forall msg, fst x = inl (EOFError msg) ->
   exits_main lines = false /\ stdin (snd x) = []).
Proof.
  cbv zeta.
  destruct (main_post network local_strftime lines)
    as (Hfuel & _ & Hret & Heof & _).
  split; [exact Hfuel|]. split.
  - intros Hr. destruct (Hret Hr) as (He & _ & Hl). auto.
  - intros msg Hr. destruct (Heof msg Hr) as (He & Hs & _). auto.
Qed.

Lemma main_stops_at_exit_or_end_of_input_witness :
  forallb ascii_text session = true /\
  fst (main session_network utc_strftime (start session)) = inr tt /\
  exits_main session = true /\
  last (console (effects (snd (main session_network utc_strftime
                                 (start session))))) "" = thanks /\
  stdin (snd (main session_network utc_strftime (start session)))
    = ["never read"].
Proof.
  assert (H : fst (main session_network utc_strftime (start session)) = inr tt)
    by (vm_compute; reflexivity).
  split; [reflexivity|]. split; [exact H|].
  destruct (main_stops_at_exit_or_end_of_input session_network utc_strftime
              session eq_refl) as (_ & Hret & _).
  destruct (Hret H) as [He Hl].
  split; [exact He|]. split; [exact Hl|]. vm_compute. reflexivity.
Defined.

(** X15. When the transport and the decoder raise only exceptions of
    class [Exception], an exception that leaves [main], the end of the
    input apart, is a [TypeError], a [ValueError] or an [OverflowError]:
    the classes of [display_crypto_prices] formatting a value that is no
    number. *)
Theorem only_formatting_errors_leave_main
    (network : nat -> string -> list (string * string) -> Z -> exn + response)
    (local_strftime : timestamp -> time_error + string)
    (lines : list string)
    (Honly : forall n, raises_only_Exception (network n)) :
  forall e, fst (main network local_strftime (start lines)) = inl (Raised e) ->
            In (exn_cls e) [TypeError; ValueError; OverflowError].
Proof.
  intros e Hr.
  destruct (main_post network local_strftime lines)
    as (_ & _ & _ & _ & Hok).
  exact (proj1 (Hok e Hr) Honly).
Qed.

(** The start-up prices come with a change that is [null]. *)
Lemma only_formatting_errors_leave_main_witness :
  (forall n, raises_only_Exception (replies [answer 200 bitcoin_null_change] n)) /\
  fst (main (replies [answer 200 bitcoin_null_change]) utc_strftime
         (start [""; "3"]))
    = inl (Raised (Exn TypeError
                     "unsupported format string passed to NoneType.__format__")) /\
  In TypeError [TypeError; ValueError; OverflowError].
Proof.
  assert (Honly : forall n,
            raises_only_Exception (replies [answer 200 bitcoin_null_change] n)).
  { intros n url params timeout.
    destruct n as [|[|n]]; cbn; try exact I; reflexivity. }
  assert (Hr : fst (main (replies [answer 200 bitcoin_null_change]) utc_strftime
                      (start [""; "3"]))
               = inl (Raised (Exn TypeError
                       "unsupported format string passed to NoneType.__format__")))
    by (vm_compute; reflexivity).
  split; [exact Honly|]. split; [exact Hr|].
  exact (only_formatting_errors_leave_main _ utc_strftime [""; "3"] Honly _ Hr).
Defined.

(** X16. On lines of ASCII text, when no request is answered with
    status 200 (the transport raises an exception of class [Exception],
    say for want of a connection, or the server answers with another
    status), no exception leaves [main] but the end of the input: all
    the requests the input implies are sent, and the program returns when
    the input leads to a choice [3] and else ends with [EOFError], every
    line read. *)
Theorem main_survives_an_unavailable_service
    (network : nat -> string -> list (string * string) -> Z -> exn + response)
    (local_strftime : timestamp -> time_error + string)
    (lines : list string)
    (Hascii : forallb ascii_text lines = true)
    (Hdown : unavailable network) :
  let x := main network local_strftime (start lines) in
  sent (effects (snd x)) = plan_main lines /\
  (if exits_main lines then fst x = inr tt
   else exists msg, fst x = inl (EOFError msg) /\ stdin (snd x) = []).
Proof.
  cbv zeta.
  destruct (main_post network local_strftime lines)
    as (Hfuel & _ & Hret & Heof & Hok).
  destruct (fst (main network local_strftime (start lines)))
    as [[e|msg|]|[]] eqn:Hr.
  - destruct (proj2 (Hok e eq_refl) Hdown).
  - destruct (Heof msg eq_refl) as (-> & Hs & (H & _)). eauto.
  - now destruct Hfuel.
  - destruct (Hret eq_refl) as (-> & (H & _) & _). auto.
Qed.

(** The weather service answers 503 and nothing else connects. *)
Lemma main_survives_an_unavailable_service_witness :
  forallb ascii_text ["Paris"; "1"; "Rome"; "2"] = true /\
  unavailable (replies [answer 503 PNone]) /\
  sent (effects (snd (main (replies [answer 503 PNone]) utc_strftime
                        (start ["Paris"; "1"; "Rome"; "2"])))) =
    [weather_request init "Paris";
     crypto_request init ["bitcoin"; "ethereum"; "cardano"; "solana"];
     weather_request init "Rome"] /\
  exists msg,
    fst (main (replies [answer 503 PNone]) utc_strftime
           (start ["Paris"; "1"; "Rome"; "2"])) = inl (EOFError msg) /\
    stdin (snd (main (replies [answer 503 PNone]) utc_strftime
                  (start ["Paris"; "1"; "Rome"; "2"]))) = [].
Proof.
  assert (Hdown : unavailable (replies [answer 503 PNone])).
  { intros n url params timeout.
    destruct n as [|[|n]]; cbn; try reflexivity; discriminate. }
  split; [reflexivity|]. split; [exact Hdown|].
  destruct (main_survives_an_unavailable_service (replies [answer 503 PNone])
              utc_strftime ["Paris"; "1"; "Rome"; "2"] eq_refl Hdown)
    as [Hsent Hend].
  split; [rewrite Hsent; vm_compute; reflexivity | exact Hend].
Defined.
